(** * ACTS android_device controller: a shallow embedding

    Source: acts/framework/acts/controllers/android_device.py

    The module drives Android devices through adb, fastboot and sl4a.  Pure
    helpers (the device-list parser, the accessors over the session
    registries, the log-excerpt scan) become Rocq functions.  Methods that
    talk to the outside world are written in a small state-and-exception
    monad: the outside world answers every external call through an
    oracle, and every call is recorded, with its outcome and the time it
    was issued, in a trace. *)

From Stdlib Require Import List Bool Arith ZArith NArith Lia.
From Stdlib Require Import Ascii String DecimalString.
Import ListNotations.

Open Scope string_scope.
Open Scope list_scope.

(** ** Python text

    A Python [str] is modelled by [string]; a character stands for a code
    point below 256.  [bytes] values that the source decodes as utf-8 are
    modelled by the text they decode to. *)

Module PyStr.

Infix "+++" := String.append (at level 60, right associativity).

Definition LF : ascii := "010"%char.
Definition TAB : ascii := "009"%char.
Definition nl : string := String LF "".

(** [str.isspace] on one character (code points below 256): the ASCII
    controls 9-13 and 28-31, the space, NEL (133) and NBSP (160). *)
Definition isspace (c : ascii) : bool :=
  let n := nat_of_ascii c in
  (((9 <=? n) && (n <=? 13)) || ((28 <=? n) && (n <=? 32))
   || (n =? 133) || (n =? 160))%nat.

(** [s.lstrip()] *)
Fixpoint lstrip (s : string) : string :=
  match s with
  | "" => ""
  | String c s' => if isspace c then lstrip s' else s
  end.

(** [s.rstrip()] *)
Fixpoint rstrip (s : string) : string :=
  match s with
  | "" => ""
  | String c s' =>
      match rstrip s' with
      | "" => if isspace c then "" else String c ""
      | r => String c r
      end
  end.

(** [s.strip()] *)
Definition strip (s : string) : string := lstrip (rstrip s).

(** [s.split(sep)] for a separator of one character: never empty. *)
Fixpoint split (sep : ascii) (s : string) : list string :=
  match s with
  | "" => [""]
  | String c s' =>
      if Ascii.eqb c sep then "" :: split sep s'
      else match split sep s' with
           | h :: t => String c h :: t
           | [] => [String c ""]
           end
  end.

(** [sep.join(l)] *)
Fixpoint join (sep : string) (l : list string) : string :=
  match l with
  | [] => ""
  | [x] => x
  | x :: rest => x +++ sep +++ join sep rest
  end.

(** [c in s] for a character. *)
Fixpoint contains_char (c : ascii) (s : string) : bool :=
  match s with
  | "" => false
  | String a s' => Ascii.eqb a c || contains_char c s'
  end.

Fixpoint all_space (s : string) : bool :=
  match s with
  | "" => true
  | String c s' => isspace c && all_space s'
  end.


(** [bytes.strip()]: only the ASCII white space (space, tab, line feed,
    carriage return, vertical tab, form feed). *)
Definition bytes_isspace (c : ascii) : bool :=
  let n := nat_of_ascii c in
  (((9 <=? n) && (n <=? 13)) || (n =? 32))%nat.

Fixpoint bytes_lstrip (s : string) : string :=
  match s with
  | "" => ""
  | String c s' => if bytes_isspace c then bytes_lstrip s' else s
  end.

Fixpoint bytes_rstrip (s : string) : string :=
  match s with
  | "" => ""
  | String c s' =>
      match bytes_rstrip s' with
      | "" => if bytes_isspace c then "" else String c ""
      | r => String c r
      end
  end.

Definition bytes_strip (s : string) : string := bytes_lstrip (bytes_rstrip s).

(** [s.lower()] on code points below 256. *)
Definition lower_char (c : ascii) : ascii :=
  let n := nat_of_ascii c in
  if (((65 <=? n) && (n <=? 90))
      || ((192 <=? n) && (n <=? 222) && negb (n =? 215)))%nat
  then ascii_of_nat (n + 32) else c.

Fixpoint lower (s : string) : string :=
  match s with
  | "" => ""
  | String c s' => String (lower_char c) (lower s')
  end.

(** [pat in s] *)
Fixpoint is_substring (pat s : string) : bool :=
  String.prefix pat s ||
  match s with
  | "" => false
  | String _ s' => is_substring pat s'
  end.

(** [s.startswith(c)] and [s.endswith(c)] for one character. *)
Definition startswith_char (c : ascii) (s : string) : bool :=
  match s with
  | String a _ => Ascii.eqb a c
  | "" => false
  end.

Fixpoint endswith_char (c : ascii) (s : string) : bool :=
  match s with
  | "" => false
  | String a "" => Ascii.eqb a c
  | String _ s' => endswith_char c s'
  end.

Fixpoint take_chars (n : nat) (s : string) : string :=
  match n, s with
  | S k, String c s' => String c (take_chars k s')
  | _, _ => ""
  end.

(** [s[:n]] for a Python integer [n]: a negative bound counts from the
    end. *)
Definition slice_to (s : string) (n : Z) : string :=
  if (0 <=? n)%Z then take_chars (Z.to_nat n) s
  else take_chars (String.length s - Z.to_nat (- n)) s.

(** [s[:-1]] *)
Definition drop_last_char (s : string) : string := slice_to s (-1).

(** [s.replace(old, new)] for a non-empty [old]: the occurrences of [old]
    are found from the left and do not overlap; [skip] counts the characters
    of a found occurrence still to be dropped. *)
Fixpoint replace_aux (old new s : string) (skip : nat) : string :=
  match s with
  | "" => ""
  | String c s' =>
      match skip with
      | S k => replace_aux old new s' k
      | O =>
          if String.prefix old s
          then new +++ replace_aux old new s' (String.length old - 1)
          else String c (replace_aux old new s' 0)
      end
  end.

Definition replace (old new s : string) : string := replace_aux old new s 0.

(** [str(n)] for an integer. *)
Definition str_of_Z (z : Z) : string := NilZero.string_of_int (Z.to_int z).

(** [os.path.join(a, b)] (posixpath) *)
Definition os_path_join (a b : string) : string :=
  if startswith_char "/" b then b
  else if String.eqb a "" || endswith_char "/" a then a +++ b
  else a +++ "/" +++ b.


End PyStr.
Import PyStr.

(** ** Python dictionaries

    A [dict] keeps its keys in insertion order and holds a key once: an
    association list, in which [d[k] = v] replaces the value of a present
    key in place and appends an absent one. *)

Module PyDict.
Section Dict.
Context {K V : Type} (eqb : K -> K -> bool).

Definition dict : Type := list (K * V).

(** [d.get(k)], the value of [d[k]] when [k in d]. *)
Fixpoint dict_get (k : K) (d : dict) : option V :=
  match d with
  | [] => None
  | (k', v) :: rest => if eqb k' k then Some v else dict_get k rest
  end.

(** [k in d] *)
Definition dict_mem (k : K) (d : dict) : bool :=
  match dict_get k d with Some _ => true | None => false end.

(** [d[k] = v] *)
Fixpoint dict_set (k : K) (v : V) (d : dict) : dict :=
  match d with
  | [] => [(k, v)]
  | (k', v') :: rest =>
      if eqb k' k then (k', v) :: rest else (k', v') :: dict_set k v rest
  end.

(** [del d[k]] for a present key. *)
Fixpoint dict_del (k : K) (d : dict) : dict :=
  match d with
  | [] => []
  | (k', v') :: rest => if eqb k' k then rest else (k', v') :: dict_del k rest
  end.

(** [list(d.keys())] *)
Definition dict_keys (d : dict) : list K := map fst d.

End Dict.

(** [sorted(l)]: a stable insertion sort for the order [leb]. *)
Section Sorted.
Context {K : Type} (leb : K -> K -> bool).

Fixpoint insert_sorted (x : K) (l : list K) : list K :=
  match l with
  | [] => [x]
  | y :: rest => if leb x y then x :: l else y :: insert_sorted x rest
  end.

Definition sorted (l : list K) : list K :=
  fold_right insert_sorted [] l.

End Sorted.
End PyDict.
(** ** Device enumeration (lines 118-157) *)

(** The [for line in clean_lines] loop of [_parse_device_list], with
    [results] as the accumulator. *)
Fixpoint _parse_device_list_loop (key : string) (clean_lines : list string)
    (results : list string) : list string :=
  match clean_lines with
  | [] => results
  | line :: rest =>
      let tokens := split TAB (strip line) in
      if (List.length tokens =? 2)%nat && String.eqb (nth 1 tokens "") key
      then _parse_device_list_loop key rest (results ++ [nth 0 tokens ""])
      else _parse_device_list_loop key rest results
  end.

Definition _parse_device_list (device_list_str key : string) : list string :=
  let clean_lines := split LF (strip device_list_str) in
  _parse_device_list_loop key clean_lines [].

(** The serial of a line that has exactly two tab-separated columns, the
    second being [key]. *)
Definition serial_of_line (key line : string) : list string :=
  match split TAB line with
  | [c1; c2] => if String.eqb c2 key then [c1] else []
  | _ => []
  end.

Definition matching_serials (key : string) (lines : list string) : list string :=
  flat_map (serial_of_line key) lines.

(** A line of well-formed device-list text: no line break inside it and no
    white space around it. *)
Definition well_formed_line (line : string) : Prop :=
  contains_char LF line = false /\ strip line = line.


(** ** Exceptions, objects and the outside world *)

Inductive exn : Type :=
| AndroidDeviceError (msg : string)
| DoesNotExistError (msg : string)   (* a subclass of AndroidDeviceError *)
| SL4AException (msg : string)       (* android.SL4AException *)
| AdbError (msg : string)            (* adb.AdbError *)
| IndexError
| KeyError
| AttributeError
| OtherError (msg : string).         (* any other exception *)

Definition is_AdbError (e : exn) : bool :=
  match e with AdbError _ => true | _ => false end.

Definition is_AttributeError (e : exn) : bool :=
  match e with AttributeError => true | _ => false end.

(** An [android.Android] object: one connection to an sl4a session.  The
    server assigns [uid], the id of the session, during the handshake. *)
Record Android : Type := { droid_id : nat; uid : Z }.

(** An [event_dispatcher.EventDispatcher] object and the connection it
    polls. *)
Record EventDispatcher : Type := { ed_id : nat; ed_droid : Android }.

(** The handle of a standing subprocess. *)
Record Process : Type := { proc_id : nat }.

(** Values read from a json configuration. *)
Inductive pyval : Type :=
| PyNone
| PyBool (b : bool)
| PyInt (z : Z)
| PyStr (s : string).

Definition truthy (v : pyval) : bool :=
  match v with
  | PyNone => false
  | PyBool b => b
  | PyInt z => negb (z =? 0)%Z
  | PyStr s => negb (String.eqb s "")
  end.

(** [str(v)] *)
Definition py_str (v : pyval) : string :=
  match v with
  | PyNone => "None"
  | PyBool true => "True"
  | PyBool false => "False"
  | PyInt z => str_of_Z z
  | PyStr s => s
  end.

(** The calls that leave this module: adb, fastboot, sl4a connections,
    event dispatchers, subprocesses, files, logging and the clock. *)
Inductive call : Type :=
| adb_devices
| fastboot_devices
| adb_shell (serial cmd : string)
| adb_root (serial : string)
| adb_remount (serial : string)
| adb_wait_for_device (serial : string)
| adb_forward (serial args : string)
| adb_tcp_forward (serial : string) (host_port : option Z) (device_port : Z)
| adb_start_sl4a (serial : string)
| fastboot_getvar (serial name : string)
| is_port_available (port : Z)
| get_available_host_port
| Android_new (cmd : string) (session : Z) (port : option Z)
| closeSl4aSession (droid : Android)
| Android_close (droid : Android)
| EventDispatcher_new (droid : Android)
| EventDispatcher_start (ed : EventDispatcher)
| EventDispatcher_clean_up (ed : EventDispatcher)
| create_dir (path : string)
| start_standing_subprocess (cmd : string)
| stop_standing_subprocess (proc : Process)
| get_log_line_timestamp
| open_write (path : string)
| open_read (path : string)
| file_write (path line : string)
| logging_exception (msg : string)
| log_debug (msg : string)
| time_time
| time_sleep (seconds : Z).

Inductive value : Type :=
| VNone
| VBool (b : bool)
| VInt (z : Z)
| VStr (s : string)
| VObj (id : nat)
| VLines (l : list (option string)).

Inductive outcome : Type :=
| Returned (v : value)
| Raised (e : exn).

(** One entry of the trace: when the call was issued, the call, and how it
    ended. *)
Record event : Type := { ev_time : Z; ev_call : call; ev_out : outcome }.

(** Everything outside the source file.  The oracle answers the [n]-th
    call of a run: whether it raises, what it returns, and how long it
    takes.  The rest are the constants and functions of [acts.logger],
    [acts.utils] and [logging] that the module reads. *)
Record Env : Type := {
  raises : nat -> call -> option exn;
  ret_str : nat -> call -> string;
  ret_int : nat -> call -> Z;
  ret_bool : nat -> call -> bool;
  (** the results of the successive [readline] calls on a file opened for
      reading, up to the end of the file; [None] is a call that raises *)
  ret_lines : nat -> call -> list (option string);
  elapsed : nat -> call -> N;
  (** [utils.MAX_FILENAME_LEN] *)
  MAX_FILENAME_LEN : Z;
  (** [acts_logger.log_line_timestamp_len] *)
  log_line_timestamp_len : nat;
  (** [acts_logger.is_valid_logline_timestamp] *)
  is_valid_logline_timestamp : string -> bool;
  (** [acts_logger.logline_timestamp_comparator] *)
  logline_timestamp_comparator : string -> string -> Z;
  (** [getattr(logging, "log_path", "/tmp/logs")] *)
  logging_log_path : option string
}.

(** The clock counts ticks; [time.time()] and [time.sleep] work in
    seconds. *)
Definition ticks_per_second : Z := 1000.

Record World : Type := {
  trace : list event;   (* the calls made so far, oldest first *)
  now : Z;              (* the clock, in ticks *)
  next_id : nat         (* the next fresh object identity *)
}.

Definition World0 : World := {| trace := []; now := 0; next_id := 0 |}.

(** ** The monad: a state [St], the world, exceptions *)

Inductive result (A : Type) : Type :=
| Ok (a : A)
| Raise (e : exn)
| Diverge.       (* a loop that ran out of fuel *)
Arguments Ok {A} a.
Arguments Raise {A} e.
Arguments Diverge {A}.

Record out (St A : Type) : Type := { res : result A; world : World; st : St }.
Arguments res {St A} o.
Arguments world {St A} o.
Arguments st {St A} o.

Definition M (St A : Type) : Type := Env -> World -> St -> out St A.

Section Monad.
Context {St : Type}.

Definition ret {A : Type} (a : A) : M St A :=
  fun _ w s => {| res := Ok a; world := w; st := s |}.

Definition bind {A B : Type} (m : M St A) (k : A -> M St B) : M St B :=
  fun env w s =>
    let o := m env w s in
    match res o with
    | Ok a => k a env (world o) (st o)
    | Raise e => {| res := Raise e; world := world o; st := st o |}
    | Diverge => {| res := Diverge; world := world o; st := st o |}
    end.

Definition raise {A : Type} (e : exn) : M St A :=
  fun _ w s => {| res := Raise e; world := w; st := s |}.

Definition diverge {A : Type} : M St A :=
  fun _ w s => {| res := Diverge; world := w; st := s |}.

(** [try: m  except <those e with catches e>: handler] *)
Definition try_except_if {A : Type} (catches : exn -> bool) (m : M St A)
    (handler : exn -> M St A) : M St A :=
  fun env w s =>
    let o := m env w s in
    match res o with
    | Raise e => if catches e then handler e env (world o) (st o) else o
    | _ => o
    end.

(** [try: m  except: handler] *)
Definition try_except {A : Type} (m : M St A) (handler : exn -> M St A)
  : M St A := try_except_if (fun _ => true) m handler.

Definition get : M St St :=
  fun _ w s => {| res := Ok s; world := w; st := s |}.

Definition modify (f : St -> St) : M St unit :=
  fun _ w s => {| res := Ok tt; world := w; st := f s |}.

Definition ask : M St Env :=
  fun env w s => {| res := Ok env; world := w; st := s |}.

Definition log_event (c : call) (o : outcome) (dt : Z) (w : World) : World :=
  {| trace := trace w ++ [{| ev_time := now w; ev_call := c; ev_out := o |}];
     now := now w + dt;
     next_id := next_id w |}.

(** An external call whose result is read off the oracle by [answer]. *)
Definition call_with {A : Type} (answer : Env -> nat -> call -> A)
    (inj : A -> value) (c : call) : M St A :=
  fun env w s =>
    let n := List.length (trace w) in
    let dt := Z.of_N (elapsed env n c) in
    match raises env n c with
    | Some e => {| res := Raise e; world := log_event c (Raised e) dt w; st := s |}
    | None =>
        let a := answer env n c in
        {| res := Ok a; world := log_event c (Returned (inj a)) dt w; st := s |}
    end.

Definition call_unit : call -> M St unit :=
  call_with (fun _ _ _ => tt) (fun _ => VNone).
Definition call_str : call -> M St string := call_with ret_str VStr.
Definition call_int : call -> M St Z := call_with ret_int VInt.
Definition call_bool : call -> M St bool := call_with ret_bool VBool.
Definition call_lines : call -> M St (list (option string)) :=
  call_with ret_lines VLines.

(** An external call that builds an object: it gets a fresh identity. *)
Definition call_new (c : call) : M St nat :=
  fun env w s =>
    let n := List.length (trace w) in
    let dt := Z.of_N (elapsed env n c) in
    match raises env n c with
    | Some e => {| res := Raise e; world := log_event c (Raised e) dt w; st := s |}
    | None =>
        let id := next_id w in
        let w' := log_event c (Returned (VObj id)) dt w in
        {| res := Ok id;
           world := {| trace := trace w'; now := now w'; next_id := S id |};
           st := s |}
    end.

(** Logging: recorded, never raises. *)
Definition note (c : call) : M St unit :=
  fun env w s =>
    let n := List.length (trace w) in
    {| res := Ok tt;
       world := log_event c (Returned VNone) (Z.of_N (elapsed env n c)) w;
       st := s |}.

(** [time.time()], in ticks; reading the clock takes no time. *)
Definition py_time : M St Z :=
  fun env w s =>
    {| res := Ok (now w);
       world := log_event time_time (Returned (VInt (now w))) 0 w;
       st := s |}.

(** [time.sleep(seconds)]: at least that long. *)
Definition py_sleep (seconds : Z) : M St unit :=
  fun env w s =>
    let n := List.length (trace w) in
    let c := time_sleep seconds in
    {| res := Ok tt;
       world := log_event c (Returned VNone)
                  (seconds * ticks_per_second + Z.of_N (elapsed env n c)) w;
       st := s |}.

End Monad.

Notation "x <- c1 ;; c2" := (bind c1 (fun x => c2))
  (at level 61, c1 at next level, right associativity).
Notation "c1 ;; c2" := (bind c1 (fun _ => c2))
  (at level 61, right associativity).

(** [android.Android(cmd, uid, port)] *)
Definition new_Android {St : Type} (cmd : string) (session : Z)
    (port : option Z) : M St Android :=
  fun env w s =>
    let c := Android_new cmd session port in
    let n := List.length (trace w) in
    let o := call_new c env w s in
    match res o with
    | Ok id => {| res := Ok {| droid_id := id; uid := ret_int env n c |};
                  world := world o; st := st o |}
    | Raise e => {| res := Raise e; world := world o; st := st o |}
    | Diverge => {| res := Diverge; world := world o; st := st o |}
    end.

(** [event_dispatcher.EventDispatcher(droid)] *)
Definition new_EventDispatcher {St : Type} (droid : Android)
  : M St EventDispatcher :=
  id <- call_new (EventDispatcher_new droid) ;;
  ret {| ed_id := id; ed_droid := droid |}.

(** [utils.start_standing_subprocess(cmd)] *)
Definition new_Process {St : Type} (cmd : string) : M St Process :=
  id <- call_new (start_standing_subprocess cmd) ;;
  ret {| proc_id := id |}.

(** ** The device object (class [AndroidDevice], lines 298-820) *)

Import PyDict.

Record AndroidDevice : Type := {
  serial : string;
  h_port : option Z;
  d_port : Z;
  log_path : string;
  (** session id -> the connections of the session *)
  _droid_sessions : list (Z * list Android);
  (** serial + str(session id) -> the dispatcher of the session *)
  _event_dispatchers : list (string * option EventDispatcher);
  adb_logcat_process : option Process;
  adb_logcat_file_path : option string;
  (** the attributes added by [load_config] *)
  attrs : list (string * pyval)
}.

Definition set_h_port (p : option Z) (self : AndroidDevice) : AndroidDevice :=
  {| serial := serial self; h_port := p; d_port := d_port self;
     log_path := log_path self; _droid_sessions := _droid_sessions self;
     _event_dispatchers := _event_dispatchers self;
     adb_logcat_process := adb_logcat_process self;
     adb_logcat_file_path := adb_logcat_file_path self; attrs := attrs self |}.

Definition set_droid_sessions (d : list (Z * list Android))
    (self : AndroidDevice) : AndroidDevice :=
  {| serial := serial self; h_port := h_port self; d_port := d_port self;
     log_path := log_path self; _droid_sessions := d;
     _event_dispatchers := _event_dispatchers self;
     adb_logcat_process := adb_logcat_process self;
     adb_logcat_file_path := adb_logcat_file_path self; attrs := attrs self |}.

Definition set_event_dispatchers (d : list (string * option EventDispatcher))
    (self : AndroidDevice) : AndroidDevice :=
  {| serial := serial self; h_port := h_port self; d_port := d_port self;
     log_path := log_path self; _droid_sessions := _droid_sessions self;
     _event_dispatchers := d;
     adb_logcat_process := adb_logcat_process self;
     adb_logcat_file_path := adb_logcat_file_path self; attrs := attrs self |}.

Definition set_adb_logcat_process (p : option Process)
    (self : AndroidDevice) : AndroidDevice :=
  {| serial := serial self; h_port := h_port self; d_port := d_port self;
     log_path := log_path self; _droid_sessions := _droid_sessions self;
     _event_dispatchers := _event_dispatchers self;
     adb_logcat_process := p;
     adb_logcat_file_path := adb_logcat_file_path self; attrs := attrs self |}.

Definition set_adb_logcat_file_path (p : option string)
    (self : AndroidDevice) : AndroidDevice :=
  {| serial := serial self; h_port := h_port self; d_port := d_port self;
     log_path := log_path self; _droid_sessions := _droid_sessions self;
     _event_dispatchers := _event_dispatchers self;
     adb_logcat_process := adb_logcat_process self;
     adb_logcat_file_path := p; attrs := attrs self |}.

Definition set_attrs (a : list (string * pyval))
    (self : AndroidDevice) : AndroidDevice :=
  {| serial := serial self; h_port := h_port self; d_port := d_port self;
     log_path := log_path self; _droid_sessions := _droid_sessions self;
     _event_dispatchers := _event_dispatchers self;
     adb_logcat_process := adb_logcat_process self;
     adb_logcat_file_path := adb_logcat_file_path self; attrs := a |}.

(** Methods run on [self]. *)
Definition DevM (A : Type) : Type := M AndroidDevice A.

(** [if self.h_port:]: neither [None] nor 0. *)
Definition port_truthy (p : option Z) : bool :=
  match p with
  | Some n => negb (n =? 0)%Z
  | None => false
  end.


(** [AndroidDeviceLoggerAdapter.process] (lines 823-826) *)
Definition logger_adapter (self : AndroidDevice) (msg : string) : string :=
  "[AndroidDevice|" +++ serial self +++ "] " +++ msg.

(** [list_adb_devices] (lines 138-146) *)
Definition list_adb_devices {St : Type} : M St (list string) :=
  out <- call_str adb_devices ;;
  ret (_parse_device_list out "device").

(** [list_fastboot_devices] (lines 149-157) *)
Definition list_fastboot_devices {St : Type} : M St (list string) :=
  out <- call_str fastboot_devices ;;
  ret (_parse_device_list out "fastboot").

(** Property [is_bootloader] *)
Definition is_bootloader : DevM bool :=
  self <- get ;;
  l <- list_fastboot_devices ;;
  ret (existsb (String.eqb (serial self)) l).

(** Property [is_adb_root] *)
Definition is_adb_root : DevM bool :=
  self <- get ;;
  out <- call_str (adb_shell (serial self) "id -u") ;;
  ret (is_substring "root" out).

(** Property [model]; [lines[0]] of [split('\n', 1)] is the text before the
    first line break, and [lines] is never empty. *)
Definition model : DevM (option string) :=
  self <- get ;;
  b <- is_bootloader ;;
  if b then
    out <- call_str (fastboot_getvar (serial self) "product") ;;
    let out := bytes_strip out in
    let lines := split LF out in
    let tokens := split " " (hd "" lines) in
    if (1 <? List.length tokens)%nat
    then ret (Some (lower (nth 1 tokens "")))
    else ret None
  else
    out <- call_str (adb_shell (serial self) "getprop | grep ro.build.product") ;;
    let model := lower (drop_last_char (last (split "[" (strip out)) "")) in
    if String.eqb model "sprout" then ret (Some model)
    else
      out <- call_str (adb_shell (serial self) "getprop | grep ro.product.name") ;;
      let model := lower (drop_last_char (last (split "[" (strip out)) "")) in
      ret (Some model).

(** Property [droid]: [None] on [IndexError].  The lookup of a key that
    [sorted] returned cannot raise [KeyError]. *)
Definition droid (self : AndroidDevice) : option Android :=
  match sorted Z.leb (dict_keys (_droid_sessions self)) with
  | [] => None
  | session_id :: _ =>
      match dict_get Z.eqb session_id (_droid_sessions self) with
      | Some (d :: _) => Some d
      | _ => None
      end
  end.

(** Property [ed] *)
Definition ed (self : AndroidDevice) : option EventDispatcher :=
  match sorted String.leb (dict_keys (_event_dispatchers self)) with
  | [] => None
  | session_id :: _ =>
      match dict_get String.eqb session_id (_event_dispatchers self) with
      | Some e => e
      | None => None
      end
  end.

(** Property [droids]; a session with no connection would raise
    [IndexError]. *)
Fixpoint droids_loop (sessions : list (Z * list Android)) (ks : list Z)
  : option (list Android) :=
  match ks with
  | [] => Some []
  | k :: rest =>
      match dict_get Z.eqb k sessions with
      | Some (d :: _) => option_map (cons d) (droids_loop sessions rest)
      | _ => None
      end
  end.

Definition droids (self : AndroidDevice) : option (list Android) :=
  droids_loop (_droid_sessions self)
    (sorted Z.leb (dict_keys (_droid_sessions self))).

(** Property [eds] *)
Definition eds (self : AndroidDevice) : list (option EventDispatcher) :=
  map (fun k => match dict_get String.eqb k (_event_dispatchers self) with
                | Some e => e
                | None => None
                end)
      (sorted String.leb (dict_keys (_event_dispatchers self))).

(** Property [is_adb_logcat_on] *)
Definition is_adb_logcat_on (self : AndroidDevice) : bool :=
  match adb_logcat_process self with
  | Some _ => true
  | None => false
  end.

(** [root_adb] (lines 456-463) *)
Definition root_adb : DevM unit :=
  r <- is_adb_root ;;
  if negb r then
    self <- get ;;
    call_unit (adb_root (serial self)) ;;
    call_unit (adb_wait_for_device (serial self)) ;;
    call_unit (adb_remount (serial self)) ;;
    call_unit (adb_wait_for_device (serial self))
  else ret tt.

(** [start_new_session] (lines 646-664) *)
Definition start_new_session : DevM Android :=
  self <- get ;;
  droid <- new_Android "initiate" (-1) (h_port self) ;;
  self <- get ;;
  if dict_mem Z.eqb (uid droid) (_droid_sessions self) then
    raise (SL4AException
             "SL4A returned an existing uid for a new session. Abort.")
  else
    modify (fun self =>
      set_droid_sessions (dict_set Z.eqb (uid droid) [droid] (_droid_sessions self))
        self) ;;
    ret droid.

(** [add_new_connection_to_session] (lines 666-685) *)
Definition add_new_connection_to_session (session_id : Z) : DevM Android :=
  self <- get ;;
  if negb (dict_mem Z.eqb session_id (_droid_sessions self)) then
    raise (DoesNotExistError
             ("Session " +++ str_of_Z session_id +++ " doesn't exist."))
  else
    droid <- new_Android "continue" session_id (h_port self) ;;
    ret droid.

(** [get_dispatcher] (lines 504-523) *)
Definition get_dispatcher (droid : Android) : DevM EventDispatcher :=
  self <- get ;;
  let ed_key := serial self +++ str_of_Z (uid droid) in
  if dict_mem String.eqb ed_key (_event_dispatchers self) then
    match dict_get String.eqb ed_key (_event_dispatchers self) with
    | Some (Some ed) =>
        note (log_debug (logger_adapter self
                ("Returning existing key " +++ ed_key
                 +++ " for event dispatcher!"))) ;;
        ret ed
    | _ => raise (AndroidDeviceError "EventDispatcher Key Empty")
    end
  else
    event_droid <- add_new_connection_to_session (uid droid) ;;
    ed <- new_EventDispatcher event_droid ;;
    modify (fun self =>
      set_event_dispatchers
        (dict_set String.eqb ed_key (Some ed) (_event_dispatchers self)) self) ;;
    ret ed.

(** [get_droid] (lines 465-502), the port: a host port is allocated unless
    [h_port] is set and still available, and forwarded to [d_port]. *)
Definition get_droid_forward : DevM unit :=
  self <- get ;;
  fresh <- match h_port self with
           | Some p =>
               if port_truthy (Some p)
               then (b <- call_bool (is_port_available p) ;; ret (negb b))
               else ret true
           | None => ret true
           end ;;
  (if fresh : bool then
     p <- call_int get_available_host_port ;;
     modify (set_h_port (Some p))
   else ret tt) ;;
  self <- get ;;
  call_unit (adb_tcp_forward (serial self) (h_port self) (d_port self)).

(** The session: [try: start_new_session()], and on any exception
    [start_sl4a()] and [start_new_session()] again. *)
Definition get_droid_session : DevM Android :=
  try_except start_new_session
    (fun _ =>
       self <- get ;;
       call_unit (adb_start_sl4a (serial self)) ;;
       start_new_session).

(** The result is [droid, ed] or [droid]. *)
Definition get_droid (handle_event : bool)
  : DevM (Android * option EventDispatcher) :=
  get_droid_forward ;;
  droid <- get_droid_session ;;
  if handle_event then
    ed <- get_dispatcher droid ;;
    ret (droid, Some ed)
  else ret (droid, None).

(** The loop over the connections of a session in [terminate_session]. *)
Fixpoint close_droids (l : list Android) : DevM unit :=
  match l with
  | [] => ret tt
  | droid :: rest =>
      call_unit (closeSl4aSession droid) ;;
      call_unit (Android_close droid) ;;
      close_droids rest
  end.

(** [terminate_session] (lines 687-704), first half: the connections of
    the session are closed and the session leaves the registry. *)
Definition terminate_session_droids (session_id : Z) : DevM unit :=
  self <- get ;;
  match _droid_sessions self with
  | [] => ret tt
  | _ :: _ =>
      match dict_get Z.eqb session_id (_droid_sessions self) with
      | Some l =>
          close_droids l ;;
          modify (fun self =>
            set_droid_sessions
              (dict_del Z.eqb session_id (_droid_sessions self)) self)
      | None => ret tt
      end
  end.

(** Second half: the dispatcher of the session is cleaned up and leaves
    its registry; calling [clean_up] on [None] raises [AttributeError]. *)
Definition terminate_session_dispatcher (session_id : Z) : DevM unit :=
  self <- get ;;
  let ed_key := serial self +++ str_of_Z session_id in
  match dict_get String.eqb ed_key (_event_dispatchers self) with
  | Some e =>
      match e with
      | Some ed => call_unit (EventDispatcher_clean_up ed)
      | None => raise AttributeError
      end ;;
      modify (fun self =>
        set_event_dispatchers
          (dict_del String.eqb ed_key (_event_dispatchers self)) self)
  | None => ret tt
  end.

Definition terminate_session (session_id : Z) : DevM unit :=
  terminate_session_droids session_id ;;
  terminate_session_dispatcher session_id.

(** The loop of [terminate_all_sessions]. *)
Fixpoint terminate_all_sessions_loop (session_ids : list Z) : DevM unit :=
  match session_ids with
  | [] => ret tt
  | session_id :: rest =>
      try_except (terminate_session session_id)
        (fun _ =>
           self <- get ;;
           note (logging_exception (logger_adapter self
                   ("Failed to terminate session " +++ str_of_Z session_id
                    +++ ".")))) ;;
      terminate_all_sessions_loop rest
  end.

(** [terminate_all_sessions] (lines 706-721) *)
Definition terminate_all_sessions : DevM unit :=
  self <- get ;;
  match _droid_sessions self with
  | [] => ret tt
  | _ :: _ =>
      let session_ids := dict_keys (_droid_sessions self) in
      terminate_all_sessions_loop session_ids ;;
      self <- get ;;
      match h_port self with
      | Some p =>
          if port_truthy (Some p) then
            call_unit (adb_forward (serial self)
                         ("--remove tcp:" +++ str_of_Z p)) ;;
            modify (set_h_port None)
          else ret tt
      | None => ret tt
      end
  end.

(** The names [hasattr] finds on every [AndroidDevice]: what [__init__]
    sets, the methods and the properties of the class. *)
Definition class_attributes : list string :=
  ["serial"; "h_port"; "d_port"; "log_path"; "log"; "_droid_sessions";
   "_event_dispatchers"; "adb_logcat_process"; "adb_logcat_file_path";
   "adb"; "fastboot"; "droid"; "ed"; "droids"; "eds"; "is_adb_logcat_on";
   "load_config"; "root_adb"; "get_droid"; "get_dispatcher";
   "_is_timestamp_in_range"; "cat_adb_log"; "start_adb_logcat";
   "stop_adb_logcat"; "take_bug_report"; "start_new_session";
   "add_new_connection_to_session"; "terminate_session";
   "terminate_all_sessions"; "run_iperf_client"; "run_iperf_server";
   "wait_for_boot_completion"; "reboot"; "__init__"; "__del__";
   "__class__"; "__dict__"; "__doc__"; "__module__"; "__weakref__"].

(** [hasattr(self, k)]: a property is evaluated, and only [AttributeError]
    makes the answer [False]. *)
Definition hasattr (k : string) : DevM bool :=
  try_except_if is_AttributeError
    (if String.eqb k "is_bootloader" then is_bootloader ;; ret true
     else if String.eqb k "is_adb_root" then is_adb_root ;; ret true
     else if String.eqb k "model" then model ;; ret true
     else
       self <- get ;;
       ret (existsb (String.eqb k) class_attributes
            || dict_mem String.eqb k (attrs self)))
    (fun _ => ret false).

(** [load_config] (lines 439-454) *)
Fixpoint load_config (config : list (string * pyval)) : DevM unit :=
  match config with
  | [] => ret tt
  | (k, v) :: rest =>
      known <- hasattr k ;;
      if known : bool then
        self <- get ;;
        raise (AndroidDeviceError
                 ("Attempting to set existing attribute " +++ k +++ " on "
                  +++ serial self))
      else
        modify (fun self => set_attrs (dict_set String.eqb k v (attrs self)) self) ;;
        load_config rest
  end.

(** [start_adb_logcat] (lines 579-599) *)
Definition start_adb_logcat : DevM unit :=
  self <- get ;;
  if is_adb_logcat_on self then
    raise (AndroidDeviceError
             ("Android device " +++ serial self +++ " already has an adb "
              +++ "logcat thread going on. Cannot start " +++ "another one."))
  else
    call_str (adb_shell (serial self) "logpersist.start") ;;
    m <- model ;;
    self <- get ;;
    let f_name :=
      "adblog," +++ match m with Some s => s | None => "None" end
      +++ "," +++ serial self +++ ".txt" in
    call_unit (create_dir (log_path self)) ;;
    let logcat_file_path := os_path_join (log_path self) f_name in
    let extra_params :=
      match dict_get String.eqb "adb_logcat_param" (attrs self) with
      | Some v => py_str v
      | None => "-b all"
      end in
    let cmd := "adb -s " +++ serial self +++ " logcat -v threadtime "
               +++ extra_params +++ " >> " +++ logcat_file_path in
    p <- new_Process cmd ;;
    modify (set_adb_logcat_process (Some p)) ;;
    modify (set_adb_logcat_file_path (Some logcat_file_path)).

(** [stop_adb_logcat] (lines 601-609) *)
Definition stop_adb_logcat : DevM unit :=
  self <- get ;;
  match adb_logcat_process self with
  | None =>
      raise (AndroidDeviceError
               ("Android device " +++ serial self
                +++ " does not have an ongoing adb logcat collection."))
  | Some p =>
      call_unit (stop_standing_subprocess p) ;;
      modify (set_adb_logcat_process None)
  end.





(** The [while] loop of [wait_for_boot_completion]; [fuel] bounds the
    number of iterations of the model. *)
Fixpoint wait_for_boot_completion_loop (fuel : nat) (timeout_start timeout : Z)
  : DevM unit :=
  match fuel with
  | O => diverge
  | S fuel' =>
      t <- py_time ;;
      self <- get ;;
      if (t <? timeout_start + timeout)%Z then
        completed <-
          try_except_if is_AdbError
            (out <- call_str (adb_shell (serial self)
                                "getprop sys.boot_completed") ;;
             let completed := strip out in
             ret (String.eqb completed "1"))
            (fun _ => ret false) ;;
        if completed : bool then ret tt
        else
          py_sleep 5 ;;
          wait_for_boot_completion_loop fuel' timeout_start timeout
      else
        raise (AndroidDeviceError
                 ("Device " +++ serial self
                  +++ " booting process timed out."))
  end.

(** [wait_for_boot_completion] (lines 762-783) *)
Definition wait_for_boot_completion (fuel : nat) : DevM unit :=
  timeout_start <- py_time ;;
  let timeout := (15 * 60 * ticks_per_second)%Z in
  self <- get ;;
  call_unit (adb_wait_for_device (serial self)) ;;
  wait_for_boot_completion_loop fuel timeout_start timeout.

(** ** The module-level functions (lines 51-214)

    Device objects are shared: [create] keeps them in [ads] and, once
    started, in [active_ads] too.  They live in a store, a list indexed by
    reference; [create] and [destroy] work on references. *)

Definition ref : Type := nat.
Definition Store : Type := list AndroidDevice.
Definition BatchM (A : Type) : Type := M Store A.

Fixpoint store_update (r : ref) (d : AndroidDevice) (h : Store) : Store :=
  match h, r with
  | [], _ => []
  | _ :: rest, O => d :: rest
  | x :: rest, S r' => x :: store_update r' d rest
  end.

(** Run a method on the object behind a reference. *)
Definition at_ref {A : Type} (r : ref) (m : DevM A) : BatchM A :=
  fun env w h =>
    match nth_error h r with
    | Some d =>
        let o := m env w d in
        {| res := res o; world := world o; st := store_update r (st o) h |}
    | None =>
        {| res := Raise (OtherError "dangling reference"); world := w; st := h |}
    end.

Definition deref (r : ref) : BatchM AndroidDevice := at_ref r get.

(** [AndroidDevice.__init__] (lines 324-340): the new object enters the
    store when the constructor returns. *)
Definition AndroidDevice_init (s : string) (host_port : option Z)
    (device_port : Z) : BatchM ref :=
  fun env w h =>
    let log_path_base :=
      match logging_log_path env with Some p => p | None => "/tmp/logs" end in
    let self :=
      {| serial := s; h_port := host_port; d_port := device_port;
         log_path := os_path_join log_path_base ("AndroidDevice" +++ s);
         _droid_sessions := []; _event_dispatchers := [];
         adb_logcat_process := None; adb_logcat_file_path := None;
         attrs := [] |} in
    let o := (b <- is_bootloader ;;
              if negb b then root_adb else ret tt) env w self in
    match res o with
    | Ok _ => {| res := Ok (List.length h); world := world o; st := h ++ [st o] |}
    | Raise e => {| res := Raise e; world := world o; st := h |}
    | Diverge => {| res := Diverge; world := world o; st := h |}
    end.

(** [AndroidDevice(serial)] *)
Definition new_AndroidDevice (s : string) : BatchM ref :=
  AndroidDevice_init s None 8080.

(** [get_instances] (lines 160-172) *)
Fixpoint get_instances_loop (serials : list string) (results : list ref)
  : BatchM (list ref) :=
  match serials with
  | [] => ret results
  | s :: rest =>
      ad <- new_AndroidDevice s ;;
      get_instances_loop rest (results ++ [ad])
  end.

Definition get_instances (serials : list string) : BatchM (list ref) :=
  get_instances_loop serials [].

(** [repr] of a configuration value and of a configuration. *)
Definition py_repr (v : pyval) : string :=
  match v with
  | PyStr s => "'" +++ s +++ "'"
  | _ => py_str v
  end.

Definition dict_repr (c : list (string * pyval)) : string :=
  "{" +++ join ", " (map (fun kv => "'" +++ fst kv +++ "': " +++ py_repr (snd kv)) c)
  +++ "}".

(** [get_instances_with_configs] (lines 175-198); the value under
    ["serial"] is a string. *)
Fixpoint get_instances_with_configs_loop (configs : list (list (string * pyval)))
    (results : list ref) : BatchM (list ref) :=
  match configs with
  | [] => ret results
  | c :: rest =>
      match dict_get String.eqb "serial" c with
      | None =>
          raise (AndroidDeviceError
                   ("Required value 'serial' is missing in AndroidDevice config "
                    +++ dict_repr c +++ "."))
      | Some s =>
          let c := dict_del String.eqb "serial" c in
          ad <- new_AndroidDevice (py_str s) ;;
          at_ref ad (load_config c) ;;
          get_instances_with_configs_loop rest (results ++ [ad])
      end
  end.

Definition get_instances_with_configs (configs : list (list (string * pyval)))
  : BatchM (list ref) :=
  get_instances_with_configs_loop configs [].

(** [get_all_instances] (lines 201-214) *)
Definition get_all_instances (include_fastboot : bool) : BatchM (list ref) :=
  if include_fastboot then
    a <- list_adb_devices ;;
    f <- list_fastboot_devices ;;
    get_instances (a ++ f)
  else
    a <- list_adb_devices ;;
    get_instances a.

(** [destroy] (lines 108-115) *)
Fixpoint destroy (ads : list ref) : BatchM unit :=
  match ads with
  | [] => ret tt
  | ad :: rest =>
      try_except (at_ref ad terminate_all_sessions) (fun _ => ret tt) ;;
      d <- deref ad ;;
      (if is_adb_logcat_on d then at_ref ad stop_adb_logcat else ret tt) ;;
      destroy rest
  end.

(** [ad.ed.start()] and [ad.ed.clean_up()]: [ad.ed] may be [None]. *)
Definition ed_start (ad : ref) : BatchM unit :=
  d <- deref ad ;;
  match ed d with
  | Some e => call_unit (EventDispatcher_start e)
  | None => raise AttributeError
  end.

Definition ed_clean_up (ad : ref) : BatchM unit :=
  d <- deref ad ;;
  match ed d with
  | Some e => call_unit (EventDispatcher_clean_up e)
  | None => raise AttributeError
  end.

(** [_cleanup], the local function of [create] (lines 72-85) *)
Definition _cleanup (msg : string) (ad : ref) (active_ads : list ref)
  : BatchM unit :=
  note (logging_exception msg) ;;
  d <- deref ad ;;
  (if is_adb_logcat_on d then at_ref ad stop_adb_logcat else ret tt) ;;
  d <- deref ad ;;
  (match ed d with
   | Some _ => ed_clean_up ad
   | None => ret tt
   end) ;;
  destroy active_ads ;;
  raise (AndroidDeviceError msg).

(** [getattr(ad, "skip_sl4a", False)] *)
Definition skip_sl4a (d : AndroidDevice) : bool :=
  match dict_get String.eqb "skip_sl4a" (attrs d) with
  | Some v => truthy v
  | None => false
  end.

(** The second [for ad in ads] loop of [create] (lines 87-104). *)
Fixpoint create_loop (ads active_ads : list ref) : BatchM unit :=
  match ads with
  | [] => ret tt
  | ad :: rest =>
      try_except (at_ref ad start_adb_logcat)
        (fun _ =>
           d <- deref ad ;;
           let msg := "Failed to start logcat " +++ serial d in
           _cleanup msg ad active_ads) ;;
      try_except
        (d <- deref ad ;;
         if negb (skip_sl4a d) then
           at_ref ad (get_droid true) ;;
           ed_start ad
         else ret tt)
        (fun _ =>
           d <- deref ad ;;
           let msg := "Failed to start sl4a on " +++ serial d in
           _cleanup msg ad active_ads) ;;
      create_loop rest (active_ads ++ [ad])
  end.

(** The first [for ad in ads] loop of [create] (lines 67-70). *)
Fixpoint check_attached (ads : list ref) (connected_ads : list string)
  : BatchM unit :=
  match ads with
  | [] => ret tt
  | ad :: rest =>
      d <- deref ad ;;
      if negb (existsb (String.eqb (serial d)) connected_ads) then
        raise (DoesNotExistError
                 ("Android device " +++ serial d +++ " is specified in config"
                  +++ " but is not attached."))
      else check_attached rest connected_ads
  end.

(** The values [create] accepts as [configs]. *)
Inductive Configs : Type :=
| ConfigsNone                                    (* None *)
| ConfigsStr (s : string)                        (* a string *)
| ConfigsSerials (l : list string)               (* a list of serials *)
| ConfigsDicts (l : list (list (string * pyval))) (* a list of dicts *)
| ConfigsOther.                        (* a true value of another type *)

Definition ANDROID_DEVICE_PICK_ALL_TOKEN : string := "*".
Definition ANDROID_DEVICE_EMPTY_CONFIG_MSG : string :=
  "Configuration is empty, abort!".
Definition ANDROID_DEVICE_NOT_LIST_CONFIG_MSG : string :=
  "Configuration should be a list, abort!".

(** [create] (lines 51-105) *)
Definition create (configs : Configs) : BatchM (list ref) :=
  ads <-
    match configs with
    | ConfigsNone | ConfigsStr "" | ConfigsSerials [] | ConfigsDicts [] =>
        raise (AndroidDeviceError ANDROID_DEVICE_EMPTY_CONFIG_MSG)
    | ConfigsStr s =>
        if String.eqb s ANDROID_DEVICE_PICK_ALL_TOKEN
        then get_all_instances false
        else raise (AndroidDeviceError ANDROID_DEVICE_NOT_LIST_CONFIG_MSG)
    | ConfigsOther =>
        raise (AndroidDeviceError ANDROID_DEVICE_NOT_LIST_CONFIG_MSG)
    | ConfigsSerials l => get_instances l
    | ConfigsDicts l => get_instances_with_configs l
    end ;;
  connected_ads <- list_adb_devices ;;
  check_attached ads connected_ads ;;
  create_loop ads [] ;;
  ret ads.

(** ** More methods of [AndroidDevice] *)

(** [__del__] (lines 342-346); the forward is removed, [h_port] keeps its
    value. *)
Definition __del__ : DevM unit :=
  self <- get ;;
  (match h_port self with
   | Some p =>
       if port_truthy (Some p) then
         call_unit (adb_forward (serial self) ("--remove tcp:" +++ str_of_Z p))
       else ret tt
   | None => ret tt
   end) ;;
  self <- get ;;
  if is_adb_logcat_on self then stop_adb_logcat else ret tt.

(** [run_iperf_client] (lines 722-741); [clean_out[0]] exists because
    [split] never returns an empty list. *)
Definition run_iperf_client (server_host extra_args : string)
  : DevM (bool * list string) :=
  self <- get ;;
  out <- call_str (adb_shell (serial self)
                     ("iperf3 -c " +++ server_host +++ " " +++ extra_args)) ;;
  let clean_out := split LF (strip out) in
  if is_substring "error" (lower (hd "" clean_out))
  then ret (false, clean_out)
  else ret (true, clean_out).

(** [run_iperf_server] (lines 743-760) *)
Definition run_iperf_server (extra_args : string)
  : DevM (bool * list string) :=
  self <- get ;;
  out <- call_str (adb_shell (serial self) ("iperf3 -s " +++ extra_args)) ;;
  let clean_out := split LF (strip out) in
  if is_substring "error" (lower (hd "" clean_out))
  then ret (false, clean_out)
  else ret (true, clean_out).

(** ** Finding devices: [filter_devices] and [get_device] *)

(** What [getattr] gives: a value that a keyword argument can equal, or an
    object (a method, a logger, a proxy, a connection, a list, a
    dictionary) that no such value equals. *)
Inductive attr_value : Type :=
| AttrVal (v : pyval)
| AttrObj.

(** [a == b] on [None], booleans, integers and strings: [True == 1]. *)
Definition py_eq (a b : pyval) : bool :=
  match a, b with
  | PyNone, PyNone => true
  | PyBool x, PyBool y => Bool.eqb x y
  | PyInt x, PyInt y => (x =? y)%Z
  | PyBool x, PyInt y | PyInt y, PyBool x => (y =? (if x then 1 else 0))%Z
  | PyStr x, PyStr y => String.eqb x y
  | _, _ => false
  end.

(** [a != v] *)
Definition attr_ne (a : attr_value) (v : pyval) : bool :=
  match a with
  | AttrVal x => negb (py_eq x v)
  | AttrObj => true
  end.

(** The docstring of the class (lines 285-307). *)
Definition AndroidDevice_doc : string :=
  "Class representing an android device.

    Each object of this class represents one Android device in ACTS, including
    handles to adb, fastboot, and sl4a clients. In addition to direct adb
    commands, this object also uses adb port forwarding to talk to the Android
    device.

    Attributes:
        serial: A string that's the serial number of the Androi device.
        h_port: An integer that's the port number for adb port forwarding used
                on the computer the Android device is connected
        d_port: An integer  that's the port number used on the Android device
                for adb port forwarding.
        log_path: A string that is the path where all logs collected on this
                  android device should be stored.
        log: A logger adapted from root logger with added token specific to an
             AndroidDevice instance.
        adb_logcat_process: A process that collects the adb logcat.
        adb_logcat_file_path: A string that's the full path to the adb logcat
                              file collected, if any.
        adb: An AdbProxy object used for interacting with the device via adb.
        fastboot: A FastbootProxy object used for interacting with the device
                  via fastboot.
    ".

(** The attributes that are read off the object without a call and
    without an exception: what [__init__] sets, the properties over the
    registries, the other names of the class, and the attributes that
    [load_config] added. *)
Definition attribute (self : AndroidDevice) (k : string) : option attr_value :=
  if String.eqb k "serial" then Some (AttrVal (PyStr (serial self)))
  else if String.eqb k "h_port" then
    Some (AttrVal match h_port self with Some p => PyInt p | None => PyNone end)
  else if String.eqb k "d_port" then Some (AttrVal (PyInt (d_port self)))
  else if String.eqb k "log_path" then Some (AttrVal (PyStr (log_path self)))
  else if String.eqb k "adb_logcat_file_path" then
    Some (AttrVal match adb_logcat_file_path self with
                  | Some p => PyStr p
                  | None => PyNone
                  end)
  else if String.eqb k "adb_logcat_process" then
    Some match adb_logcat_process self with
         | Some _ => AttrObj
         | None => AttrVal PyNone
         end
  else if String.eqb k "is_adb_logcat_on" then
    Some (AttrVal (PyBool (is_adb_logcat_on self)))
  else if String.eqb k "droid" then
    Some match droid self with Some _ => AttrObj | None => AttrVal PyNone end
  else if String.eqb k "ed" then
    Some match ed self with Some _ => AttrObj | None => AttrVal PyNone end
  else if String.eqb k "__doc__" then Some (AttrVal (PyStr AndroidDevice_doc))
  else if String.eqb k "__module__" then
    Some (AttrVal (PyStr "acts.controllers.android_device"))
  else if String.eqb k "__weakref__" then Some (AttrVal PyNone)
  else if existsb (String.eqb k) class_attributes then Some AttrObj
  else option_map AttrVal (dict_get String.eqb k (attrs self)).

(** [getattr(self, k)]: the three properties that ask adb or fastboot,
    [droids], which raises [IndexError] on a session without connection,
    and the attributes read off the object. *)
Definition getattr (k : string) : DevM attr_value :=
  if String.eqb k "is_bootloader" then
    b <- is_bootloader ;; ret (AttrVal (PyBool b))
  else if String.eqb k "is_adb_root" then
    b <- is_adb_root ;; ret (AttrVal (PyBool b))
  else if String.eqb k "model" then
    m <- model ;;
    ret (AttrVal match m with Some s => PyStr s | None => PyNone end)
  else
    self <- get ;;
    if String.eqb k "droids" then
      match droids self with
      | Some _ => ret AttrObj
      | None => raise IndexError
      end
    else
      match attribute self k with
      | Some a => ret a
      | None => raise AttributeError
      end.

(** [_get_device_filter], the local function of [get_device] (lines
    238-244), for the keyword arguments [kwargs]. *)
Fixpoint _get_device_filter (kwargs : list (string * pyval)) : DevM bool :=
  match kwargs with
  | [] => ret true
  | (k, v) :: rest =>
      known <- hasattr k ;;
      if negb known then ret false
      else
        a <- getattr k ;;
        if attr_ne a v then ret false
        else _get_device_filter rest
  end.

(** [filter_devices] (lines 201-216); [func] is called on every device. *)
Fixpoint filter_devices_loop (ads : list ref) (func : ref -> BatchM bool)
    (results : list ref) : BatchM (list ref) :=
  match ads with
  | [] => ret results
  | ad :: rest =>
      b <- func ad ;;
      if b : bool then filter_devices_loop rest func (results ++ [ad])
      else filter_devices_loop rest func results
  end.

Definition filter_devices (ads : list ref) (func : ref -> BatchM bool)
  : BatchM (list ref) :=
  filter_devices_loop ads func [].

(** [[ad.serial for ad in filtered]] *)
Fixpoint serials_of (ads : list ref) : BatchM (list string) :=
  match ads with
  | [] => ret []
  | ad :: rest =>
      d <- deref ad ;;
      l <- serials_of rest ;;
      ret (serial d :: l)
  end.

(** [repr] of a list of strings (strings without quotes, backslashes and
    control characters). *)
Definition list_repr (l : list string) : string :=
  "[" +++ join ", " (map (fun s => "'" +++ s +++ "'") l) +++ "]".

(** [get_device] (lines 219-256) *)
Definition get_device (ads : list ref) (kwargs : list (string * pyval))
  : BatchM ref :=
  filtered <-
    filter_devices ads (fun ad => at_ref ad (_get_device_filter kwargs)) ;;
  match filtered with
  | [] =>
      raise (AndroidDeviceError
               ("Could not find a target device that matches condition: "
                +++ dict_repr kwargs +++ "."))
  | [ad] => ret ad
  | _ =>
      serials <- serials_of filtered ;;
      raise (AndroidDeviceError
               ("More than one device matched: " +++ list_repr serials))
  end.

(** ** Vocabulary of the properties *)

(** The events a run added to the trace of [w]. *)
Definition new_events (w w' : World) : list event :=
  skipn (List.length (trace w)) (trace w').

Definition new_calls (w w' : World) : list call :=
  map ev_call (new_events w w').

Definition is_Android_new (c : call) : bool :=
  match c with Android_new _ _ _ => true | _ => false end.

(** How many sl4a connections the calls of a trace asked for. *)
Definition connections_opened (t : list event) : nat :=
  List.length (filter (fun e => is_Android_new (ev_call e)) t).

Definition raised (e : event) : bool :=
  match ev_out e with Raised _ => true | Returned _ => false end.

(** Every session of the registry holds one connection, its primary one,
    under the uid of that connection. *)
Definition primary_only (sessions : list (Z * list Android)) : Prop :=
  Forall (fun kv => exists d, snd kv = [d] /\ uid d = fst kv) sessions.

Definition ed_key_of (self : AndroidDevice) (session_id : Z) : string :=
  serial self +++ str_of_Z session_id.




(** The session registry is a dictionary (no key twice) whose sessions
    hold their primary connection only. *)
Definition registry_wf (self : AndroidDevice) : Prop :=
  NoDup (dict_keys (_droid_sessions self))
  /\ primary_only (_droid_sessions self).

(** What a run leaves as it is when it only works on the registries. *)
Definition same_device_but_registries (a b : AndroidDevice) : Prop :=
  serial a = serial b /\ h_port a = h_port b /\ d_port a = d_port b
  /\ log_path a = log_path b
  /\ adb_logcat_process a = adb_logcat_process b
  /\ adb_logcat_file_path a = adb_logcat_file_path b
  /\ attrs a = attrs b.

(** An attempt to open a new session, and the bootstrap of sl4a. *)
Definition is_session_open (c : call) : bool :=
  match c with
  | Android_new cmd _ _ => String.eqb cmd "initiate"
  | _ => false
  end.

Definition is_bootstrap (c : call) : bool :=
  match c with adb_start_sl4a _ => true | _ => false end.

Definition count_calls (p : call -> bool) (t : list event) : nat :=
  List.length (filter (fun e => p (ev_call e)) t).

(** The calls of the port phase of [get_droid]. *)
Definition port_call (c : call) : bool :=
  match c with
  | is_port_available _ | get_available_host_port | adb_tcp_forward _ _ _ => true
  | _ => false
  end.

Definition same_device_but_port (a b : AndroidDevice) : Prop :=
  serial a = serial b /\ d_port a = d_port b /\ log_path a = log_path b
  /\ _droid_sessions a = _droid_sessions b
  /\ _event_dispatchers a = _event_dispatchers b
  /\ adb_logcat_process a = adb_logcat_process b
  /\ adb_logcat_file_path a = adb_logcat_file_path b
  /\ attrs a = attrs b.

(** [wp m env w s Q]: the run of [m] from the world [w] and the state [s]
    ends in a result, a world and a state that satisfy [Q]. *)
Definition wp {St A : Type} (m : M St A) (env : Env) (w : World) (s : St)
    (Q : result A -> World -> St -> Prop) : Prop :=
  Q (res (m env w s)) (world (m env w s)) (st (m env w s)).


(** *** The log excerpt *)

Section Excerpt.
Context {A : Type} (p : A -> bool).



End Excerpt.








(** *** Waiting for the boot *)

(** A poll of the boot-completion property of the device. *)
Definition is_poll (self : AndroidDevice) (e : event) : bool :=
  match ev_call e with
  | adb_shell s cmd =>
      String.eqb s (serial self)
      && String.eqb cmd "getprop sys.boot_completed"
  | _ => false
  end.

(** The poll returned the completion indicator. *)
Definition poll_completed (e : event) : bool :=
  match ev_out e with
  | Returned (VStr out) => String.eqb (strip out) "1"
  | _ => false
  end.

Definition poll_interval : Z := 5 * ticks_per_second.
Definition boot_timeout : Z := 15 * 60 * ticks_per_second.

(** Instants that are at least one poll interval apart, the first not
    before [lo]. *)
Fixpoint spaced (lo : Z) (ts : list Z) : Prop :=
  match ts with
  | [] => True
  | t :: rest => (lo <= t)%Z /\ spaced (t + poll_interval) rest
  end.

Definition boot_timeout_error (self : AndroidDevice) : exn :=
  AndroidDeviceError ("Device " +++ serial self +++ " booting process timed out.").

(** The events of the polling loop and its result, round by round.  A
    round reads the clock.  At or after [deadline] the loop ends with the
    time-out error.  Before it, the completion indicator is polled: the
    loop returns when the poll gives the indicator, it passes on an
    exception of the poll that is not [AdbError], and in every other case
    it sleeps 5 seconds and starts the next round. *)
Inductive polling (self : AndroidDevice) (deadline : Z)
  : list event -> result unit -> Prop :=
| polling_timed_out (ev_t : event) :
    ev_call ev_t = time_time ->
    ev_out ev_t = Returned (VInt (ev_time ev_t)) ->
    (deadline <= ev_time ev_t)%Z ->
    polling self deadline [ev_t] (Raise (boot_timeout_error self))
| polling_completed (ev_t ev_p : event) :
    ev_call ev_t = time_time ->
    ev_out ev_t = Returned (VInt (ev_time ev_t)) ->
    (ev_time ev_t < deadline)%Z ->
    is_poll self ev_p = true ->
    poll_completed ev_p = true ->
    polling self deadline [ev_t; ev_p] (Ok tt)
| polling_failed (ev_t ev_p : event) (x : exn) :
    ev_call ev_t = time_time ->
    ev_out ev_t = Returned (VInt (ev_time ev_t)) ->
    (ev_time ev_t < deadline)%Z ->
    is_poll self ev_p = true ->
    ev_out ev_p = Raised x ->
    is_AdbError x = false ->
    polling self deadline [ev_t; ev_p] (Raise x)
| polling_again (ev_t ev_p ev_s : event) (rest : list event)
    (r : result unit) :
    ev_call ev_t = time_time ->
    ev_out ev_t = Returned (VInt (ev_time ev_t)) ->
    (ev_time ev_t < deadline)%Z ->
    is_poll self ev_p = true ->
    poll_completed ev_p = false ->
    (forall x, ev_out ev_p = Raised x -> is_AdbError x = true) ->
    ev_call ev_s = time_sleep 5 ->
    ev_out ev_s = Returned VNone ->
    polling self deadline rest r ->
    polling self deadline (ev_t :: ev_p :: ev_s :: rest) r.

(** *** Batch bring-up *)



(** A device as its constructor leaves it. *)
Definition pristine (d : AndroidDevice) : Prop :=
  _droid_sessions d = [] /\ _event_dispatchers d = []
  /\ adb_logcat_process d = None /\ h_port d = None.


(** The registries of a device on which [get_droid()] has been called at
    most once: nothing, or one session with its dispatcher behind a
    forwarded port. *)
Definition one_session (d : AndroidDevice) : Prop :=
  (_droid_sessions d = [] /\ _event_dispatchers d = [] /\ h_port d = None)
  \/ (exists p c e,
        p <> 0%Z /\ h_port d = Some p
        /\ _droid_sessions d = [(uid c, [c])]
        /\ _event_dispatchers d = [(serial d +++ str_of_Z (uid c), Some e)]).


(** Runs that leave the state alone. *)
Definition reads_only {St A : Type} (m : M St A) : Prop :=
  forall env w s, wp m env w s (fun r w' s' => s' = s /\ r <> Diverge).

(** What the session and port machinery leaves as it is. *)
Definition same_identity (a b : AndroidDevice) : Prop :=
  serial a = serial b /\ d_port a = d_port b /\ log_path a = log_path b
  /\ adb_logcat_process a = adb_logcat_process b
  /\ adb_logcat_file_path a = adb_logcat_file_path b
  /\ attrs a = attrs b.


(** The object behind a reference satisfies [P]. *)
Definition holds_at (h : Store) (P : AndroidDevice -> Prop) (r : ref) : Prop :=
  exists d, nth_error h r = Some d /\ P d.


(** ** Vocabulary of the further properties *)

(** A name that [hasattr] settles without evaluating a property through
    adb or fastboot ([is_bootloader], [is_adb_root], [model]) and that is
    not a special name of Python ([__x__]), for which the list of the
    attributes of the class is complete. *)
Definition plain_name (k : string) : bool :=
  negb (String.prefix "__" k)
  && negb (String.eqb k "is_bootloader")
  && negb (String.eqb k "is_adb_root")
  && negb (String.eqb k "model").

(** The object [AndroidDevice(serial)] builds, before it is rooted. *)
Definition fresh_device (env : Env) (s : string) : AndroidDevice :=
  {| serial := s; h_port := None; d_port := 8080;
     log_path :=
       os_path_join
         match logging_log_path env with Some p => p | None => "/tmp/logs" end
         ("AndroidDevice" +++ s);
     _droid_sessions := []; _event_dispatchers := [];
     adb_logcat_process := None; adb_logcat_file_path := None;
     attrs := [] |}.

(** The calls of the constructor of the device [s], made from the [n]-th
    call on: the device is looked for among those in fastboot mode; a
    device that is not there is asked for its user id, and adb is
    restarted as root unless it is root already. *)
Definition constructor_calls (env : Env) (n : nat) (s : string) : list call :=
  if existsb (String.eqb s)
       (_parse_device_list (ret_str env n fastboot_devices) "fastboot")
  then [fastboot_devices]
  else if is_substring "root" (ret_str env (S n) (adb_shell s "id -u"))
  then [fastboot_devices; adb_shell s "id -u"]
  else [fastboot_devices; adb_shell s "id -u"; adb_root s;
        adb_wait_for_device s; adb_remount s; adb_wait_for_device s].

(** A configuration of a device as [get_instances_with_configs] expects
    it: a dictionary (no key twice) of plain names, in which the value of
    ["serial"], if there is one, is a string. *)
Definition config_wf (c : list (string * pyval)) : Prop :=
  NoDup (map fst c)
  /\ forallb plain_name (map fst c) = true
  /\ forall v, dict_get String.eqb "serial" c = Some v -> exists s, v = PyStr s.

(** The object built for the configuration [c]: the constructor's object
    for the serial of [c], with the other keys of [c] as attributes. *)
Definition configured (env : Env) (c : list (string * pyval))
    (d : AndroidDevice) : Prop :=
  exists s, dict_get String.eqb "serial" c = Some (PyStr s)
    /\ d = set_attrs (dict_del String.eqb "serial" c) (fresh_device env s).

(** A keyword of [get_device] that is settled on the object itself: a
    plain name other than [droids]. *)
Definition direct_name (k : string) : bool :=
  plain_name k && negb (String.eqb k "droids").

(** The device has every attribute of [kwargs] with an equal value. *)
Definition matches (kwargs : list (string * pyval)) (d : AndroidDevice)
  : bool :=
  forallb (fun kv =>
             match attribute d (fst kv) with
             | Some a => negb (attr_ne a (snd kv))
             | None => false
             end) kwargs.

(** The references of [ads] whose devices match [kwargs]. *)
Definition matching (h : Store) (kwargs : list (string * pyval))
    (ads : list ref) : list ref :=
  filter (fun r => match nth_error h r with
                   | Some d => matches kwargs d
                   | None => false
                   end) ads.

Definition serial_at (h : Store) (r : ref) : string :=
  match nth_error h r with Some d => serial d | None => "" end.

(** An event that is not a call of [adb forward] for the serial. *)
Definition no_forward_call (ser : string) (e : event) : Prop :=
  forall a, ev_call e <> adb_forward ser a.

(** From device [self] in world [w] to device [s'] in world [w']: the
    serial and the host port are kept and no call of [adb forward] was
    made for the device. *)
Definition keeps_port (self : AndroidDevice) (w w' : World)
    (s' : AndroidDevice) : Prop :=
  serial s' = serial self /\ h_port s' = h_port self
  /\ exists delta, trace w' = trace w ++ delta
       /\ Forall (no_forward_call (serial self)) delta.

(** ** Example devices and worlds

    Concrete inputs on which the properties below are instantiated. *)

Module Examples.

Local Open Scope Z_scope.

Definition row (a b : string) : string := a +++ String TAB b.

(** The text of [adb devices] with three devices attached and one in
    another state. *)
Definition adb_devices_lines : list string :=
  ["List of devices attached"; row "A" "device"; row "B" "device";
   row "X" "offline"; row "C" "device"].

(** A world in which every call succeeds: three devices are attached, the
    device is rooted and has booted, host ports are handed out from 8000
    on and the server numbers the sessions by the time of the call. *)
Definition env_ok : Env := {|
  raises := fun _ _ => None;
  ret_str := fun _ c =>
    match c with
    | adb_devices => join nl adb_devices_lines
    | adb_shell _ "id -u" => "uid=0(root) gid=0(root)"
    | adb_shell _ "getprop sys.boot_completed" => "1" +++ nl
    | adb_shell _ _ => "[ro.build.product]: [angler]"
    | get_log_line_timestamp => "01-01 00:00:05.000"
    | _ => EmptyString
    end;
  ret_int := fun n c =>
    match c with
    | get_available_host_port => 8000 + Z.of_nat n
    | _ => Z.of_nat n
    end;
  ret_bool := fun _ _ => true;
  ret_lines := fun _ _ =>
    [Some ("no timestamp here" +++ nl);
     Some ("01-01 00:00:00.000 before" +++ nl);
     Some ("01-01 00:00:02.000 first" +++ nl);
     Some ("?? not a timestamp ?" +++ nl);
     Some ("01-01 00:00:05.000 second" +++ nl);
     Some ("01-01 00:00:09.000 after" +++ nl);
     Some ("01-01 00:00:03.000 late" +++ nl)];
  elapsed := fun _ _ => 1%N;
  MAX_FILENAME_LEN := 255;
  log_line_timestamp_len := 18;
  is_valid_logline_timestamp := fun s =>
    match s with
    | String "0" _ => (String.length s =? 18)%nat
    | _ => false
    end;
  logline_timestamp_comparator := fun a b =>
    match String.compare a b with Lt => -1 | Eq => 0 | Gt => 1 end;
  logging_log_path := None
|}.

(** [env_ok] with other answers to [raises]. *)
Definition with_raises (f : nat -> call -> option exn) : Env := {|
  raises := f;
  ret_str := ret_str env_ok;
  ret_int := ret_int env_ok;
  ret_bool := ret_bool env_ok;
  ret_lines := ret_lines env_ok;
  elapsed := elapsed env_ok;
  MAX_FILENAME_LEN := MAX_FILENAME_LEN env_ok;
  log_line_timestamp_len := log_line_timestamp_len env_ok;
  is_valid_logline_timestamp := is_valid_logline_timestamp env_ok;
  logline_timestamp_comparator := logline_timestamp_comparator env_ok;
  logging_log_path := logging_log_path env_ok
|}.




(** The server is there once it has been started: the handshakes of the
    first three calls fail. *)
Definition env_sl4a_down : Env :=
  with_raises (fun n c =>
    match c with
    | Android_new _ _ _ =>
        if (n <? 3)%nat then Some (OtherError "connection refused") else None
    | _ => None
    end).

(** The server numbers the sessions 9 and then 10, and a connection that
    joins a session has the uid of the session. *)
Definition env_sessions : Env := {|
  raises := raises env_ok;
  ret_str := ret_str env_ok;
  ret_int := fun n c =>
    match c with
    | get_available_host_port => 8000
    | Android_new "continue" sid _ => sid
    | Android_new _ _ _ => if (n <? 5)%nat then 9 else 10
    | _ => 0
    end;
  ret_bool := ret_bool env_ok;
  ret_lines := ret_lines env_ok;
  elapsed := elapsed env_ok;
  MAX_FILENAME_LEN := MAX_FILENAME_LEN env_ok;
  log_line_timestamp_len := log_line_timestamp_len env_ok;
  is_valid_logline_timestamp := is_valid_logline_timestamp env_ok;
  logline_timestamp_comparator := logline_timestamp_comparator env_ok;
  logging_log_path := logging_log_path env_ok
|}.

(** The server hands out the uid 7 whatever the sessions open. *)
Definition env_uid7 : Env := {|
  raises := raises env_ok;
  ret_str := ret_str env_ok;
  ret_int := fun _ _ => 7;
  ret_bool := ret_bool env_ok;
  ret_lines := ret_lines env_ok;
  elapsed := elapsed env_ok;
  MAX_FILENAME_LEN := MAX_FILENAME_LEN env_ok;
  log_line_timestamp_len := log_line_timestamp_len env_ok;
  is_valid_logline_timestamp := is_valid_logline_timestamp env_ok;
  logline_timestamp_comparator := logline_timestamp_comparator env_ok;
  logging_log_path := logging_log_path env_ok
|}.

(** The device ["A"] as its constructor leaves it. *)
Definition device_A : AndroidDevice := {|
  serial := "A"; h_port := None; d_port := 8080;
  log_path := "/tmp/logs/AndroidDeviceA";
  _droid_sessions := []; _event_dispatchers := [];
  adb_logcat_process := None; adb_logcat_file_path := None; attrs := []
|}.

Definition droid7 : Android := {| droid_id := 1; uid := 7 |}.

(** ["A"] with the session 7 open behind the host port 8000. *)
Definition device_A7 : AndroidDevice :=
  set_droid_sessions [(7, [droid7])] (set_h_port (Some 8000) device_A).

(** The primary connections of the sessions 9 and 10, and the dispatchers
    of these sessions, each on a connection of its own. *)
Definition droid9 : Android := {| droid_id := 0; uid := 9 |}.
Definition droid10 : Android := {| droid_id := 3; uid := 10 |}.
Definition ed9 : EventDispatcher :=
  {| ed_id := 2; ed_droid := {| droid_id := 1; uid := 9 |} |}.
Definition ed10 : EventDispatcher :=
  {| ed_id := 5; ed_droid := {| droid_id := 4; uid := 10 |} |}.

(** ["A"] after two calls of [get_droid()] that opened the sessions 9 and
    10, in that order. *)
Definition device_A9_10 : AndroidDevice :=
  set_event_dispatchers [("A9", Some ed9); ("A10", Some ed10)]
    (set_droid_sessions [(9, [droid9]); (10, [droid10])]
       (set_h_port (Some 8000) device_A)).

(** ["A"] with a host port forwarded and no session. *)
Definition device_A_port : AndroidDevice := set_h_port (Some 8000) device_A.



(** A device that is still booting: the first poll of the completion
    indicator fails with [AdbError], the second gives ["0"], the third
    gives ["1"].  The polls are the calls 3, 6 and 9 of the run. *)
Definition env_booting : Env := {|
  raises := fun n c =>
    match c with
    | adb_shell _ "getprop sys.boot_completed" =>
        if (n <? 6)%nat then Some (AdbError "device offline") else None
    | _ => None
    end;
  ret_str := fun n c =>
    match c with
    | adb_shell _ "getprop sys.boot_completed" =>
        if (n <? 9)%nat then "0" +++ nl else "1" +++ nl
    | _ => ret_str env_ok n c
    end;
  ret_int := ret_int env_ok;
  ret_bool := ret_bool env_ok;
  ret_lines := ret_lines env_ok;
  elapsed := elapsed env_ok;
  MAX_FILENAME_LEN := MAX_FILENAME_LEN env_ok;
  log_line_timestamp_len := log_line_timestamp_len env_ok;
  is_valid_logline_timestamp := is_valid_logline_timestamp env_ok;
  logline_timestamp_comparator := logline_timestamp_comparator env_ok;
  logging_log_path := logging_log_path env_ok
|}.

End Examples.
(** * Part II: properties *)

(** ** Text lemmas *)

Lemma append_empty_r (s : string) : s +++ "" = s.
Proof. induction s; simpl; congruence. Qed.

Lemma append_assoc (a b c : string) : (a +++ b) +++ c = a +++ b +++ c.
Proof. induction a; simpl; congruence. Qed.

Lemma split_not_nil (c : ascii) (s : string) : split c s <> [].
Proof.
  destruct s as [|a s]; simpl; [discriminate|].
  destruct (Ascii.eqb a c); [discriminate|].
  destruct (split c s); discriminate.
Qed.

Lemma split_cons (c a : ascii) (s : string) :
  Ascii.eqb a c = false ->
  split c (String a s) = String a (hd "" (split c s)) :: tl (split c s).
Proof.
  intros H. simpl. rewrite H.
  destruct (split c s) eqn:E; [now apply split_not_nil in E|reflexivity].
Qed.

(** Splitting a concatenation: the last piece of the left part and the first
    piece of the right part are glued together. *)
Lemma split_app (c : ascii) (x y : string) :
  split c (x +++ y) =
  removelast (split c x) ++ [last (split c x) "" +++ hd "" (split c y)]
  ++ tl (split c y).
Proof.
  induction x as [|a x IH].
  - simpl. destruct (split c y) eqn:E; [now apply split_not_nil in E|reflexivity].
  - change (String a x +++ y) with (String a (x +++ y)).
    destruct (Ascii.eqb a c) eqn:Ea.
    + simpl. rewrite Ea. rewrite IH.
      destruct (split c x) eqn:E; [now apply split_not_nil in E|].
      reflexivity.
    + rewrite !split_cons by assumption. rewrite IH.
      destruct (split c x) as [|h t] eqn:E; [now apply split_not_nil in E|].
      destruct t as [|h' t]; reflexivity.
Qed.

Lemma split_no_sep (c : ascii) (s : string) :
  contains_char c s = false -> split c s = [s].
Proof.
  induction s as [|a s IH]; simpl; [reflexivity|].
  intros H. apply orb_false_iff in H as [Ha Hs].
  rewrite Ha, (IH Hs). reflexivity.
Qed.

Lemma split_join (lines : list string) :
  lines <> [] ->
  Forall (fun l => contains_char LF l = false) lines ->
  split LF (join nl lines) = lines.
Proof.
  induction lines as [|x rest IH]; [congruence|].
  intros _ H. inversion H as [|? ? Hx Hrest]; subst.
  destruct rest as [|y rest].
  - simpl. now apply split_no_sep.
  - change (join nl (x :: y :: rest)) with (x +++ nl +++ join nl (y :: rest)).
    rewrite split_app, (split_no_sep _ _ Hx).
    change (nl +++ join nl (y :: rest)) with (String LF (join nl (y :: rest))).
    cbn [split]. rewrite Ascii.eqb_refl.
    rewrite IH by (assumption || discriminate).
    simpl. now rewrite append_empty_r.
Qed.

Lemma rstrip_all_space (w : string) : all_space w = true -> rstrip w = "".
Proof.
  induction w as [|c w IH]; simpl; [reflexivity|].
  intros H. apply andb_true_iff in H as [Hc Hw].
  now rewrite (IH Hw), Hc.
Qed.

Lemma lstrip_app_space (w x : string) :
  all_space w = true -> lstrip (w +++ x) = lstrip x.
Proof.
  induction w as [|c w IH]; simpl; [reflexivity|].
  intros H. apply andb_true_iff in H as [Hc Hw].
  now rewrite Hc, IH.
Qed.

Lemma rstrip_app (a b : string) :
  rstrip (a +++ b) = match rstrip b with "" => rstrip a | _ => a +++ rstrip b end.
Proof.
  induction a as [|c a IH].
  - simpl. now destruct (rstrip b).
  - change (String c a +++ b) with (String c (a +++ b)).
    cbn [rstrip]. rewrite IH.
    destruct (rstrip b) as [|d r]; [reflexivity|].
    destruct a; reflexivity.
Qed.

Lemma rstrip_decomp (s : string) :
  exists w, all_space w = true /\ s = rstrip s +++ w.
Proof.
  induction s as [|c s [w [Hw IH]]].
  - exists "". now split.
  - cbn [rstrip]. destruct (rstrip s) as [|d r] eqn:E.
    + destruct (isspace c) eqn:Hc.
      * exists (String c w). split; [simpl; now rewrite Hc|].
        simpl in *. now rewrite <- IH.
      * exists w. split; [assumption|]. simpl in *. now rewrite <- IH.
    + exists w. split; [assumption|].
      change (String c (String d r) +++ w) with (String c (String d r +++ w)).
      now rewrite <- IH.
Qed.

Lemma lstrip_decomp (s : string) :
  exists w, all_space w = true /\ s = w +++ lstrip s.
Proof.
  induction s as [|c s [w [Hw IH]]].
  - exists "". now split.
  - cbn [lstrip]. destruct (isspace c) eqn:Hc.
    + exists (String c w). split; [simpl; now rewrite Hc|].
      simpl. now rewrite <- IH.
    + exists "". now split.
Qed.

Lemma strip_app_space_r (a w : string) :
  all_space w = true -> strip (a +++ w) = strip a.
Proof.
  intros H. unfold strip. now rewrite rstrip_app, (rstrip_all_space _ H).
Qed.

Lemma strip_app_space_l (w a : string) :
  all_space w = true -> strip (w +++ a) = strip a.
Proof.
  intros H. unfold strip. rewrite rstrip_app.
  destruct (rstrip a) as [|d r].
  - now rewrite (rstrip_all_space _ H).
  - now apply lstrip_app_space.
Qed.

Lemma strip_all_space (w : string) : all_space w = true -> strip w = "".
Proof. intros H. unfold strip. now rewrite (rstrip_all_space _ H). Qed.

Lemma split_all_space (c : ascii) (w : string) :
  all_space w = true -> Forall (fun l => all_space l = true) (split c w).
Proof.
  induction w as [|a w IH]; intros H.
  - repeat constructor.
  - simpl in H. apply andb_true_iff in H as [Ha Hw].
    specialize (IH Hw). simpl.
    destruct (Ascii.eqb a c).
    + now constructor.
    + destruct (split c w) as [|h t]; inversion IH; subst;
        constructor; simpl; try rewrite Ha; auto.
Qed.

(** ** The device-list parser *)

Lemma _parse_device_list_loop_spec (key : string) (ls acc : list string) :
  _parse_device_list_loop key ls acc =
  acc ++ flat_map (fun l => serial_of_line key (strip l)) ls.
Proof.
  revert acc. induction ls as [|l ls IH]; intros acc.
  - simpl. now rewrite app_nil_r.
  - cbn [_parse_device_list_loop flat_map]. cbv zeta.
    unfold serial_of_line at 1.
    destruct (split TAB (strip l)) as [|c1 [|c2 [|c3 t]]];
      cbn [List.length Nat.eqb andb nth]; try (rewrite IH; reflexivity).
    destruct (String.eqb c2 key); rewrite IH; [|reflexivity].
    now rewrite <- app_assoc.
Qed.

Lemma serial_of_blank_line (key l : string) :
  all_space l = true -> serial_of_line key (strip l) = [].
Proof. intros H. now rewrite (strip_all_space _ H). Qed.

Lemma serials_of_blank_lines (key : string) (ls : list string) :
  Forall (fun l => all_space l = true) ls ->
  flat_map (fun l => serial_of_line key (strip l)) ls = [].
Proof.
  induction 1 as [|l ls Hl _ IH]; simpl; [reflexivity|].
  now rewrite (serial_of_blank_line _ _ Hl), IH.
Qed.

(** White space after the text changes nothing: it only pads the last line
    and adds blank lines. *)
Lemma serials_app_space_r (key x w : string) :
  all_space w = true ->
  flat_map (fun l => serial_of_line key (strip l)) (split LF (x +++ w)) =
  flat_map (fun l => serial_of_line key (strip l)) (split LF x).
Proof.
  intros Hw. rewrite split_app.
  pose proof (split_all_space LF w Hw) as HW.
  pose proof (split_not_nil LF x) as HX.
  destruct (split LF w) as [|w0 W] eqn:EW; [now apply split_not_nil in EW|].
  inversion HW as [|? ? Hw0 HWt]; subst.
  pose proof (app_removelast_last "" HX) as EX.
  remember (removelast (split LF x)) as L.
  remember (last (split LF x) "") as la.
  rewrite EX, !flat_map_app. simpl.
  rewrite (strip_app_space_r _ _ Hw0), (serials_of_blank_lines _ _ HWt).
  now rewrite !app_nil_r.
Qed.

Lemma serials_app_space_l (key w x : string) :
  all_space w = true ->
  flat_map (fun l => serial_of_line key (strip l)) (split LF (w +++ x)) =
  flat_map (fun l => serial_of_line key (strip l)) (split LF x).
Proof.
  intros Hw. rewrite split_app.
  pose proof (split_all_space LF w Hw) as HW.
  pose proof (split_not_nil LF w) as HWn.
  pose proof (app_removelast_last "" HWn) as EW.
  remember (removelast (split LF w)) as L.
  remember (last (split LF w) "") as la.
  rewrite EW in HW.
  apply Forall_app in HW as [HWi HWl].
  inversion HWl as [|? ? Hlast _]; subst.
  destruct (split LF x) as [|x0 X] eqn:EX; [now apply split_not_nil in EX|].
  rewrite !flat_map_app. simpl.
  rewrite (strip_app_space_l _ _ Hlast), (serials_of_blank_lines _ _ HWi).
  now rewrite ?app_nil_r.
Qed.

Lemma flat_map_map {A B C : Type} (f : B -> list C) (g : A -> B) (l : list A) :
  flat_map f (map g l) = flat_map (fun x => f (g x)) l.
Proof. induction l as [|x l IH]; simpl; [reflexivity|now rewrite IH]. Qed.

(** The parser on any text: the serial of every line that, once stripped,
    has two columns with [key] in the second.  The [strip] of the whole text
    makes no difference. *)
Lemma _parse_device_list_lines (device_list_str key : string) :
  _parse_device_list device_list_str key =
  matching_serials key (map strip (split LF device_list_str)).
Proof.
  unfold _parse_device_list, matching_serials.
  rewrite _parse_device_list_loop_spec. simpl.
  rewrite flat_map_map.
  destruct (rstrip_decomp device_list_str) as [w2 [Hw2 E2]].
  destruct (lstrip_decomp (rstrip device_list_str)) as [w1 [Hw1 E1]].
  fold (strip device_list_str) in E1.
  remember (strip device_list_str) as t.
  remember (rstrip device_list_str) as r.
  rewrite E2, serials_app_space_r by assumption.
  now rewrite E1, serials_app_space_l by assumption.
Qed.

(** C10.  On well-formed device-list text (lines joined by line breaks, no
    stray white space around a line) the parser returns exactly the first
    column of the lines that have two tab-separated columns with the marker
    in the second, in input order; every other line is ignored, and when no
    line matches the result is the empty list. *)
Theorem parse_device_list_well_formed (lines : list string) (key : string) :
  Forall well_formed_line lines ->
  _parse_device_list (join nl lines) key = matching_serials key lines
  /\ ((forall l, In l lines -> serial_of_line key l = []) ->
      _parse_device_list (join nl lines) key = []).
Proof.
  intros Hwf.
  assert (E : _parse_device_list (join nl lines) key = matching_serials key lines).
  { rewrite _parse_device_list_lines.
    destruct lines as [|x rest]; [reflexivity|].
    rewrite split_join; [| discriminate |].
    - f_equal. rewrite <- (map_id (x :: rest)) at 2.
      apply map_ext_in. intros l Hl.
      rewrite Forall_forall in Hwf. now destruct (Hwf l Hl).
    - eapply Forall_impl; [|exact Hwf]. now intros l [H _]. }
  split; [exact E|].
  intros Hnone. rewrite E. unfold matching_serials. clear E Hwf.
  induction lines as [|x rest IH]; [reflexivity|].
  simpl. rewrite (Hnone x (or_introl eq_refl)). simpl.
  apply IH. intros l Hl. apply Hnone. now right.
Qed.

(** ** Dictionaries *)

Section DictLemmas.
Context {K V : Type} (eqb : K -> K -> bool).
Hypothesis eqb_spec : forall a b, reflect (a = b) (eqb a b).

Lemma eqb_refl_of_spec (k : K) : eqb k k = true.
Proof. now destruct (eqb_spec k k). Qed.

Lemma dict_set_absent (k : K) (v : V) (d : list (K * V)) :
  dict_mem eqb k d = false -> dict_set eqb k v d = d ++ [(k, v)].
Proof.
  unfold dict_mem. induction d as [|[k' v'] d IH]; simpl; [reflexivity|].
  destruct (eqb k' k); [discriminate|]. intros H. now rewrite IH.
Qed.

Lemma dict_get_set_same (k : K) (v : V) (d : list (K * V)) :
  dict_get eqb k (dict_set eqb k v d) = Some v.
Proof.
  induction d as [|[k' v'] d IH]; simpl.
  - now rewrite eqb_refl_of_spec.
  - destruct (eqb k' k) eqn:E; simpl; now rewrite E.
Qed.

Lemma dict_get_set_other (k k' : K) (v : V) (d : list (K * V)) :
  k <> k' -> dict_get eqb k' (dict_set eqb k v d) = dict_get eqb k' d.
Proof.
  intros Hne. induction d as [|[k0 v0] d IH]; simpl.
  - destruct (eqb_spec k k'); [contradiction|reflexivity].
  - destruct (eqb_spec k0 k); simpl.
    + subst. destruct (eqb_spec k k'); [contradiction|reflexivity].
    + now rewrite IH.
Qed.

Lemma dict_get_In (k : K) (v : V) (d : list (K * V)) :
  dict_get eqb k d = Some v -> In (k, v) d.
Proof.
  induction d as [|[k' v'] d IH]; simpl; [discriminate|].
  destruct (eqb_spec k' k).
  - intros [= ->]. subst. now left.
  - intros H. right. now apply IH.
Qed.

Lemma dict_get_None (k : K) (d : list (K * V)) :
  dict_get eqb k d = None <-> ~ In k (dict_keys d).
Proof.
  induction d as [|[k' v'] d IH]; simpl; [tauto|].
  destruct (eqb_spec k' k).
  - split; [discriminate|]. intros H. exfalso. apply H. now left.
  - rewrite IH. tauto.
Qed.

Lemma dict_mem_In (k : K) (d : list (K * V)) :
  dict_mem eqb k d = true <-> In k (dict_keys d).
Proof.
  unfold dict_mem. destruct (dict_get eqb k d) eqn:E.
  - split; [|reflexivity]. intros _.
    apply dict_get_In in E. now apply (in_map fst) in E.
  - apply dict_get_None in E. split; [discriminate|contradiction].
Qed.

Lemma dict_keys_del (k : K) (d : list (K * V)) :
  NoDup (dict_keys d) ->
  forall k', In k' (dict_keys (dict_del eqb k d)) <-> (In k' (dict_keys d) /\ k' <> k).
Proof.
  induction d as [|[k0 v0] d IH]; simpl; intros Hnd k'; [tauto|].
  inversion Hnd as [|? ? Hnotin Hnd']; subst.
  destruct (eqb_spec k0 k).
  - subst. split.
    + intros H. split; [now right|]. intros ->. contradiction.
    + intros [[->|H] Hne]; [contradiction|assumption].
  - simpl. rewrite (IH Hnd'). split.
    + intros [->|[H Hne]]; [split; [now left|congruence]|split; [now right|assumption]].
    + intros [[->|H] Hne]; [now left|right; now split].
Qed.

Lemma dict_del_NoDup (k : K) (d : list (K * V)) :
  NoDup (dict_keys d) -> NoDup (dict_keys (dict_del eqb k d)).
Proof.
  induction d as [|[k0 v0] d IH]; simpl; intros Hnd; [constructor|].
  inversion Hnd as [|? ? Hnotin Hnd']; subst.
  destruct (eqb k0 k); [assumption|].
  simpl. constructor; [|now apply IH].
  intros H. apply (dict_keys_del k d Hnd') in H. now destruct H.
Qed.

Lemma dict_get_del_other (k k' : K) (d : list (K * V)) :
  k <> k' -> dict_get eqb k' (dict_del eqb k d) = dict_get eqb k' d.
Proof.
  intros Hne. induction d as [|[k0 v0] d IH]; simpl; [reflexivity|].
  destruct (eqb_spec k0 k); simpl.
  - subst. destruct (eqb_spec k k'); [contradiction|reflexivity].
  - now rewrite IH.
Qed.

Lemma dict_get_del_same (k : K) (d : list (K * V)) :
  NoDup (dict_keys d) -> dict_get eqb k (dict_del eqb k d) = None.
Proof.
  intros Hnd. apply dict_get_None. intros H.
  apply (dict_keys_del k d Hnd) in H. now destruct H.
Qed.

End DictLemmas.

Lemma Z_eqb_spec (a b : Z) : reflect (a = b) (Z.eqb a b).
Proof. apply Z.eqb_spec. Qed.

Lemma String_eqb_spec (a b : string) : reflect (a = b) (String.eqb a b).
Proof. apply String.eqb_spec. Qed.

(** ** Traces *)

Lemma new_events_app (w w' : World) (l : list event) :
  trace w' = trace w ++ l -> new_events w w' = l.
Proof.
  unfold new_events. intros ->.
  rewrite skipn_app, skipn_all, Nat.sub_diag. reflexivity.
Qed.

Lemma connections_opened_app (a b : list event) :
  connections_opened (a ++ b) = connections_opened a + connections_opened b.
Proof. unfold connections_opened. now rewrite filter_app, length_app. Qed.

(** ** Reasoning about runs *)

Section WpRules.
Context {St : Type} (env : Env).

Lemma wp_conseq {A : Type} (m : M St A) (w : World) (s : St)
    (Q Q' : result A -> World -> St -> Prop) :
  wp m env w s Q -> (forall r w' s', Q r w' s' -> Q' r w' s') ->
  wp m env w s Q'.
Proof. unfold wp. auto. Qed.

Lemma wp_ret {A : Type} (a : A) (w : World) (s : St) Q :
  Q (Ok a) w s -> wp (ret a) env w s Q.
Proof. auto. Qed.

Lemma wp_raise {A : Type} (e : exn) (w : World) (s : St)
    (Q : result A -> World -> St -> Prop) :
  Q (Raise e) w s -> wp (raise e) env w s Q.
Proof. auto. Qed.

Lemma wp_get (w : World) (s : St) Q :
  Q (Ok s) w s -> wp get env w s Q.
Proof. auto. Qed.

Lemma wp_ask (w : World) (s : St) Q :
  Q (Ok env) w s -> wp ask env w s Q.
Proof. auto. Qed.

Lemma wp_modify (f : St -> St) (w : World) (s : St) Q :
  Q (Ok tt) w (f s) -> wp (modify f) env w s Q.
Proof. auto. Qed.

Lemma wp_bind {A B : Type} (m : M St A) (k : A -> M St B) (w : World)
    (s : St) (Q : result B -> World -> St -> Prop) :
  wp m env w s (fun r w' s' =>
    match r with
    | Ok a => wp (k a) env w' s' Q
    | Raise e => Q (Raise e) w' s'
    | Diverge => Q Diverge w' s'
    end) ->
  wp (bind m k) env w s Q.
Proof. unfold wp, bind. destruct (res (m env w s)); auto. Qed.

Lemma wp_try_except_if {A : Type} (catches : exn -> bool) (m : M St A)
    (h : exn -> M St A) (w : World) (s : St)
    (Q : result A -> World -> St -> Prop) :
  wp m env w s (fun r w' s' =>
    match r with
    | Raise e => if catches e then wp (h e) env w' s' Q else Q (Raise e) w' s'
    | _ => Q r w' s'
    end) ->
  wp (try_except_if catches m h) env w s Q.
Proof.
  unfold wp, try_except_if.
  destruct (m env w s) as [[a|e|] w' s']; cbn; auto.
  destruct (catches e); auto.
Qed.

Lemma wp_try_except {A : Type} (m : M St A) (h : exn -> M St A) (w : World)
    (s : St) (Q : result A -> World -> St -> Prop) :
  wp m env w s (fun r w' s' =>
    match r with
    | Raise e => wp (h e) env w' s' Q
    | _ => Q r w' s'
    end) ->
  wp (try_except m h) env w s Q.
Proof. intros H. apply wp_try_except_if. exact H. Qed.

Lemma wp_call_with {A : Type} (answer : Env -> nat -> call -> A)
    (inj : A -> value) (c : call) (w : World) (s : St)
    (Q : result A -> World -> St -> Prop) :
  let n := List.length (trace w) in
  let dt := Z.of_N (elapsed env n c) in
  (forall e, raises env n c = Some e ->
     Q (Raise e) (log_event c (Raised e) dt w) s) ->
  (raises env n c = None ->
     Q (Ok (answer env n c))
       (log_event c (Returned (inj (answer env n c))) dt w) s) ->
  wp (call_with answer inj c) env w s Q.
Proof.
  intros n dt He Hn. unfold wp, call_with. fold n dt.
  destruct (raises env n c) as [e|]; cbn; auto.
Qed.

Lemma wp_call_new (c : call) (w : World) (s : St)
    (Q : result nat -> World -> St -> Prop) :
  let n := List.length (trace w) in
  let dt := Z.of_N (elapsed env n c) in
  (forall e, raises env n c = Some e ->
     Q (Raise e) (log_event c (Raised e) dt w) s) ->
  (raises env n c = None ->
     Q (Ok (next_id w))
       {| trace := trace w ++ [{| ev_time := now w; ev_call := c;
                                  ev_out := Returned (VObj (next_id w)) |}];
          now := now w + dt; next_id := S (next_id w) |} s) ->
  wp (call_new c) env w s Q.
Proof.
  intros n dt He Hn. unfold wp, call_new. fold n dt.
  destruct (raises env n c) as [e|]; cbn; auto.
Qed.

Lemma wp_new_Android (cmd : string) (session : Z) (port : option Z)
    (w : World) (s : St) (Q : result Android -> World -> St -> Prop) :
  let c := Android_new cmd session port in
  let n := List.length (trace w) in
  let dt := Z.of_N (elapsed env n c) in
  (forall e, raises env n c = Some e ->
     Q (Raise e) (log_event c (Raised e) dt w) s) ->
  (raises env n c = None ->
     Q (Ok {| droid_id := next_id w; uid := ret_int env n c |})
       {| trace := trace w ++ [{| ev_time := now w; ev_call := c;
                                  ev_out := Returned (VObj (next_id w)) |}];
          now := now w + dt; next_id := S (next_id w) |} s) ->
  wp (new_Android cmd session port) env w s Q.
Proof.
  intros c n dt He Hn. unfold wp, new_Android, call_new. fold c n dt.
  destruct (raises env n c) as [e|]; cbn; auto.
Qed.

Lemma wp_py_time (w : World) (s : St) Q :
  Q (Ok (now w)) (log_event time_time (Returned (VInt (now w))) 0 w) s ->
  wp py_time env w s Q.
Proof. auto. Qed.

Lemma wp_py_sleep (seconds : Z) (w : World) (s : St) Q :
  Q (Ok tt)
    (log_event (time_sleep seconds) (Returned VNone)
       (seconds * ticks_per_second
        + Z.of_N (elapsed env (List.length (trace w)) (time_sleep seconds))) w)
    s ->
  wp (py_sleep seconds) env w s Q.
Proof. auto. Qed.

Lemma wp_note (c : call) (w : World) (s : St) Q :
  Q (Ok tt)
    (log_event c (Returned VNone)
       (Z.of_N (elapsed env (List.length (trace w)) c)) w) s ->
  wp (note c) env w s Q.
Proof. auto. Qed.

End WpRules.

Ltac wp_step :=
  lazymatch goal with
  | |- wp (bind _ _) _ _ _ _ => apply wp_bind
  | |- wp (ret _) _ _ _ _ => apply wp_ret
  | |- wp (raise _) _ _ _ _ => apply wp_raise
  | |- wp get _ _ _ _ => apply wp_get
  | |- wp ask _ _ _ _ => apply wp_ask
  | |- wp (modify _) _ _ _ _ => apply wp_modify
  | |- wp (note _) _ _ _ _ => apply wp_note
  | |- wp (try_except _ _) _ _ _ _ => apply wp_try_except
  | |- wp (try_except_if _ _ _) _ _ _ _ => apply wp_try_except_if
  | |- wp (call_unit _) _ _ _ _ =>
      apply wp_call_with; cbv zeta; [intros ?e ?Hraise|intros ?Hret]
  | |- wp (call_str _) _ _ _ _ =>
      apply wp_call_with; cbv zeta; [intros ?e ?Hraise|intros ?Hret]
  | |- wp (call_int _) _ _ _ _ =>
      apply wp_call_with; cbv zeta; [intros ?e ?Hraise|intros ?Hret]
  | |- wp (call_bool _) _ _ _ _ =>
      apply wp_call_with; cbv zeta; [intros ?e ?Hraise|intros ?Hret]
  | |- wp (call_lines _) _ _ _ _ =>
      apply wp_call_with; cbv zeta; [intros ?e ?Hraise|intros ?Hret]
  | |- wp (call_new _) _ _ _ _ =>
      apply wp_call_new; cbv zeta; [intros ?e ?Hraise|intros ?Hret]
  | |- wp (new_Android _ _ _) _ _ _ _ =>
      apply wp_new_Android; cbv zeta; [intros ?e ?Hraise|intros ?Hret]
  | |- wp py_time _ _ _ _ => apply wp_py_time
  | |- wp (py_sleep _) _ _ _ _ => apply wp_py_sleep
  | |- wp (if ?b then _ else _) _ _ _ _ => destruct b eqn:?
  | |- wp (match ?x with _ => _ end) _ _ _ _ => destruct x eqn:?
  end.

Ltac wp_run := repeat (wp_step; cbv beta iota).

(** Use the specification of a part of a run. *)
Ltac wp_use H := eapply wp_conseq; [apply H|cbv beta].

Ltac trace_ext :=
  eexists; split; [cbn [trace log_event]; rewrite <- ?app_assoc; reflexivity|].

(** ** The session registry *)

(** Unfold the monad, and nothing else. *)
Ltac msimpl :=
  cbv beta iota zeta delta
    [bind get ret raise diverge modify ask try_except try_except_if];
  cbn [res world st].

Ltac msimpl_in H :=
  cbv beta iota zeta delta
    [bind get ret raise diverge modify ask try_except try_except_if] in H;
  cbn [res world st] in H.


(** C2.  When the handshake of a new connection succeeds and the server
    hands out the uid [u]: if a session [u] is already registered,
    [start_new_session] raises [SL4AException] and the device, with both
    registries, is left as it was; otherwise the call returns the new
    connection, registered alone under [u] after the existing sessions,
    which keep their entries, and the dispatcher registry is untouched. *)
Theorem start_new_session_registry (env : Env) (w : World)
    (self : AndroidDevice) :
  let c := Android_new "initiate" (-1) (h_port self) in
  let n := List.length (trace w) in
  let u := ret_int env n c in
  let o := start_new_session env w self in
  raises env n c = None ->
  (dict_mem Z.eqb u (_droid_sessions self) = true ->
     res o = Raise (SL4AException
                      "SL4A returned an existing uid for a new session. Abort.")
     /\ st o = self)
  /\ (dict_mem Z.eqb u (_droid_sessions self) = false ->
      let d := {| droid_id := next_id w; uid := u |} in
      res o = Ok d
      /\ _droid_sessions (st o) = _droid_sessions self ++ [(u, [d])]
      /\ _event_dispatchers (st o) = _event_dispatchers self).
Proof.
  intros c n u o Hr. subst o.
  unfold start_new_session, bind, get, new_Android, call_new, raise, modify, ret.
  cbn. fold c n. rewrite Hr. cbn. fold u.
  split; intros Hm; rewrite Hm; cbn.
  - now destruct self.
  - now rewrite (dict_set_absent _ _ _ _ Hm).
Qed.

(** What [add_new_connection_to_session] does: it never touches the
    device, and a returned connection comes from one [continue]
    handshake on the session. *)
Lemma add_new_connection_to_session_spec (env : Env) (w : World)
    (self : AndroidDevice) (session_id : Z) :
  let o := add_new_connection_to_session session_id env w self in
  st o = self
  /\ res o <> Diverge
  /\ (forall d, res o = Ok d ->
      dict_mem Z.eqb session_id (_droid_sessions self) = true
      /\ exists ev, trace (world o) = trace w ++ [ev]
         /\ ev_call ev = Android_new "continue" session_id (h_port self)
         /\ droid_id d = next_id w
         /\ next_id (world o) = S (next_id w)).
Proof.
  unfold add_new_connection_to_session, bind, get, new_Android, call_new,
    raise, ret.
  cbn.
  destruct (dict_mem Z.eqb session_id (_droid_sessions self)); cbn.
  - destruct (raises env _ _); cbn.
    + repeat split; try discriminate.
    + repeat split; try discriminate.
      injection H as <-. eexists. repeat split.
  - repeat split; discriminate.
Qed.

Lemma get_dispatcher_cached (env : Env) (w : World) (self : AndroidDevice)
    (s : Android) (e : EventDispatcher) :
  dict_get String.eqb (ed_key_of self (uid s)) (_event_dispatchers self)
  = Some (Some e) ->
  res (get_dispatcher s env w self) = Ok e
  /\ st (get_dispatcher s env w self) = self
  /\ exists ev, trace (world (get_dispatcher s env w self)) = trace w ++ [ev]
                /\ is_Android_new (ev_call ev) = false.
Proof.
  intros H. remember (get_dispatcher s env w self) as o eqn:Eo.
  unfold get_dispatcher in Eo. msimpl_in Eo.
  fold (ed_key_of self (uid s)) in Eo. unfold dict_mem in Eo. rewrite H in Eo.
  unfold note, log_event in Eo. msimpl_in Eo. subst o. cbn [res world st trace].
  split; [reflexivity|]. split; [reflexivity|].
  eexists. split; reflexivity.
Qed.

Lemma get_dispatcher_fresh (env : Env) (w : World) (self : AndroidDevice)
    (s : Android) (e : EventDispatcher) (o : out AndroidDevice EventDispatcher) :
  dict_get String.eqb (ed_key_of self (uid s)) (_event_dispatchers self) = None ->
  o = get_dispatcher s env w self ->
  res o = Ok e ->
  dict_mem Z.eqb (uid s) (_droid_sessions self) = true
  /\ st o = set_event_dispatchers
              (dict_set String.eqb (ed_key_of self (uid s)) (Some e)
                 (_event_dispatchers self)) self
  /\ exists ev1 ev2, trace (world o) = trace w ++ [ev1; ev2]
       /\ ev_call ev1 = Android_new "continue" (uid s) (h_port self)
       /\ ev_call ev2 = EventDispatcher_new (ed_droid e).
Proof.
  intros H Eo. unfold get_dispatcher in Eo. msimpl_in Eo.
  fold (ed_key_of self (uid s)) in Eo. unfold dict_mem at 1 in Eo.
  rewrite H in Eo.
  pose proof (add_new_connection_to_session_spec env w self (uid s)) as [Hs [_ Hd]].
  destruct (add_new_connection_to_session (uid s) env w self)
    as [[d| |] w1 s1]; cbn [res world st] in *; subst o; cbn [res]; try easy.
  subst s1. destruct (Hd d eq_refl) as [Hm [ev [Ht [Hc _]]]].
  unfold new_EventDispatcher, call_new. msimpl.
  destruct (raises env _ _); cbn [res world st]; intros [=]. subst e.
  cbn [trace log_event ed_droid].
  split; [assumption|]. split; [reflexivity|].
  do 2 eexists. rewrite Ht, <- app_assoc. cbn [app].
  split; [reflexivity|]. split; [assumption|reflexivity].
Qed.

(** C8.  If [get_dispatcher] returns a dispatcher for a session, calling it
    again returns the very same dispatcher, changes nothing on the device
    and opens no connection.  When no dispatcher was cached for the
    session, the first call opened exactly one connection, a [continue]
    handshake on the session id, built the dispatcher on it and cached
    it. *)
Theorem get_dispatcher_idempotent (env : Env) (w : World)
    (self : AndroidDevice) (s : Android) (ed1 : EventDispatcher) :
  let o1 := get_dispatcher s env w self in
  let o2 := get_dispatcher s env (world o1) (st o1) in
  res o1 = Ok ed1 ->
  res o2 = Ok ed1
  /\ st o2 = st o1
  /\ connections_opened (trace (world o2)) = connections_opened (trace (world o1))
  /\ dict_get String.eqb (ed_key_of self (uid s)) (_event_dispatchers (st o1))
     = Some (Some ed1)
  /\ (dict_mem String.eqb (ed_key_of self (uid s)) (_event_dispatchers self)
      = false ->
      dict_mem Z.eqb (uid s) (_droid_sessions self) = true
      /\ new_calls w (world o1)
         = [Android_new "continue" (uid s) (h_port self);
            EventDispatcher_new (ed_droid ed1)]
      /\ connections_opened (trace (world o1))
         = S (connections_opened (trace w))).
Proof.
  intros o1 o2 H1.
  assert (Hc : dict_get String.eqb (ed_key_of (st o1) (uid s))
                 (_event_dispatchers (st o1)) = Some (Some ed1)
               /\ ed_key_of (st o1) (uid s) = ed_key_of self (uid s)
               /\ (dict_mem String.eqb (ed_key_of self (uid s))
                     (_event_dispatchers self) = false ->
                   dict_mem Z.eqb (uid s) (_droid_sessions self) = true
                   /\ new_calls w (world o1)
                      = [Android_new "continue" (uid s) (h_port self);
                         EventDispatcher_new (ed_droid ed1)]
                   /\ connections_opened (trace (world o1))
                      = S (connections_opened (trace w)))).
  { destruct (dict_get String.eqb (ed_key_of self (uid s))
                (_event_dispatchers self)) as [[e|]|] eqn:E.
    - destruct (get_dispatcher_cached env w self s e E) as [Hr [Hs _]].
      fold o1 in Hr, Hs. rewrite Hs.
      assert (e = ed1) by congruence. subst e.
      split; [assumption|]. split; [reflexivity|].
      unfold dict_mem. rewrite E. discriminate.
    - exfalso. subst o1 o2. revert H1. unfold get_dispatcher. msimpl.
      fold (ed_key_of self (uid s)). unfold dict_mem. rewrite E.
      cbn [res]. discriminate.
    - destruct (get_dispatcher_fresh env w self s ed1 o1 E eq_refl H1)
        as [Hm [Hs [ev1 [ev2 [Ht [Hc1 Hc2]]]]]].
      rewrite Hs. unfold ed_key_of. cbn [serial set_event_dispatchers _event_dispatchers].
      split; [apply dict_get_set_same, String_eqb_spec|].
      split; [reflexivity|]. intros _. split; [assumption|]. split.
      + unfold new_calls. rewrite (new_events_app _ _ _ Ht). cbn.
        now rewrite Hc1, Hc2.
      + rewrite Ht, connections_opened_app. unfold connections_opened at 2.
        cbn. rewrite Hc1, Hc2. cbn. lia. }
  destruct Hc as [Hc [Hk Hfresh]].
  destruct (get_dispatcher_cached env (world o1) (st o1) s ed1 Hc)
    as [Hr [Hs [ev [Ht Hn]]]].
  fold o2 in Hr, Hs, Ht.
  split; [assumption|]. split; [assumption|]. split.
  - rewrite Ht, connections_opened_app. unfold connections_opened at 2.
    cbn. rewrite Hn. cbn. lia.
  - split; [now rewrite <- Hk|assumption].
Qed.

(** ** Terminating sessions *)

Ltac forall_events :=
  repeat (apply Forall_cons; [cbn; auto|]); try apply Forall_nil.






Lemma same_device_refl (a : AndroidDevice) : same_device_but_registries a a.
Proof. repeat split. Qed.



Lemma terminate_session_dispatcher_spec (env : Env) (w : World)
    (self : AndroidDevice) (sid : Z) :
  let o := terminate_session_dispatcher sid env w self in
  res o <> Diverge
  /\ same_device_but_registries (st o) self
  /\ _droid_sessions (st o) = _droid_sessions self
  /\ exists delta, trace (world o) = trace w ++ delta
     /\ Forall (fun e => exists ed, ev_call e = EventDispatcher_clean_up ed) delta.
Proof.
  unfold terminate_session_dispatcher, call_unit, call_with. msimpl.
  destruct (dict_get String.eqb _ _) as [[e|]|]; cbn [res world st].
  - destruct (raises env _ _); cbn [res world st];
      (split; [discriminate|]); (split; [repeat split|]);
      (split; [reflexivity|]);
      eexists; (split; [reflexivity|]); forall_events; eexists; reflexivity.
  - split; [discriminate|]. split; [repeat split|]. split; [reflexivity|].
    exists []. split; [now rewrite app_nil_r|constructor].
  - split; [discriminate|]. split; [repeat split|]. split; [reflexivity|].
    exists []. split; [now rewrite app_nil_r|constructor].
Qed.




Lemma registry_wf_lookup (self : AndroidDevice) (sid : Z) :
  registry_wf self ->
  In sid (dict_keys (_droid_sessions self)) ->
  exists d, dict_get Z.eqb sid (_droid_sessions self) = Some [d] /\ uid d = sid.
Proof.
  intros [_ Hp] Hin.
  apply (dict_mem_In Z.eqb Z_eqb_spec) in Hin. unfold dict_mem in Hin.
  destruct (dict_get Z.eqb sid (_droid_sessions self)) as [l|] eqn:E;
    [|discriminate].
  apply (dict_get_In Z.eqb Z_eqb_spec) in E as Hin'.
  unfold primary_only in Hp. rewrite Forall_forall in Hp.
  destruct (Hp _ Hin') as [d [Hl Hu]]. cbn in Hl, Hu. subst l.
  now exists d.
Qed.


(** ** Opening sessions *)

Lemma start_new_session_spec (env : Env) (w : World) (self : AndroidDevice) :
  let o := start_new_session env w self in
  res o <> Diverge
  /\ same_device_but_registries (st o) self
  /\ _event_dispatchers (st o) = _event_dispatchers self
  /\ (exists ev, trace (world o) = trace w ++ [ev]
        /\ ev_call ev = Android_new "initiate" (-1) (h_port self))
  /\ ((exists e, res o = Raise e) /\ st o = self
      \/ (exists d, res o = Ok d
            /\ dict_mem Z.eqb (uid d) (_droid_sessions self) = false
            /\ _droid_sessions (st o) = _droid_sessions self ++ [(uid d, [d])])).
Proof.
  cbv zeta. remember (start_new_session env w self) as o eqn:Eo.
  unfold start_new_session, new_Android, call_new in Eo. msimpl_in Eo.
  destruct (raises env _ _) as [e|]; cbn [res world st] in Eo.
  - subst o. cbn [res world st trace log_event].
    split; [discriminate|]. split; [apply same_device_refl|].
    split; [reflexivity|]. split; [eexists; split; reflexivity|].
    left. split; [now exists e|reflexivity].
  - cbn [uid] in Eo.
    destruct (dict_mem Z.eqb _ (_droid_sessions self)) eqn:Em;
      subst o; cbn [res world st trace log_event].
    + split; [discriminate|]. split; [apply same_device_refl|].
      split; [reflexivity|]. split; [eexists; split; reflexivity|].
      left. split; [eexists; reflexivity|reflexivity].
    + split; [discriminate|]. split; [repeat split|].
      split; [reflexivity|]. split; [eexists; split; reflexivity|].
      right. eexists. split; [reflexivity|]. cbn [uid].
      split; [assumption|]. cbn.
      now rewrite (dict_set_absent _ _ _ _ Em).
Qed.

Lemma primary_only_del (sid : Z) (l : list (Z * list Android)) :
  primary_only l -> primary_only (dict_del Z.eqb sid l).
Proof.
  unfold primary_only. induction 1 as [|[k v] l Hkv Hl IH]; cbn; [constructor|].
  destruct (Z.eqb k sid); [assumption|]. now constructor.
Qed.

Lemma registry_wf_del (self : AndroidDevice) (sid : Z) (s' : AndroidDevice) :
  registry_wf self ->
  _droid_sessions s' = dict_del Z.eqb sid (_droid_sessions self) ->
  registry_wf s'.
Proof.
  intros [Hnd Hp] E. unfold registry_wf. rewrite E. split.
  - now apply dict_del_NoDup; [apply Z_eqb_spec|].
  - now apply primary_only_del.
Qed.

Lemma registry_wf_same (self s' : AndroidDevice) :
  registry_wf self -> _droid_sessions s' = _droid_sessions self ->
  registry_wf s'.
Proof. unfold registry_wf. now intros H ->. Qed.

Lemma registry_wf_add (self s' : AndroidDevice) (d : Android) :
  registry_wf self ->
  dict_mem Z.eqb (uid d) (_droid_sessions self) = false ->
  _droid_sessions s' = _droid_sessions self ++ [(uid d, [d])] ->
  registry_wf s'.
Proof.
  intros [Hnd Hp] Hm E. unfold registry_wf. rewrite E. split.
  - unfold dict_keys. rewrite map_app. cbn.
    apply NoDup_app; [assumption|repeat constructor; intros []|].
    intros k Hin [<-|[]].
    apply (dict_mem_In Z.eqb Z_eqb_spec) in Hin. congruence.
  - apply Forall_app. split; [assumption|].
    constructor; [|constructor]. now exists d.
Qed.

Lemma start_new_session_wf (env : Env) (w : World) (self : AndroidDevice) :
  registry_wf self -> registry_wf (st (start_new_session env w self)).
Proof.
  intros Hwf.
  destruct (start_new_session_spec env w self)
    as [_ [_ [_ [_ [[_ Hs] | [d [_ [Hm Hs]]]]]]]].
  - now rewrite Hs.
  - eapply registry_wf_add; eassumption.
Qed.

Lemma get_dispatcher_sessions (env : Env) (w : World) (self : AndroidDevice)
    (s : Android) :
  _droid_sessions (st (get_dispatcher s env w self)) = _droid_sessions self.
Proof.
  remember (get_dispatcher s env w self) as o eqn:Eo.
  unfold get_dispatcher in Eo. msimpl_in Eo.
  destruct (dict_mem String.eqb _ _).
  - destruct (dict_get String.eqb _ _) as [[e|]|]; subst o; reflexivity.
  - pose proof (add_new_connection_to_session_spec env w self (uid s)) as [Hs _].
    cbv zeta in Hs.
    destruct (add_new_connection_to_session (uid s) env w self)
      as [[d| |] w1 s1]; cbn [res world st] in *; subst o s1; try reflexivity.
    unfold new_EventDispatcher, call_new. msimpl.
    destruct (raises env _ _); reflexivity.
Qed.

Lemma close_droids_state (env : Env) (l : list Android) :
  forall (w : World) (self : AndroidDevice),
  st (close_droids l env w self) = self.
Proof.
  induction l as [|d l IH]; intros w self; [reflexivity|].
  cbn [close_droids]. unfold call_unit, call_with. msimpl.
  destruct (raises env _ _); [reflexivity|]. cbn [res world st].
  destruct (raises env _ _); [reflexivity|]. cbn [res world st].
  specialize (IH (log_event (Android_close d) (Returned VNone)
    (Z.of_N (elapsed env (List.length (trace (log_event (closeSl4aSession d)
       (Returned VNone) (Z.of_N (elapsed env (List.length (trace w))
         (closeSl4aSession d))) w))) (Android_close d)))
    (log_event (closeSl4aSession d) (Returned VNone)
       (Z.of_N (elapsed env (List.length (trace w)) (closeSl4aSession d))) w)) self).
  destruct (close_droids l env _ self) as [[[]|e|] w1 s1];
    cbn [res world st] in *; assumption.
Qed.

Lemma terminate_session_wf (env : Env) (w : World) (self : AndroidDevice)
    (sid : Z) :
  registry_wf self -> registry_wf (st (terminate_session sid env w self)).
Proof.
  intros Hwf.
  remember (terminate_session sid env w self) as o eqn:Eo.
  unfold terminate_session in Eo. msimpl_in Eo.
  assert (H1 : registry_wf (st (terminate_session_droids sid env w self))).
  { remember (terminate_session_droids sid env w self) as o1 eqn:Eo1.
    unfold terminate_session_droids in Eo1. msimpl_in Eo1.
    destruct (_droid_sessions self) as [|kv rest] eqn:Es; [now subst o1|].
    rewrite <- Es in *.
    destruct (dict_get Z.eqb sid (_droid_sessions self)) as [l|];
      [|now subst o1].
    pose proof (close_droids_state env l w self) as Hc.
    destruct (close_droids l env w self) as [[[]|e|] w1 s1];
      cbn [res world st] in *; subst o1 s1; cbn [st]; try assumption.
    eapply registry_wf_del; [eassumption|reflexivity]. }
  destruct (terminate_session_droids sid env w self) as [[[]|e|] w1 s1];
    cbn [res world st] in *; try (subst o; assumption).
  pose proof (terminate_session_dispatcher_spec env w1 s1 sid)
    as [_ [_ [Hs _]]].
  cbv zeta in Hs. rewrite <- Eo in Hs.
  eapply registry_wf_same; eassumption.
Qed.

(** The calls of a successful [terminate_session] on a session that holds
    the connection [d]: the session is closed, then the connection, then
    the dispatcher of the session, if there is one, cleans up. *)
Lemma terminate_session_calls (env : Env) (w : World) (self : AndroidDevice)
    (sid : Z) (d : Android) :
  dict_get Z.eqb sid (_droid_sessions self) = Some [d] ->
  res (terminate_session sid env w self) = Ok tt ->
  new_calls w (world (terminate_session sid env w self))
  = closeSl4aSession d :: Android_close d
    :: match dict_get String.eqb (ed_key_of self sid) (_event_dispatchers self) with
       | Some (Some e) => [EventDispatcher_clean_up e]
       | _ => []
       end.
Proof.
  intros Hg.
  remember (terminate_session sid env w self) as o eqn:Eo.
  unfold terminate_session, terminate_session_droids,
    terminate_session_dispatcher in Eo.
  msimpl_in Eo.
  destruct (_droid_sessions self) as [|kv rest] eqn:Es; [discriminate|].
  rewrite <- Es in *. rewrite Hg in Eo.
  unfold close_droids, call_unit, call_with in Eo. msimpl_in Eo.
  destruct (raises env _ _); cbn [res world st] in Eo;
    [subst o; discriminate|].
  destruct (raises env _ _); cbn [res world st] in Eo;
    [subst o; discriminate|].
  cbn [serial set_droid_sessions _event_dispatchers] in Eo.
  fold (ed_key_of self sid) in Eo.
  destruct (dict_get String.eqb (ed_key_of self sid) (_event_dispatchers self))
    as [[e|]|]; cbn [res world st] in Eo.
  - destruct (raises env _ _); cbn [res world st] in Eo;
      subst o; cbn [res world st]; [discriminate|].
    intros _. unfold new_calls.
    erewrite new_events_app
      by (cbn [trace log_event]; rewrite <- !app_assoc; reflexivity).
    reflexivity.
  - subst o. discriminate.
  - subst o. cbn [res world st]. intros _. unfold new_calls.
    erewrite new_events_app
      by (cbn [trace log_event]; rewrite <- !app_assoc; reflexivity).
    reflexivity.
Qed.

(** C9, amended.  The connection list of a session holds the primary
    connection and nothing else: [start_new_session] registers the new
    connection alone, and neither [add_new_connection_to_session] nor
    [get_dispatcher] adds the auxiliary connection they open to the list
    (or changes the registry at all).  [terminate_session] keeps the
    registry in that shape, and when it succeeds on a session it has
    closed the connection of the list, the primary one, before the
    dispatcher of the session cleaned up. *)
Theorem session_list_holds_primary_only (env : Env) (w : World)
    (self : AndroidDevice) :
  registry_wf self ->
  registry_wf (st (start_new_session env w self))
  /\ (forall sid, st (add_new_connection_to_session sid env w self) = self)
  /\ (forall s, _droid_sessions (st (get_dispatcher s env w self))
                = _droid_sessions self)
  /\ (forall sid, registry_wf (st (terminate_session sid env w self)))
  /\ (forall sid, In sid (dict_keys (_droid_sessions self)) ->
        exists d, dict_get Z.eqb sid (_droid_sessions self) = Some [d]
          /\ uid d = sid
          /\ (res (terminate_session sid env w self) = Ok tt ->
              new_calls w (world (terminate_session sid env w self))
              = closeSl4aSession d :: Android_close d
                :: match dict_get String.eqb (ed_key_of self sid)
                           (_event_dispatchers self) with
                   | Some (Some e) => [EventDispatcher_clean_up e]
                   | _ => []
                   end)).
Proof.
  intros Hwf.
  split; [now apply start_new_session_wf|].
  split; [intros sid; apply add_new_connection_to_session_spec|].
  split; [intros s; apply get_dispatcher_sessions|].
  split; [intros sid; now apply terminate_session_wf|].
  intros sid Hin.
  destruct (registry_wf_lookup self sid Hwf Hin) as [d [Hg Hu]].
  exists d. split; [assumption|]. split; [assumption|].
  now apply terminate_session_calls.
Qed.

(** ** [get_droid] *)

Lemma count_calls_app (p : call -> bool) (a b : list event) :
  count_calls p (a ++ b) = count_calls p a + count_calls p b.
Proof. unfold count_calls. now rewrite filter_app, length_app. Qed.


(** The port phase of [get_droid] only asks for a port and forwards it;
    when it returns, [h_port] is set and the last call forwarded it to the
    device port. *)
Lemma get_droid_forward_spec (env : Env) (w : World) (self : AndroidDevice) :
  wp get_droid_forward env w self (fun r w' s' =>
    r <> Diverge
    /\ same_device_but_port s' self
    /\ exists delta, trace w' = trace w ++ delta
         /\ Forall (fun e => port_call (ev_call e) = true) delta
         /\ (r = Ok tt ->
             exists p cs, h_port s' = Some p
               /\ map ev_call delta
                  = cs ++ [adb_tcp_forward (serial self) (Some p) (d_port self)])).
Proof.
  unfold get_droid_forward. wp_run.
  all: cbn [negb] in *; wp_run.
  all: split; [discriminate|]; (split; [repeat split|]); trace_ext;
    (split; [forall_events|]); try (intros [=]; fail); intros _.
  all: cbn [h_port set_h_port serial d_port map app ev_call].
  all: eexists; eexists; (split; [try eassumption; reflexivity|]).
  all: try match goal with H : h_port ?x = Some _ |- _ => rewrite H end.
  all: try (instantiate (1 := [_]); reflexivity).
  all: try (instantiate (1 := [_; _]); reflexivity).
  all: try (instantiate (1 := []); reflexivity).
Qed.

Lemma count_calls_none (p : call -> bool) (t : list event) :
  Forall (fun e => p (ev_call e) = false) t -> count_calls p t = 0.
Proof.
  unfold count_calls. induction 1 as [|e t He _ IH]; cbn; [reflexivity|].
  now rewrite He.
Qed.

Lemma count_calls_port (p : call -> bool) (t : list event) :
  (forall c, port_call c = true -> p c = false) ->
  Forall (fun e => port_call (ev_call e) = true) t -> count_calls p t = 0.
Proof.
  intros Hp H. apply count_calls_none.
  eapply Forall_impl; [|exact H]. intros e. apply Hp.
Qed.

Lemma port_call_other (c : call) :
  port_call c = true -> is_session_open c = false /\ is_bootstrap c = false.
Proof. destruct c; cbn; intros H; try discriminate H; now split. Qed.

(** [get_dispatcher] neither opens a new session nor starts sl4a. *)
Lemma get_dispatcher_calls (env : Env) (w : World) (self : AndroidDevice)
    (s : Android) :
  wp (get_dispatcher s) env w self (fun r w' s' =>
    exists delta, trace w' = trace w ++ delta
      /\ Forall (fun e => is_session_open (ev_call e) = false
                          /\ is_bootstrap (ev_call e) = false) delta).
Proof.
  unfold get_dispatcher, add_new_connection_to_session, new_EventDispatcher.
  wp_run.
  all: try (exists []; split; [now rewrite app_nil_r|constructor]).
  all: trace_ext; forall_events.
Qed.

Lemma start_new_session_trace (env : Env) (w : World) (self : AndroidDevice) :
  exists ev,
    trace (world (start_new_session env w self)) = trace w ++ [ev]
    /\ ev_call ev = Android_new "initiate" (-1) (h_port self).
Proof. apply start_new_session_spec. Qed.

(** C7.  Once [get_droid] has a host port forwarded to the device port, it
    tries to open a session.  If that attempt succeeds there is no
    bootstrap and no second attempt.  If it fails, whatever the exception,
    [start_sl4a] is called once; when [start_sl4a] returns, one more
    attempt to open a session is made, and no other: two attempts in all.
    If the second attempt raises, [get_droid] ends there and raises that
    very exception. *)
Theorem get_droid_retries_once (env : Env) (w : World) (self : AndroidDevice)
    (handle_event : bool) :
  let o0 := get_droid_forward env w self in
  let o1 := start_new_session env (world o0) (st o0) in
  let ob := call_unit (adb_start_sl4a (serial self)) env (world o1) (st o1) in
  let o2 := start_new_session env (world ob) (st ob) in
  let o := get_droid handle_event env w self in
  let delta := new_events w (world o) in
  res o0 = Ok tt ->
  (exists p cs, h_port (st o0) = Some p
     /\ new_calls w (world o0)
        = cs ++ [adb_tcp_forward (serial self) (Some p) (d_port self)])
  /\ (forall d, res o1 = Ok d ->
        count_calls is_session_open delta = 1
        /\ count_calls is_bootstrap delta = 0)
  /\ (forall e1, res o1 = Raise e1 ->
        count_calls is_bootstrap delta = 1
        /\ (forall eb, res ob = Raise eb ->
              res o = Raise eb /\ count_calls is_session_open delta = 1)
        /\ (res ob = Ok tt ->
              count_calls is_session_open delta = 2
              /\ (forall e2, res o2 = Raise e2 ->
                    res o = Raise e2 /\ world o = world o2 /\ st o = st o2))).
Proof.
  intros o0 o1 ob o2 o delta H0.
  pose proof (get_droid_forward_spec env w self) as F0. unfold wp in F0.
  fold o0 in F0. destruct F0 as [_ [Hsame0 [d0 [Ht0 [Hp0 Hport]]]]].
  destruct (Hport H0) as [p [cs [Hp Hcs]]].
  split.
  { exists p, cs. split; [assumption|]. unfold new_calls.
    now rewrite (new_events_app _ _ _ Ht0). }
  assert (Hopen0 : count_calls is_session_open d0 = 0)
    by (apply (count_calls_port _ _ (fun c H => proj1 (port_call_other c H)) Hp0)).
  assert (Hboot0 : count_calls is_bootstrap d0 = 0)
    by (apply (count_calls_port _ _ (fun c H => proj2 (port_call_other c H)) Hp0)).
  destruct (start_new_session_spec env (world o0) (st o0))
    as [Hd1 [Hsame1 [_ [[ev1 [Ht1 Hc1]] _]]]].
  fold o1 in Hd1, Hsame1, Ht1.
  assert (Hser1 : serial (st o1) = serial self).
  { destruct Hsame1 as [-> _]. now destruct Hsame0 as [-> _]. }
  assert (Hev1 : count_calls is_session_open [ev1] = 1
                 /\ count_calls is_bootstrap [ev1] = 0).
  { unfold count_calls. cbn. now rewrite Hc1. }
  destruct Hev1 as [Hev1o Hev1b].
  (* the run of get_droid after the port phase *)
  assert (Eo : o = bind get_droid_session
                 (fun droid =>
                    if handle_event
                    then ed <- get_dispatcher droid ;; ret (droid, Some ed)
                    else ret (droid, None)) env (world o0) (st o0)).
  { subst o. unfold get_droid. unfold bind at 1. fold o0. now rewrite H0. }
  assert (Htail : forall (d : Android) (w' : World) (s' : AndroidDevice),
            exists dd,
              trace (world ((if handle_event
                             then ed <- get_dispatcher d ;; ret (d, Some ed)
                             else ret (d, None)) env w' s')) = trace w' ++ dd
              /\ count_calls is_session_open dd = 0
              /\ count_calls is_bootstrap dd = 0).
  { intros d w' s'. destruct handle_event.
    - pose proof (get_dispatcher_calls env w' s' d) as [dd [Htd Hfd]].
      exists dd. split.
      + unfold bind. destruct (res (get_dispatcher d env w' s')); exact Htd.
      + split; apply count_calls_none; (eapply Forall_impl; [|exact Hfd]);
          now intros e [? ?].
    - exists []. cbn. now rewrite app_nil_r. }
  split.
  - (* the first attempt succeeds *)
    intros d Hr1.
    assert (Eo' : o = (if handle_event
                       then ed <- get_dispatcher d ;; ret (d, Some ed)
                       else ret (d, None)) env (world o1) (st o1)).
    { rewrite Eo. unfold bind at 1, get_droid_session, try_except, try_except_if.
      fold o1. rewrite Hr1. cbn [res world st]. now rewrite Hr1. }
    destruct (Htail d (world o1) (st o1)) as [dd [Htd [Hod Hbd]]].
    rewrite <- Eo' in Htd.
    subst delta.
    erewrite new_events_app
      by (rewrite Htd, Ht1, Ht0, <- !app_assoc; reflexivity).
    rewrite !count_calls_app. lia.
  - (* the first attempt fails *)
    intros e1 Hr1.
    assert (Htb : exists evb, trace (world ob) = trace (world o1) ++ [evb]
                    /\ ev_call evb = adb_start_sl4a (serial self)
                    /\ st ob = st o1
                    /\ (res ob = Ok tt \/ exists eb, res ob = Raise eb)).
    { subst ob. unfold call_unit, call_with.
      destruct (raises env _ _) as [eb|]; cbn [res world st trace log_event];
        eexists; repeat split; eauto. }
    destruct Htb as [evb [Htb [Hcb [Hsb Hrb]]]].
    assert (Hevb : count_calls is_session_open [evb] = 0
                   /\ count_calls is_bootstrap [evb] = 1).
    { unfold count_calls. cbn. now rewrite Hcb. }
    destruct Hevb as [Hevbo Hevbb].
    destruct (start_new_session_spec env (world ob) (st ob))
      as [Hd2 [_ [_ [[ev2 [Ht2 Hc2]] _]]]].
    fold o2 in Hd2, Ht2.
    assert (Hev2 : count_calls is_session_open [ev2] = 1
                   /\ count_calls is_bootstrap [ev2] = 0).
    { unfold count_calls. cbn. now rewrite Hc2. }
    destruct Hev2 as [Hev2o Hev2b].
    assert (Es : get_droid_session env (world o0) (st o0)
                 = match res ob with
                   | Ok _ => o2
                   | Raise eb => {| res := Raise eb; world := world ob; st := st ob |}
                   | Diverge => {| res := Diverge; world := world ob; st := st ob |}
                   end).
    { unfold get_droid_session, try_except, try_except_if.
      fold o1. rewrite Hr1. unfold bind, get. cbn [res world st].
      rewrite Hser1. fold ob. destruct (res ob); reflexivity. }
    destruct Hrb as [Hrb | [eb Hrb]].
    + (* the bootstrap returns *)
      rewrite Hrb in Es.
      assert (Hdelta : exists dd, trace (world o)
                         = trace w ++ d0 ++ [ev1] ++ [evb] ++ [ev2] ++ dd
                         /\ count_calls is_session_open dd = 0
                         /\ count_calls is_bootstrap dd = 0).
      { rewrite Eo. unfold bind at 1. rewrite Es.
        destruct (res o2) as [d2|e2|] eqn:Hr2.
        - destruct (Htail d2 (world o2) (st o2)) as [dd [Htd [Hod Hbd]]].
          exists dd. rewrite Htd, Ht2, Htb, Ht1, Ht0, <- !app_assoc.
          now split.
        - exists []. cbn [world]. rewrite Ht2, Htb, Ht1, Ht0, <- !app_assoc.
          now split.
        - contradiction. }
      destruct Hdelta as [dd [Htd [Hod Hbd]]].
      subst delta. rewrite (new_events_app _ _ _ Htd), !count_calls_app.
      split; [lia|]. split; [intros eb; rewrite Hrb; discriminate|].
      intros _. split; [lia|].
      intros e2 Hr2.
      assert (Eo2 : o = {| res := Raise e2; world := world o2; st := st o2 |})
        by (rewrite Eo; unfold bind at 1; now rewrite Es, Hr2).
      rewrite Eo2. now repeat split.
    + (* the bootstrap raises *)
      rewrite Hrb in Es.
      assert (Htd : trace (world o) = trace w ++ d0 ++ [ev1] ++ [evb]
                    /\ res o = Raise eb).
      { assert (Eob : o = {| res := Raise eb; world := world ob; st := st ob |})
          by (rewrite Eo; unfold bind at 1; now rewrite Es).
        rewrite Eob. cbn [res world st].
        rewrite Htb, Ht1, Ht0, <- !app_assoc. now split. }
      destruct Htd as [Htd Hro].
      subst delta. rewrite (new_events_app _ _ _ Htd), !count_calls_app.
      split; [lia|]. split.
      * intros eb' Hrb'. rewrite Hrb in Hrb'. injection Hrb' as <-.
        split; [assumption|lia].
      * rewrite Hrb. discriminate.
Qed.

(** ** The log excerpt *)








(** ** Waiting for the boot *)

Lemma spaced_weaken (lo lo' : Z) (ts : list Z) :
  (lo' <= lo)%Z -> spaced lo ts -> spaced lo' ts.
Proof. destruct ts as [|t ts]; cbn; [tauto|]. intros H [H1 H2]. split; [lia|assumption]. Qed.

Lemma spaced_count (D : Z) (ts : list Z) :
  forall lo, spaced lo ts -> Forall (fun t => t < D)%Z ts ->
  ts = [] \/ (lo + (Z.of_nat (List.length ts) - 1) * poll_interval < D)%Z.
Proof.
  induction ts as [|t ts IH]; intros lo Hs Hf; [now left|]. right.
  cbn [spaced] in Hs. destruct Hs as [Hlo Hs].
  inversion Hf as [|? ? Ht Hf']; subst.
  destruct (IH _ Hs Hf') as [-> | H].
  - cbn. lia.
  - cbn [List.length]. unfold poll_interval, ticks_per_second in *. lia.
Qed.

Ltac tlia :=
  cbn [now log_event ev_time] in *;
  unfold poll_interval, boot_timeout, ticks_per_second in *; lia.

Ltac poll_events :=
  unfold is_poll; cbn [filter app ev_call]; rewrite ?String.eqb_refl;
  cbn [andb filter map ev_time].

Lemma wait_loop_spec (env : Env) (self : AndroidDevice) (start : Z) :
  let deadline := (start + boot_timeout)%Z in
  forall (fuel : nat) (w : World),
  (1 <= fuel)%nat ->
  (deadline - now w <= poll_interval * (Z.of_nat fuel - 1))%Z ->
  wp (wait_for_boot_completion_loop fuel start boot_timeout) env w self
    (fun r w' s' =>
       r <> Diverge /\ s' = self
       /\ (now w <= now w')%Z
       /\ exists delta, trace w' = trace w ++ delta
          /\ Forall (fun e => ev_time e < deadline)%Z
               (filter (is_poll self) delta)
          /\ spaced (now w) (map ev_time (filter (is_poll self) delta))
          /\ (r = Ok tt <->
              exists e, In e (filter (is_poll self) delta)
                        /\ poll_completed e = true)
          /\ (forall e x, In e (filter (is_poll self) delta) ->
                ev_out e = Raised x -> is_AdbError x = false -> r = Raise x)
          /\ ((forall e, In e (filter (is_poll self) delta) ->
                 poll_completed e = false
                 /\ forall x, ev_out e = Raised x -> is_AdbError x = true) ->
              r = Raise (boot_timeout_error self)
              /\ (deadline <= now w')%Z)).
Proof.
  intros deadline. subst deadline.
  induction fuel as [|fuel IH]; intros w Hfuel Hdl; [lia|].
  assert (Hf : (now w < start + boot_timeout)%Z -> (1 <= fuel)%nat).
  { intros Hlt. destruct fuel; [|lia].
    tlia. }
  cbn [wait_for_boot_completion_loop]. wp_run. all: cbv beta iota.
  all: try match goal with H : (_ <? _)%Z = true |- _ => apply Z.ltb_lt in H end.
  all: try match goal with H : (_ <? _)%Z = false |- _ => apply Z.ltb_ge in H end.
  - (* the poll raises *)
    destruct (is_AdbError e) eqn:Hadb.
    + (* an AdbError is swallowed: sleep and go on *)
      wp_run.
      eapply wp_conseq.
      { apply IH; [exact (Hf Heqb)|]. cbn [now log_event].
        tlia. }
      cbv beta.
      intros r w' s' [Hd [Hs [Hmono [delta [Ht [Hall [Hsp [Hok [Hprop Hto]]]]]]]]].
      cbn [now log_event] in Hmono, Hsp.
      split; [assumption|]. split; [assumption|]. split; [tlia|].
      eexists. split;
        [rewrite Ht; cbn [trace log_event]; rewrite <- !app_assoc; reflexivity|].
      poll_events.
      split; [constructor; [tlia|assumption]|].
      split.
      { cbn [spaced]. split; [tlia|].
        eapply spaced_weaken; [|exact Hsp].
        tlia. }
      split.
      { rewrite Hok. split; intros [x [Hin Hc]]; exists x.
        - split; [now right|assumption].
        - destruct Hin as [<-|Hin]; [discriminate Hc|now split]. }
      split.
      { intros x y [<-|Hin] Hout Hna.
        - cbn in Hout. injection Hout as <-. congruence.
        - eapply Hprop; eassumption. }
      intros Hnone. apply Hto. intros x Hin. apply Hnone. now right.
    + (* any other exception propagates *)
      split; [discriminate|]. split; [reflexivity|].
      split; [tlia|].
      trace_ext. poll_events.
      split; [constructor; [tlia|constructor]|].
      split; [cbn [spaced]; split; [tlia|exact I]|].
      split.
      { split; [discriminate|]. intros [x [[<-|[]] Hc]]. discriminate Hc. }
      split.
      { intros x y [<-|[]] Hout _. cbn in Hout. now injection Hout as <-. }
      intros Hnone. exfalso.
      destruct (Hnone _ (or_introl eq_refl)) as [_ Hx].
      specialize (Hx e eq_refl). congruence.
  - (* the poll returns the completion indicator *)
    split; [discriminate|]. split; [reflexivity|].
    split; [tlia|].
    trace_ext. poll_events.
    split; [constructor; [tlia|constructor]|].
    split; [cbn [spaced]; split; [tlia|exact I]|].
    split.
    { split; [|reflexivity]. intros _. eexists. split; [now left|].
      unfold poll_completed. cbn [ev_out]. assumption. }
    split; [intros x y [<-|[]] Hout; discriminate Hout|].
    intros Hnone. exfalso.
    destruct (Hnone _ (or_introl eq_refl)) as [Hx _].
    exact (eq_true_false_abs _ Heqb0 Hx).
  - (* the poll returns something else: sleep and go on *)
    eapply wp_conseq.
    { apply IH; [exact (Hf Heqb)|]. cbn [now log_event].
      tlia. }
    cbv beta.
    intros r w' s' [Hd [Hs [Hmono [delta [Ht [Hall [Hsp [Hok [Hprop Hto]]]]]]]]].
    cbn [now log_event] in Hmono, Hsp.
    split; [assumption|]. split; [assumption|]. split; [tlia|].
    eexists. split;
      [rewrite Ht; cbn [trace log_event]; rewrite <- !app_assoc; reflexivity|].
    poll_events.
    split; [constructor; [tlia|assumption]|].
    split.
    { cbn [spaced]. split; [tlia|].
      eapply spaced_weaken; [|exact Hsp].
      tlia. }
    split.
    { rewrite Hok. split; intros [x [Hin Hc]]; exists x.
      - split; [now right|assumption].
      - destruct Hin as [<-|Hin]; [|now split].
        exfalso. exact (eq_true_false_abs _ Hc Heqb0). }
    split.
    { intros x y [<-|Hin] Hout Hna.
      - discriminate Hout.
      - eapply Hprop; eassumption. }
    intros Hnone. apply Hto. intros x Hin. apply Hnone. now right.
  - (* the ceiling has passed *)
    split; [discriminate|]. split; [reflexivity|].
    split; [tlia|].
    trace_ext. poll_events.
    split; [constructor|]. split; [exact I|].
    split; [split; [discriminate|intros [x [[] _]]]|].
    split; [intros x y []|].
    intros _. split; [reflexivity|]. tlia.
Qed.

Lemma wp_and {St A : Type} (m : M St A) (env : Env) (w : World) (s : St)
    (Q1 Q2 : result A -> World -> St -> Prop) :
  wp m env w s Q1 -> wp m env w s Q2 ->
  wp m env w s (fun r w' s' => Q1 r w' s' /\ Q2 r w' s').
Proof. unfold wp. tauto. Qed.

Lemma wait_loop_polling (env : Env) (self : AndroidDevice) (start : Z) :
  forall (fuel : nat) (w : World),
  wp (wait_for_boot_completion_loop fuel start boot_timeout) env w self
    (fun r w' s' =>
       r <> Diverge ->
       exists delta, trace w' = trace w ++ delta
         /\ polling self (start + boot_timeout) delta r).
Proof.
  induction fuel as [|fuel IH]; intros w;
    cbn [wait_for_boot_completion_loop].
  - unfold wp, diverge. cbn. intros H. now contradiction H.
  - wp_run. all: cbv beta iota.
    all: try match goal with H : (_ <? _)%Z = true |- _ => apply Z.ltb_lt in H end.
    all: try match goal with H : (_ <? _)%Z = false |- _ => apply Z.ltb_ge in H end.
    + destruct (is_AdbError e) eqn:Hadb.
      * wp_run. eapply wp_conseq; [apply IH|]. cbv beta.
        intros r w' s' Hrec Hnd. destruct (Hrec Hnd) as (delta & Ht & Hp).
        eexists. split;
          [rewrite Ht; cbn [trace log_event]; rewrite <- !app_assoc;
           reflexivity|].
        cbn [app]. eapply polling_again; try reflexivity; try eassumption.
        -- unfold is_poll. cbn [ev_call]. now rewrite !String.eqb_refl.
        -- cbn. now intros x [= <-].
      * intros _. trace_ext. cbn [app].
        eapply polling_failed; try reflexivity; try eassumption.
        unfold is_poll. cbn [ev_call]. now rewrite !String.eqb_refl.
    + intros _. trace_ext. cbn [app].
      eapply polling_completed; try reflexivity; try eassumption.
      unfold is_poll. cbn [ev_call]. now rewrite !String.eqb_refl.
    + eapply wp_conseq; [apply IH|]. cbv beta.
      intros r w' s' Hrec Hnd. destruct (Hrec Hnd) as (delta & Ht & Hp).
      eexists. split;
        [rewrite Ht; cbn [trace log_event]; rewrite <- !app_assoc;
         reflexivity|].
      cbn [app]. eapply polling_again; try reflexivity; try eassumption.
      -- unfold is_poll. cbn [ev_call]. now rewrite !String.eqb_refl.
      -- cbn. intros x [=].
    + intros _. trace_ext. cbn [app].
      eapply polling_timed_out; try reflexivity; assumption.
Qed.

(** C6.  [wait_for_boot_completion] first reads the clock and waits for
    the device ([adb wait-for-device]); an exception of that call ends the
    run.  Then it polls [sys.boot_completed]: every poll starts before
    the ceiling of 15 minutes, two polls are at least 5 seconds apart, so
    there are at most 180 of them.  A poll that raises [AdbError] is
    followed by the next one, any other exception of a poll propagates.
    The call returns exactly when a poll returned ["1"] (white space
    around it stripped); and when no poll did, and nothing else raised, it
    raises the time-out error that names the serial, the ceiling having
    passed.  The polls are not left out: the events after the wait are
    the rounds of the loop and nothing else, each round a reading of the
    clock and, when the reading is before the ceiling, a poll, followed by
    a sleep of 5 seconds unless the poll ended the run; only a reading at
    or after the ceiling gives the time-out error.  With fuel for 181
    iterations the model of the loop always ends. *)
Theorem wait_for_boot_completion_spec (env : Env) (w : World)
    (self : AndroidDevice) (fuel : nat) :
  (181 <= fuel)%nat ->
  let o := wait_for_boot_completion fuel env w self in
  let deadline := (now w + boot_timeout)%Z in
  res o <> Diverge /\ st o = self
  /\ exists ev_t ev_w delta,
       trace (world o) = trace w ++ ev_t :: ev_w :: delta
       /\ ev_call ev_t = time_time
       /\ ev_call ev_w = adb_wait_for_device (serial self)
       /\ (forall x, ev_out ev_w = Raised x -> delta = [] /\ res o = Raise x)
       /\ Forall (fun e => (ev_time e < deadline)%Z)
            (filter (is_poll self) delta)
       /\ spaced (now w) (map ev_time (filter (is_poll self) delta))
       /\ (List.length (filter (is_poll self) delta) <= 180)%nat
       /\ (res o = Ok tt <->
           exists e, In e (filter (is_poll self) delta)
                     /\ poll_completed e = true)
       /\ (forall e x, In e (filter (is_poll self) delta) ->
             ev_out e = Raised x -> is_AdbError x = false -> res o = Raise x)
       /\ (raised ev_w = false ->
           (forall e, In e (filter (is_poll self) delta) ->
              poll_completed e = false
              /\ forall x, ev_out e = Raised x -> is_AdbError x = true) ->
           res o = Raise (boot_timeout_error self)
           /\ (deadline <= now (world o))%Z)
       /\ (raised ev_w = false -> polling self deadline delta (res o)).
Proof.
  intros Hfuel o deadline. subst o deadline.
  change (wp (wait_for_boot_completion fuel) env w self (fun r w' s' =>
    r <> Diverge /\ s' = self
    /\ exists ev_t ev_w delta,
       trace w' = trace w ++ ev_t :: ev_w :: delta
       /\ ev_call ev_t = time_time
       /\ ev_call ev_w = adb_wait_for_device (serial self)
       /\ (forall x, ev_out ev_w = Raised x -> delta = [] /\ r = Raise x)
       /\ Forall (fun e => (ev_time e < now w + boot_timeout)%Z)
            (filter (is_poll self) delta)
       /\ spaced (now w) (map ev_time (filter (is_poll self) delta))
       /\ (List.length (filter (is_poll self) delta) <= 180)%nat
       /\ (r = Ok tt <->
           exists e, In e (filter (is_poll self) delta)
                     /\ poll_completed e = true)
       /\ (forall e x, In e (filter (is_poll self) delta) ->
             ev_out e = Raised x -> is_AdbError x = false -> r = Raise x)
       /\ (raised ev_w = false ->
           (forall e, In e (filter (is_poll self) delta) ->
              poll_completed e = false
              /\ forall x, ev_out e = Raised x -> is_AdbError x = true) ->
           r = Raise (boot_timeout_error self)
           /\ (now w + boot_timeout <= now w')%Z)
       /\ (raised ev_w = false ->
           polling self (now w + boot_timeout) delta r))).
  unfold wait_for_boot_completion. wp_run.
  - (* waiting for the device raises *)
    split; [discriminate|]. split; [reflexivity|].
    do 2 eexists. exists [].
    split; [cbn [trace log_event]; rewrite <- app_assoc; reflexivity|].
    split; [reflexivity|]. split; [reflexivity|].
    split; [cbn; intros x [= <-]; now split|].
    cbn [filter map List.length].
    split; [constructor|]. split; [exact I|]. split; [lia|].
    split; [split; [discriminate|intros [x [[] _]]]|].
    split; [intros x y []|].
    split; unfold raised; cbn; discriminate.
  - (* the device is there: the loop *)
    eapply wp_conseq.
    { apply wp_and;
        [apply (wait_loop_spec env self (now w) fuel); [lia|tlia]
        |apply (wait_loop_polling env self (now w) fuel)]. }
    cbv beta.
    intros r w' s'
      [[Hd [Hs [Hmono [delta [Ht [Hall [Hsp [Hok [Hprop Hto]]]]]]]]] Hpoll].
    split; [assumption|]. split; [assumption|].
    do 2 eexists. exists delta.
    split; [rewrite Ht; cbn [trace log_event]; rewrite <- !app_assoc;
            reflexivity|].
    split; [reflexivity|]. split; [reflexivity|].
    split; [cbn; discriminate|].
    split; [assumption|].
    split; [eapply spaced_weaken; [|exact Hsp]; tlia|].
    split.
    { assert (Hall' : Forall (fun t => (t < now w + boot_timeout)%Z)
                        (map ev_time (filter (is_poll self) delta))).
      { apply Forall_map. exact Hall. }
      destruct (spaced_count _ _ _ Hsp Hall') as [E|Hc].
      - apply (f_equal (@List.length Z)) in E. rewrite length_map in E.
        rewrite E. cbn. lia.
      - rewrite length_map in Hc. tlia. }
    split; [assumption|]. split; [assumption|].
    split; [intros _; assumption|].
    intros _. destruct (Hpoll Hd) as (delta' & Ht' & Hp).
    rewrite Ht in Ht'. apply app_inv_head in Ht'. subst delta'. exact Hp.
Qed.

(** ** Batch bring-up *)

Lemma store_update_length (r : ref) (d : AndroidDevice) (h : Store) :
  List.length (store_update r d h) = List.length h.
Proof.
  revert r. induction h as [|x h IH]; intros [|r]; cbn; auto.
Qed.

Lemma store_update_same (r : ref) (d : AndroidDevice) (h : Store) :
  r < List.length h -> nth_error (store_update r d h) r = Some d.
Proof.
  revert r. induction h as [|x h IH]; intros [|r] H; cbn in *; try lia; auto.
  apply IH. lia.
Qed.

Lemma store_update_other (r i : ref) (d : AndroidDevice) (h : Store) :
  i <> r -> nth_error (store_update r d h) i = nth_error h i.
Proof.
  revert r i. induction h as [|x h IH]; intros [|r] [|i] H; cbn; auto.
  - congruence.
Qed.

Lemma wp_at_ref {A : Type} (env : Env) (r : ref) (m : DevM A) (w : World)
    (h : Store) (d : AndroidDevice) (Q : result A -> World -> Store -> Prop) :
  nth_error h r = Some d ->
  wp m env w d (fun x w' d' => Q x w' (store_update r d' h)) ->
  wp (at_ref r m) env w h Q.
Proof. unfold wp, at_ref. now intros ->. Qed.

Lemma store_update_id (r : ref) (d : AndroidDevice) (h : Store) :
  nth_error h r = Some d -> store_update r d h = h.
Proof.
  revert r. induction h as [|x h IH]; intros [|r] H; cbn in *; try congruence.
  now rewrite IH.
Qed.

Lemma wp_deref (env : Env) (r : ref) (w : World) (h : Store)
    (d : AndroidDevice) (Q : result AndroidDevice -> World -> Store -> Prop) :
  nth_error h r = Some d -> Q (Ok d) w h -> wp (deref r) env w h Q.
Proof.
  intros H HQ. unfold deref. eapply wp_at_ref; [eassumption|].
  apply wp_get. now rewrite store_update_id.
Qed.

Lemma list_fastboot_devices_reads {St : Type} :
  reads_only (@list_fastboot_devices St).
Proof. intros env w s. unfold list_fastboot_devices. wp_run; now split. Qed.

Lemma is_bootloader_reads : reads_only is_bootloader.
Proof.
  intros env w s. unfold is_bootloader, list_fastboot_devices.
  wp_run; now split.
Qed.




Ltac wp_crunch :=
  repeat (wp_step; cbv beta iota;
          cbn [dict_mem dict_get dict_set dict_del dict_keys map fst snd
               serial h_port d_port log_path _droid_sessions
               _event_dispatchers adb_logcat_process adb_logcat_file_path
               attrs set_h_port set_droid_sessions set_event_dispatchers
               set_adb_logcat_process set_adb_logcat_file_path uid
               port_truthy negb] in *;
          rewrite ?Z.eqb_refl, ?String.eqb_refl in *).








Lemma pristine_one_session (d : AndroidDevice) : pristine d -> one_session d.
Proof. intros (Hs & He & _ & Hp). now left. Qed.








Lemma root_adb_reads : reads_only root_adb.
Proof. intros env w s. unfold root_adb, is_adb_root. wp_run; now split. Qed.






Lemma init_body_reads :
  reads_only (b <- is_bootloader ;; if negb b then root_adb else ret tt).
Proof.
  intros env w s. wp_step. wp_use is_bootloader_reads. intros r w' s' [-> Hd].
  destruct r as [b| |]; [|now split|contradiction].
  destruct b; cbn [negb]; [wp_step; now split|]. apply root_adb_reads.
Qed.


Lemma store_update_last (d d' : AndroidDevice) (h : Store) :
  store_update (List.length h) d' (h ++ [d]) = h ++ [d'].
Proof. induction h as [|x h IH]; cbn; [reflexivity|]. now rewrite IH. Qed.

Lemma nth_error_last (d : AndroidDevice) (h : Store) :
  nth_error (h ++ [d]) (List.length h) = Some d.
Proof. induction h as [|x h IH]; cbn; auto. Qed.





(** ** Batch bring-up: [create] *)





(** ** The properties on the example devices *)

(** The text of [adb devices] with three devices attached. *)
Lemma parse_device_list_well_formed_witness :
  _parse_device_list (join nl Examples.adb_devices_lines) "device"
  = ["A"; "B"; "C"].
Proof.
  assert (H : Forall well_formed_line Examples.adb_devices_lines)
    by (repeat constructor).
  exact (proj1 (parse_device_list_well_formed Examples.adb_devices_lines
                  "device" H)).
Defined.

(** The session 7 is open and the server hands out 7 again. *)
Lemma start_new_session_registry_witness :
  res (start_new_session Examples.env_uid7 World0 Examples.device_A7)
  = Raise (SL4AException
             "SL4A returned an existing uid for a new session. Abort.")
  /\ st (start_new_session Examples.env_uid7 World0 Examples.device_A7)
     = Examples.device_A7.
Proof.
  exact (proj1 (start_new_session_registry Examples.env_uid7 World0
                  Examples.device_A7 eq_refl) eq_refl).
Defined.

(** Two calls of [get_dispatcher] on the session 7. *)
Lemma get_dispatcher_idempotent_witness :
  let ed1 := {| ed_id := 1; ed_droid := {| droid_id := 0; uid := 7 |} |} in
  let o1 := get_dispatcher Examples.droid7 Examples.env_sessions World0
              Examples.device_A7 in
  let o2 := get_dispatcher Examples.droid7 Examples.env_sessions (world o1)
              (st o1) in
  res o1 = Ok ed1 /\ res o2 = Ok ed1 /\ st o2 = st o1.
Proof.
  cbv zeta.
  assert (E : res (get_dispatcher Examples.droid7 Examples.env_sessions World0
                     Examples.device_A7)
              = Ok {| ed_id := 1; ed_droid := {| droid_id := 0; uid := 7 |} |})
    by (vm_compute; reflexivity).
  split; [exact E|].
  destruct (get_dispatcher_idempotent Examples.env_sessions World0
              Examples.device_A7 Examples.droid7 _ E) as (H1 & H2 & _).
  split; [exact H1|exact H2].
Defined.

(** The server is down until it is started: one bootstrap, two attempts. *)
Lemma get_droid_retries_once_witness :
  let o := get_droid true Examples.env_sl4a_down World0 Examples.device_A in
  count_calls is_bootstrap (new_events World0 (world o)) = 1
  /\ count_calls is_session_open (new_events World0 (world o)) = 2.
Proof.
  cbv zeta.
  destruct (get_droid_retries_once Examples.env_sl4a_down World0
              Examples.device_A true eq_refl) as (_ & _ & H).
  destruct (H (OtherError "connection refused") eq_refl) as (Hb & _ & H2).
  destruct (H2 eq_refl) as (Hs & _).
  split; [exact Hb|exact Hs].
Defined.


(** A device that is still booting: the first poll fails with [AdbError],
    the second gives ["0"], the third the completion indicator.  The call
    returns after these three polls. *)
Lemma wait_for_boot_completion_spec_witness :
  let o := wait_for_boot_completion 181 Examples.env_booting World0
             Examples.device_A in
  res o = Ok tt
  /\ List.length (filter (is_poll Examples.device_A) (trace (world o))) = 3
  /\ polling Examples.device_A (now World0 + boot_timeout)
       (skipn 2 (trace (world o))) (res o).
Proof.
  cbv zeta.
  destruct (wait_for_boot_completion_spec Examples.env_booting World0
              Examples.device_A 181 (le_n 181))
    as (_ & _ & ev_t & ev_w & delta & Ht & _ & _ & _ & _ & _ & _ & _ & _ & _
        & Hpoll).
  split; [vm_compute; reflexivity|].
  split; [vm_compute; reflexivity|].
  rewrite Ht. cbn [trace World0 app skipn]. apply Hpoll.
  set (t := trace (world (wait_for_boot_completion 181 Examples.env_booting
                            World0 Examples.device_A))) in Ht.
  vm_compute in t. subst t. cbn [trace World0 app] in Ht.
  injection Ht as _ <- _. reflexivity.
Defined.


Lemma registry_wf_A7 : registry_wf Examples.device_A7.
Proof.
  split.
  - cbn. repeat constructor; cbn; intuition discriminate.
  - repeat constructor; eexists; split; reflexivity.
Qed.



(** A session and what opens an auxiliary connection on it. *)
Lemma session_list_holds_primary_only_witness :
  st (add_new_connection_to_session 7 Examples.env_ok World0
        Examples.device_A7)
  = Examples.device_A7
  /\ _droid_sessions (st (get_dispatcher Examples.droid7 Examples.env_ok
                            World0 Examples.device_A7))
     = _droid_sessions Examples.device_A7.
Proof.
  destruct (session_list_holds_primary_only Examples.env_ok World0
              Examples.device_A7 registry_wf_A7) as (_ & H1 & H2 & _).
  split; [exact (H1 7%Z)|exact (H2 Examples.droid7)].
Defined.

(** C9, as stated, fails.  After [get_droid()] the session 9 has a
    dispatcher on an auxiliary connection, and the connection list of the
    session holds the primary connection alone; [terminate_session]
    closes the primary connection and no other. *)
Lemma auxiliary_connection_not_in_session_list :
  let o1 := get_droid true Examples.env_sessions World0 Examples.device_A in
  let o2 := terminate_session 9 Examples.env_sessions (world o1) (st o1) in
  res o1 = Ok (Examples.droid9, Some Examples.ed9)
  /\ new_calls World0 (world o1)
     = [get_available_host_port; adb_tcp_forward "A" (Some 8000%Z) 8080%Z;
        Android_new "initiate" (-1) (Some 8000%Z);
        Android_new "continue" 9 (Some 8000%Z);
        EventDispatcher_new (ed_droid Examples.ed9)]
  /\ _droid_sessions (st o1) = [(9%Z, [Examples.droid9])]
  /\ ed_droid Examples.ed9 <> Examples.droid9
  /\ res o2 = Ok tt
  /\ new_calls (world o1) (world o2)
     = [closeSl4aSession Examples.droid9; Android_close Examples.droid9;
        EventDispatcher_clean_up Examples.ed9].
Proof. vm_compute. repeat split. discriminate. Qed.

(** ** The accessors [droid] and [ed] *)

Lemma insert_sorted_head (x : Z) (l s : list Z) :
  match s with
  | [] => l = []
  | m :: _ => In m l /\ forall y, In y l -> (m <= y)%Z
  end ->
  match insert_sorted Z.leb x s with
  | [] => False
  | m :: _ => In m (x :: l) /\ forall y, In y (x :: l) -> (m <= y)%Z
  end.
Proof.
  destruct s as [|m t]; cbn.
  - intros ->. split; [now left|]. intros y [<-|[]]. lia.
  - intros [Hin Hmin]. destruct (Z.leb_spec x m).
    + split; [now left|]. intros y [<-|Hy]; [lia|].
      specialize (Hmin y Hy). lia.
    + split; [now right|]. intros y [<-|Hy]; [lia|auto].
Qed.

Lemma sorted_head (l : list Z) :
  match sorted Z.leb l with
  | [] => l = []
  | m :: _ => In m l /\ forall y, In y l -> (m <= y)%Z
  end.
Proof.
  induction l as [|x l IH]; [reflexivity|].
  cbn [sorted fold_right]. fold (sorted Z.leb l).
  pose proof (insert_sorted_head x l (sorted Z.leb l) IH) as H.
  destruct (insert_sorted Z.leb x (sorted Z.leb l)); [contradiction|exact H].
Qed.

(** [droid] is the primary connection of the session with the lowest
    id. *)
Lemma droid_lowest_session (self : AndroidDevice) :
  primary_only (_droid_sessions self) -> _droid_sessions self <> [] ->
  exists d,
    droid self = Some d
    /\ dict_get Z.eqb (uid d) (_droid_sessions self) = Some [d]
    /\ forall sid, In sid (dict_keys (_droid_sessions self)) ->
         (uid d <= sid)%Z.
Proof.
  intros Hpo Hne. unfold droid.
  pose proof (sorted_head (dict_keys (_droid_sessions self))) as H.
  destruct (sorted Z.leb (dict_keys (_droid_sessions self))) as [|m t].
  - destruct (_droid_sessions self); [contradiction|discriminate].
  - destruct H as [Hin Hmin].
    destruct (dict_get Z.eqb m (_droid_sessions self)) as [l|] eqn:E.
    2:{ apply (dict_get_None Z.eqb Z_eqb_spec) in E. contradiction. }
    pose proof (dict_get_In Z.eqb Z_eqb_spec _ _ _ E) as Hl.
    unfold primary_only in Hpo. rewrite Forall_forall in Hpo.
    destruct (Hpo _ Hl) as [d [Hd Hu]]. cbn in Hd, Hu. subst l m.
    exists d. split; [reflexivity|]. split; [exact E|exact Hmin].
Qed.

(** C4, in the code.  Two calls of [get_droid()] open the sessions 9 and
    10, each with its dispatcher.  [droid] is the primary connection of
    the session 9, the lowest id; [ed] is the dispatcher of the session
    10, because the keys of the dispatchers are the strings [A9] and
    [A10], which sort the other way round; and [eds] does not match
    [droids] index by index. *)
Theorem ed_is_not_of_lowest_session :
  let o1 := get_droid true Examples.env_sessions World0 Examples.device_A in
  let o2 := get_droid true Examples.env_sessions (world o1) (st o1) in
  let self := Examples.device_A9_10 in
  st o2 = self
  /\ dict_keys (_droid_sessions self) = [9%Z; 10%Z]
  /\ droid self = Some Examples.droid9
  /\ dict_get String.eqb (ed_key_of self 9) (_event_dispatchers self)
     = Some (Some Examples.ed9)
  /\ ed self = Some Examples.ed10
  /\ droids self = Some [Examples.droid9; Examples.droid10]
  /\ eds self = [Some Examples.ed10; Some Examples.ed9].
Proof. vm_compute. repeat split. Qed.

(** * Part III: more properties of the module *)

From Stdlib Require Import Sorted Permutation.

(** ** Terminating a session *)

Lemma dict_del_absent {K V : Type} (eqb : K -> K -> bool) (k : K)
    (d : list (K * V)) :
  dict_get eqb k d = None -> dict_del eqb k d = d.
Proof.
  induction d as [|[k' v'] d IH]; cbn; [reflexivity|].
  destruct (eqb k' k); [discriminate|]. intros H. now rewrite IH.
Qed.

Lemma close_droids_wp (env : Env) (l : list Android) (w : World)
    (self : AndroidDevice) :
  wp (close_droids l) env w self (fun r w' s' => s' = self).
Proof. unfold wp. apply close_droids_state. Qed.

(** A session that is not registered and has no dispatcher: nothing
    happens. *)
Lemma terminate_session_absent (env : Env) (w : World) (self : AndroidDevice)
    (sid : Z) :
  dict_get Z.eqb sid (_droid_sessions self) = None ->
  dict_get String.eqb (ed_key_of self sid) (_event_dispatchers self) = None ->
  terminate_session sid env w self = {| res := Ok tt; world := w; st := self |}.
Proof.
  intros Hs He. unfold terminate_session, terminate_session_droids,
    terminate_session_dispatcher. unfold ed_key_of in He. msimpl.
  rewrite Hs. destruct (_droid_sessions self); cbn; rewrite He; reflexivity.
Qed.

Lemma terminate_session_ok (env : Env) (w : World) (self : AndroidDevice)
    (sid : Z) :
  wp (terminate_session sid) env w self (fun r w' s' =>
    r = Ok tt ->
    _droid_sessions s' = dict_del Z.eqb sid (_droid_sessions self)
    /\ _event_dispatchers s'
       = dict_del String.eqb (ed_key_of self sid) (_event_dispatchers self)
    /\ same_device_but_registries s' self).
Proof.
  assert (Hdisp : forall w1 s1,
            same_device_but_registries s1 self ->
            _event_dispatchers s1 = _event_dispatchers self ->
            _droid_sessions s1 = dict_del Z.eqb sid (_droid_sessions self) ->
            wp (terminate_session_dispatcher sid) env w1 s1 (fun r w' s' =>
              r = Ok tt ->
              _droid_sessions s' = dict_del Z.eqb sid (_droid_sessions self)
              /\ _event_dispatchers s'
                 = dict_del String.eqb (ed_key_of self sid)
                     (_event_dispatchers self)
              /\ same_device_but_registries s' self)).
  { intros w1 s1 Hsame He Hs. unfold terminate_session_dispatcher, ed_key_of.
    destruct Hsame as (Hser & Hrest). rewrite <- Hser.
    wp_step. wp_step. cbv beta zeta. rewrite He.
    destruct (dict_get String.eqb (serial s1 +++ str_of_Z sid)
                (_event_dispatchers self)) as [[e|]|] eqn:E.
    - wp_step. wp_step; [intros [=]|]. wp_step. intros _. cbn.
      rewrite He. split; [assumption|]. split; [reflexivity|].
      split; [assumption|exact Hrest].
    - wp_step. wp_step. intros [=].
    - wp_step. intros _. split; [assumption|]. rewrite He.
      split; [now rewrite dict_del_absent|]. split; assumption. }
  unfold terminate_session. wp_step. unfold terminate_session_droids.
  wp_step. wp_step. cbv beta.
  case_eq (_droid_sessions self); [intros Es|intros kv rest Es];
    cbv beta iota; rewrite <- ?Es.
  - wp_step. apply Hdisp; [apply same_device_refl|reflexivity|].
    now rewrite Es.
  - destruct (dict_get Z.eqb sid (_droid_sessions self)) as [l|] eqn:El.
    + wp_step. wp_use (close_droids_wp env l w self). intros r w1 s1 ->.
      destruct r as [[]|e|]; [|intros [=]|intros [=]].
      wp_step. cbv beta iota.
      apply Hdisp; [now repeat split|reflexivity|reflexivity].
    + wp_step. apply Hdisp; [apply same_device_refl|reflexivity|].
      now rewrite dict_del_absent.
Qed.

(** X1.  When [terminate_session] returns, the session and its dispatcher
    have left the registries, every other entry is as it was, and a
    second call for the same id does nothing: it makes no call, raises
    nothing and leaves the device as it is.  In particular the call for an
    id that was never registered is harmless. *)
Theorem terminate_session_twice (env : Env) (w : World)
    (self : AndroidDevice) (sid : Z) :
  NoDup (dict_keys (_droid_sessions self)) ->
  NoDup (dict_keys (_event_dispatchers self)) ->
  let o1 := terminate_session sid env w self in
  res o1 = Ok tt ->
  dict_mem Z.eqb sid (_droid_sessions (st o1)) = false
  /\ dict_mem String.eqb (ed_key_of self sid) (_event_dispatchers (st o1))
     = false
  /\ (forall k, k <> sid ->
        dict_get Z.eqb k (_droid_sessions (st o1))
        = dict_get Z.eqb k (_droid_sessions self))
  /\ (forall k, k <> ed_key_of self sid ->
        dict_get String.eqb k (_event_dispatchers (st o1))
        = dict_get String.eqb k (_event_dispatchers self))
  /\ terminate_session sid env (world o1) (st o1)
     = {| res := Ok tt; world := world o1; st := st o1 |}.
Proof.
  intros Hnd Hnde o1 Hok.
  destruct (terminate_session_ok env w self sid Hok) as (Hs & He & Hsame).
  fold o1 in Hs, He, Hsame.
  assert (H1 : dict_get Z.eqb sid (_droid_sessions (st o1)) = None).
  { rewrite Hs. now apply (dict_get_del_same Z.eqb Z_eqb_spec). }
  assert (H2 : dict_get String.eqb (ed_key_of self sid)
                 (_event_dispatchers (st o1)) = None).
  { rewrite He. now apply (dict_get_del_same String.eqb String_eqb_spec). }
  split; [unfold dict_mem; now rewrite H1|].
  split; [unfold dict_mem; now rewrite H2|].
  split.
  { intros k Hk. rewrite Hs.
    apply (dict_get_del_other Z.eqb Z_eqb_spec). congruence. }
  split.
  { intros k Hk. rewrite He.
    apply (dict_get_del_other String.eqb String_eqb_spec). congruence. }
  apply terminate_session_absent; [exact H1|].
  destruct Hsame as (Hser & _). unfold ed_key_of in *. now rewrite Hser.
Qed.

(** ** Opening a session: [get_droid] *)

Lemma start_new_session_wp (env : Env) (w : World) (self : AndroidDevice) :
  wp start_new_session env w self (fun r w' s' =>
    r <> Diverge
    /\ same_device_but_registries s' self
    /\ _event_dispatchers s' = _event_dispatchers self
    /\ (forall e, r = Raise e -> s' = self)
    /\ (forall d, r = Ok d ->
          dict_mem Z.eqb (uid d) (_droid_sessions self) = false
          /\ _droid_sessions s' = _droid_sessions self ++ [(uid d, [d])])).
Proof.
  unfold wp.
  destruct (start_new_session_spec env w self)
    as (Hnd & Hsame & He & _ & [[[e Hr] Hst] | [d (Hr & Hm & Hs)]]).
  - split; [assumption|]. split; [assumption|]. split; [assumption|].
    split; [intros; assumption|]. intros d E. congruence.
  - split; [assumption|]. split; [assumption|]. split; [assumption|].
    split; [intros e E; congruence|]. intros d' E.
    rewrite Hr in E. injection E as <-. now split.
Qed.

Lemma get_droid_session_wp (env : Env) (w : World) (self : AndroidDevice) :
  wp get_droid_session env w self (fun r w' s' =>
    r <> Diverge
    /\ same_device_but_registries s' self
    /\ _event_dispatchers s' = _event_dispatchers self
    /\ (forall e, r = Raise e -> s' = self)
    /\ (forall d, r = Ok d ->
          dict_mem Z.eqb (uid d) (_droid_sessions self) = false
          /\ _droid_sessions s' = _droid_sessions self ++ [(uid d, [d])])).
Proof.
  unfold get_droid_session. wp_step.
  wp_use (start_new_session_wp env w self).
  intros r w1 s1 (Hnd & Hsame & He & Hraise & Hok).
  destruct r as [d|e|]; [| |contradiction].
  - repeat (split; [assumption|]). assumption.
  - rewrite (Hraise e eq_refl). wp_step. wp_step. cbv beta. wp_step.
    wp_step.
    + split; [discriminate|]. split; [apply same_device_refl|].
      split; [reflexivity|]. split; [reflexivity|]. intros d [=].
    + apply start_new_session_wp.
Qed.

Lemma get_dispatcher_wp (env : Env) (w : World) (self : AndroidDevice)
    (s : Android) :
  wp (get_dispatcher s) env w self (fun r w' s' =>
    r <> Diverge
    /\ same_device_but_registries s' self
    /\ _droid_sessions s' = _droid_sessions self
    /\ (forall x, r = Raise x -> s' = self)
    /\ (forall e, r = Ok e ->
          dict_get String.eqb (ed_key_of self (uid s)) (_event_dispatchers s')
          = Some (Some e))).
Proof.
  unfold get_dispatcher, ed_key_of, add_new_connection_to_session,
    new_EventDispatcher.
  wp_step. wp_step. cbv beta zeta. unfold dict_mem.
  destruct (dict_get String.eqb (serial self +++ str_of_Z (uid s))
              (_event_dispatchers self)) as [[e|]|] eqn:E; cbv beta iota.
  - wp_run. split; [discriminate|]. split; [apply same_device_refl|].
    split; [reflexivity|]. split; [reflexivity|]. intros e' [= <-]. exact E.
  - wp_run. split; [discriminate|]. split; [apply same_device_refl|].
    split; [reflexivity|]. split; [reflexivity|]. intros e' [=].
  - wp_run.
    all: split; [discriminate|]; (split; [now repeat split|]);
         (split; [reflexivity|]);
         (split; [try (intros ? [=]; fail); intros; reflexivity|]).
    all: try (intros ? [=]; fail).
    intros e' [= <-]. cbn.
    apply (dict_get_set_same String.eqb String_eqb_spec).
Qed.

Lemma get_droid_forward_state (env : Env) (w : World) (self : AndroidDevice) :
  wp get_droid_forward env w self (fun r w' s' =>
    r <> Diverge /\ same_device_but_port s' self
    /\ (r = Ok tt -> exists p, h_port s' = Some p)).
Proof.
  wp_use (get_droid_forward_spec env w self).
  intros r w' s' (Hnd & Hsame & delta & _ & _ & Hok).
  split; [assumption|]. split; [assumption|]. intros E.
  destruct (Hok E) as (p & cs & Hp & _). now exists p.
Qed.

(** X2.  When [get_droid] returns, the connection it returns is the one
    connection of a session that was not registered before, the sessions
    registered before are still there, and a host port is set.  With
    [handle_event] the dispatcher returned is the one cached for the
    session; without it no dispatcher is returned and the dispatchers are
    as they were.  Serial, device port, paths, log collector and
    attributes do not change. *)
Theorem get_droid_registers_session (env : Env) (w : World)
    (self : AndroidDevice) (handle_event : bool) (d : Android)
    (oe : option EventDispatcher) :
  let o := get_droid handle_event env w self in
  res o = Ok (d, oe) ->
  dict_mem Z.eqb (uid d) (_droid_sessions self) = false
  /\ _droid_sessions (st o) = _droid_sessions self ++ [(uid d, [d])]
  /\ (exists p, h_port (st o) = Some p)
  /\ (if handle_event
      then exists e, oe = Some e
             /\ dict_get String.eqb (ed_key_of self (uid d))
                  (_event_dispatchers (st o)) = Some (Some e)
      else oe = None /\ _event_dispatchers (st o) = _event_dispatchers self)
  /\ same_identity (st o) self.
Proof.
  cbv zeta.
  change (wp (get_droid handle_event) env w self (fun r w' s' =>
    r = Ok (d, oe) ->
    dict_mem Z.eqb (uid d) (_droid_sessions self) = false
    /\ _droid_sessions s' = _droid_sessions self ++ [(uid d, [d])]
    /\ (exists p, h_port s' = Some p)
    /\ (if handle_event
        then exists e, oe = Some e
               /\ dict_get String.eqb (ed_key_of self (uid d))
                    (_event_dispatchers s') = Some (Some e)
        else oe = None /\ _event_dispatchers s' = _event_dispatchers self)
    /\ same_identity s' self)).
  unfold get_droid. wp_step.
  wp_use (get_droid_forward_state env w self).
  intros r w1 s1 (Hnd & Hsame & Hport).
  destruct r as [[]|e|]; [|intros [=]|intros [=]].
  destruct (Hport eq_refl) as [p Hp].
  destruct Hsame as (Hser & Hdp & Hlp & Hss & Hes & Hproc & Hpath & Hat).
  wp_step. wp_use (get_droid_session_wp env w1 s1).
  intros r w2 s2 (Hnd2 & Hsame2 & He2 & _ & Hok2).
  destruct r as [d2|e|]; [|intros [=]|intros [=]].
  destruct (Hok2 d2 eq_refl) as [Hm Hs2].
  destruct Hsame2 as (Hser2 & Hp2 & Hdp2 & Hlp2 & Hproc2 & Hpath2 & Hat2).
  destruct handle_event.
  - wp_step. wp_use (get_dispatcher_wp env w2 s2 d2).
    intros r w3 s3 (Hnd3 & Hsame3 & Hs3 & _ & Hok3).
    destruct r as [e|x|]; [|intros [=]|intros [=]].
    wp_step. intros [= <- <-].
    destruct Hsame3 as (Hser3 & Hp3 & Hdp3 & Hlp3 & Hproc3 & Hpath3 & Hat3).
    split; [congruence|]. split; [congruence|].
    split; [exists p; congruence|]. split.
    + exists e. split; [reflexivity|]. specialize (Hok3 e eq_refl).
      unfold ed_key_of in *. rewrite <- Hser, <- Hser2. exact Hok3.
    + repeat split; congruence.
  - wp_step. intros [= <- <-].
    split; [congruence|]. split; [congruence|].
    split; [exists p; congruence|]. split.
    + split; [reflexivity|congruence].
    + repeat split; congruence.
Qed.

(** What follows the port phase of [get_droid] leaves the host port alone
    and only adds to the trace. *)
Lemma get_droid_rest_port (env : Env) (w : World) (self : AndroidDevice)
    (handle_event : bool) :
  wp (droid <- get_droid_session ;;
      if handle_event then
        ed <- get_dispatcher droid ;;
        ret (droid, Some ed)
      else ret (droid, None)) env w self (fun r w' s' =>
    h_port s' = h_port self /\ exists delta, trace w' = trace w ++ delta).
Proof.
  unfold get_droid_session, start_new_session, get_dispatcher,
    add_new_connection_to_session, new_EventDispatcher.
  wp_run.
  all: split; [reflexivity|]; cbn [trace log_event];
       rewrite <- ?app_assoc; eexists; reflexivity.
Qed.

Lemma get_droid_after_forward (env : Env) (w : World) (self : AndroidDevice)
    (handle_event : bool) (hp : option Z) (cs : list call) :
  wp get_droid_forward env w self (fun r w' s' =>
    h_port s' = hp
    /\ exists evs, trace w' = trace w ++ evs /\ map ev_call evs = cs) ->
  let o := get_droid handle_event env w self in
  h_port (st o) = hp /\ exists rest, new_calls w (world o) = cs ++ rest.
Proof.
  intros H. cbv zeta.
  change (wp (get_droid handle_event) env w self (fun r w' s' =>
    h_port s' = hp /\ exists rest, new_calls w w' = cs ++ rest)).
  unfold get_droid. wp_step. eapply wp_conseq; [exact H|]. cbv beta.
  intros r w1 s1 (Hp & evs & Ht & Hcs).
  assert (Hdone : h_port s1 = hp
                  /\ exists rest, new_calls w w1 = cs ++ rest).
  { split; [assumption|]. exists []. unfold new_calls.
    rewrite (new_events_app w w1 evs Ht), app_nil_r. exact Hcs. }
  destruct r as [[]|e|]; [|exact Hdone|exact Hdone].
  wp_use (get_droid_rest_port env w1 s1 handle_event).
  intros r w2 s2 (Hp2 & delta & Ht2). split; [congruence|].
  exists (map ev_call delta). unfold new_calls.
  rewrite (new_events_app w w2 (evs ++ delta)).
  - now rewrite map_app, Hcs.
  - now rewrite Ht2, Ht, app_assoc.
Qed.

Lemma length_log_event (c : call) (o : outcome) (dt : Z) (w : World) :
  List.length (trace (log_event c o dt w)) = S (List.length (trace w)).
Proof. cbn. rewrite length_app. cbn. apply Nat.add_1_r. Qed.

(** X3.  The host port of [get_droid].  A port that is set and still
    available is kept and forwarded again, no port is allocated; a port
    that is no longer available is replaced by a newly allocated one; and
    with no port set ([None] or 0) a port is allocated without asking
    whether anything is available.  In each case the port forwarded to
    the device port is the one [h_port] holds afterwards, whatever
    happens to the session. *)
Theorem get_droid_host_port (env : Env) (w : World) (self : AndroidDevice)
    (handle_event : bool) :
  let o := get_droid handle_event env w self in
  let n := List.length (trace w) in
  let forward p := adb_tcp_forward (serial self) (Some p) (d_port self) in
  (forall p, h_port self = Some p -> p <> 0%Z ->
     raises env n (is_port_available p) = None ->
     (ret_bool env n (is_port_available p) = true ->
      h_port (st o) = Some p
      /\ exists rest,
           new_calls w (world o) = [is_port_available p; forward p] ++ rest)
     /\ (ret_bool env n (is_port_available p) = false ->
         raises env (S n) get_available_host_port = None ->
         let q := ret_int env (S n) get_available_host_port in
         h_port (st o) = Some q
         /\ exists rest,
              new_calls w (world o)
              = [is_port_available p; get_available_host_port; forward q]
                ++ rest))
  /\ (port_truthy (h_port self) = false ->
      raises env n get_available_host_port = None ->
      let q := ret_int env n get_available_host_port in
      h_port (st o) = Some q
      /\ exists rest,
           new_calls w (world o) = [get_available_host_port; forward q] ++ rest).
Proof.
  cbv zeta.
  destruct self as [ser hp dp lp ss es proc path at_].
  cbn [h_port serial d_port]. split.
  - intros p -> Hp0 Hr. apply Z.eqb_neq in Hp0. split.
    + intros Hb. apply get_droid_after_forward.
      unfold get_droid_forward. wp_crunch.
      all: rewrite ?length_log_event in *.
      all: try congruence.
      all: try (rewrite Hp0 in *; discriminate).
      all: try (rewrite Hb in *; discriminate).
      all: split; [reflexivity|]; eexists; cbn [trace log_event];
           rewrite <- ?app_assoc; split; reflexivity.
    + intros Hb Hr2. apply get_droid_after_forward.
      unfold get_droid_forward. wp_crunch.
      all: rewrite ?length_log_event in *.
      all: try congruence.
      all: try (rewrite Hp0 in *; discriminate).
      all: try (rewrite Hb in *; discriminate).
      all: split; [reflexivity|]; eexists; cbn [trace log_event];
           rewrite <- ?app_assoc; split; reflexivity.
  - intros Hp Hr. apply get_droid_after_forward.
    unfold get_droid_forward. destruct hp as [p|]; wp_crunch.
    all: rewrite ?length_log_event in *.
    all: try congruence.
    all: try (cbn in Hp; congruence).
    all: split; [reflexivity|]; eexists; cbn [trace log_event];
         rewrite <- ?app_assoc; split; reflexivity.
Qed.

(** ** The accessors [droids] and [droid] *)

Lemma insert_sorted_perm {K : Type} (leb : K -> K -> bool) (x : K)
    (l : list K) :
  Permutation (insert_sorted leb x l) (x :: l).
Proof.
  induction l as [|y l IH]; cbn; [reflexivity|].
  destruct (leb x y); [reflexivity|].
  rewrite IH. apply perm_swap.
Qed.

Lemma sorted_perm {K : Type} (leb : K -> K -> bool) (l : list K) :
  Permutation (sorted leb l) l.
Proof.
  induction l as [|x l IH]; cbn; [reflexivity|].
  fold (sorted leb l). rewrite insert_sorted_perm. now constructor.
Qed.

Lemma insert_sorted_Sorted (x : Z) (l : list Z) :
  Sorted Z.le l -> Sorted Z.le (insert_sorted Z.leb x l).
Proof.
  induction l as [|y l IH]; cbn; intros Hs.
  - repeat constructor.
  - destruct (Z.leb_spec x y).
    + constructor; [assumption|]. now constructor.
    + inversion Hs as [|? ? Hs' Hhd]; subst.
      constructor; [now apply IH|].
      destruct l as [|z l]; cbn.
      * constructor. lia.
      * destruct (Z.leb_spec x z); constructor; try lia.
        now inversion Hhd.
Qed.

Lemma sorted_Sorted (l : list Z) : Sorted Z.le (sorted Z.leb l).
Proof.
  induction l as [|x l IH]; cbn; [constructor|].
  now apply insert_sorted_Sorted.
Qed.

Lemma primary_only_lookup (sessions : list (Z * list Android)) (k : Z) :
  primary_only sessions -> In k (dict_keys sessions) ->
  exists d, dict_get Z.eqb k sessions = Some [d] /\ uid d = k.
Proof.
  intros Hpo Hin.
  destruct (dict_get Z.eqb k sessions) as [l|] eqn:E.
  - pose proof (dict_get_In Z.eqb Z_eqb_spec _ _ _ E) as Hl.
    unfold primary_only in Hpo. rewrite Forall_forall in Hpo.
    destruct (Hpo _ Hl) as [d [Hd Hu]]. cbn in Hd, Hu. subst l.
    now exists d.
  - apply (dict_get_None Z.eqb Z_eqb_spec) in E. contradiction.
Qed.

Lemma droids_loop_spec (sessions : list (Z * list Android)) (ks : list Z) :
  (forall k, In k ks ->
     exists d, dict_get Z.eqb k sessions = Some [d] /\ uid d = k) ->
  exists l, droids_loop sessions ks = Some l
    /\ map uid l = ks
    /\ forall d, In d l -> dict_get Z.eqb (uid d) sessions = Some [d].
Proof.
  induction ks as [|k ks IH]; intros H; cbn.
  - exists []. split; [reflexivity|]. split; [reflexivity|]. intros d [].
  - destruct (H k (or_introl eq_refl)) as [d [Hd Hu]]. rewrite Hd.
    destruct IH as [l (Hl & Hm & Hall)]; [intros; apply H; now right|].
    rewrite Hl. cbn. exists (d :: l). split; [reflexivity|].
    split; [cbn; congruence|].
    intros d' [<-|Hd']; [congruence|auto].
Qed.

(** X4.  On a registry whose sessions hold their primary connection,
    [droids] never raises: it lists one connection per session, the
    primary one, in ascending order of the session ids, whatever the
    order in which the sessions were opened; and [droid] is the first
    element of that list, [None] when the list is empty. *)
Theorem droids_in_session_id_order (self : AndroidDevice) :
  primary_only (_droid_sessions self) ->
  exists l,
    droids self = Some l
    /\ Sorted Z.le (map uid l)
    /\ Permutation (map uid l) (dict_keys (_droid_sessions self))
    /\ (forall d, In d l ->
          dict_get Z.eqb (uid d) (_droid_sessions self) = Some [d])
    /\ droid self = hd_error l.
Proof.
  intros Hpo. unfold droids, droid.
  destruct (droids_loop_spec (_droid_sessions self)
              (sorted Z.leb (dict_keys (_droid_sessions self))))
    as [l (Hl & Hm & Hall)].
  { intros k Hk. apply primary_only_lookup; [assumption|].
    eapply Permutation_in; [apply sorted_perm|exact Hk]. }
  exists l. split; [exact Hl|]. rewrite Hm.
  split; [apply sorted_Sorted|]. split; [apply sorted_perm|].
  split; [exact Hall|].
  destruct l as [|d l]; cbn in Hm; rewrite <- Hm; [reflexivity|].
  now rewrite (Hall d (or_introl eq_refl)).
Qed.

(** ** The log collector *)

Lemma model_trace (env : Env) (w : World) (self : AndroidDevice) :
  wp model env w self (fun r w' s' =>
    s' = self /\ r <> Diverge /\ exists delta, trace w' = trace w ++ delta).
Proof.
  unfold model, is_bootloader, list_fastboot_devices. wp_run.
  all: split; [reflexivity|]; split; [discriminate|]; cbn [trace log_event];
       rewrite <- ?app_assoc; eexists; reflexivity.
Qed.

(** The parameters of [adb logcat]: the attribute [adb_logcat_param] when
    the configuration gave one, [-b all] otherwise. *)
Lemma start_adb_logcat_ok (env : Env) (w : World) (self : AndroidDevice) :
  wp start_adb_logcat env w self (fun r w' s' =>
    r = Ok tt ->
    adb_logcat_process self = None
    /\ exists (m : option string) (p : Process) (cs : list call),
         let f_name :=
           "adblog," +++ match m with Some s => s | None => "None" end
           +++ "," +++ serial self +++ ".txt" in
         let path := os_path_join (log_path self) f_name in
         let params :=
           match dict_get String.eqb "adb_logcat_param" (attrs self) with
           | Some v => py_str v
           | None => "-b all"
           end in
         s' = set_adb_logcat_file_path (Some path)
                (set_adb_logcat_process (Some p) self)
         /\ new_calls w w'
            = adb_shell (serial self) "logpersist.start" :: cs
              ++ [create_dir (log_path self);
                  start_standing_subprocess
                    ("adb -s " +++ serial self +++ " logcat -v threadtime "
                     +++ params +++ " >> " +++ path)]).
Proof.
  unfold start_adb_logcat. wp_step. wp_step. cbv beta.
  unfold is_adb_logcat_on.
  destruct (adb_logcat_process self) as [p0|] eqn:Ep; [wp_step; intros [=]|].
  wp_step. wp_step; [intros [=]|]. wp_step.
  eapply wp_conseq; [apply model_trace|]. cbv beta.
  intros r w1 s1 (-> & Hnd & delta & Ht).
  destruct r as [m| |]; [|intros [=]|contradiction].
  unfold new_Process. wp_run; try (intros [=]; fail).
  intros _. split; [reflexivity|].
  eexists m, _, (map ev_call delta). cbv zeta. split; [reflexivity|].
  unfold new_calls. erewrite new_events_app.
  2:{ cbn [trace log_event]. rewrite Ht. cbn [trace log_event].
      rewrite <- !app_assoc. reflexivity. }
  cbn. rewrite map_app. cbn. reflexivity.
Qed.

(** X5.  When [start_adb_logcat] returns, no collector was running
    before; the log goes to the file [adblog,MODEL,SERIAL.txt] in the log
    directory of the device, which has been created; the collector is
    the subprocess [adb -s SERIAL logcat -v threadtime PARAMS >> FILE],
    started last, where PARAMS is the attribute [adb_logcat_param] of the
    configuration, and [-b all] without it; and the device records the
    process and the path, nothing else changes. *)
Theorem start_adb_logcat_command (env : Env) (w : World)
    (self : AndroidDevice) :
  let o := start_adb_logcat env w self in
  res o = Ok tt ->
  adb_logcat_process self = None
  /\ exists (m : option string) (p : Process) (cs : list call),
       let f_name :=
         "adblog," +++ match m with Some s => s | None => "None" end
         +++ "," +++ serial self +++ ".txt" in
       let path := os_path_join (log_path self) f_name in
       let params :=
         match dict_get String.eqb "adb_logcat_param" (attrs self) with
         | Some v => py_str v
         | None => "-b all"
         end in
       st o = set_adb_logcat_file_path (Some path)
                (set_adb_logcat_process (Some p) self)
       /\ new_calls w (world o)
          = adb_shell (serial self) "logpersist.start" :: cs
            ++ [create_dir (log_path self);
                start_standing_subprocess
                  ("adb -s " +++ serial self +++ " logcat -v threadtime "
                   +++ params +++ " >> " +++ path)].
Proof. intros o. exact (start_adb_logcat_ok env w self). Qed.

(** X6.  The life of a log collector.  After [start_adb_logcat] has
    returned, a second [start_adb_logcat] raises [AndroidDeviceError]
    without a call and without a change.  [stop_adb_logcat] stops the
    subprocess: when it returns the collector is off and the path of the
    log is kept, and another [stop_adb_logcat] raises
    [AndroidDeviceError], again without a call; when stopping the
    subprocess raises, the device still holds the collector. *)
Theorem adb_logcat_start_stop (env : Env) (w : World) (self : AndroidDevice) :
  let o1 := start_adb_logcat env w self in
  let o2 := stop_adb_logcat env (world o1) (st o1) in
  res o1 = Ok tt ->
  start_adb_logcat env (world o1) (st o1)
  = {| res := Raise (AndroidDeviceError
                       ("Android device " +++ serial self
                        +++ " already has an adb "
                        +++ "logcat thread going on. Cannot start "
                        +++ "another one."));
       world := world o1; st := st o1 |}
  /\ (res o2 = Ok tt ->
      is_adb_logcat_on (st o2) = false
      /\ adb_logcat_file_path (st o2) = adb_logcat_file_path (st o1)
      /\ (exists p, new_calls (world o1) (world o2)
                    = [stop_standing_subprocess p])
      /\ stop_adb_logcat env (world o2) (st o2)
         = {| res := Raise (AndroidDeviceError
                              ("Android device " +++ serial self
                               +++ " does not have an ongoing adb logcat collection."));
              world := world o2; st := st o2 |})
  /\ (forall e, res o2 = Raise e -> st o2 = st o1).
Proof.
  intros o1 o2 Hok.
  destruct (start_adb_logcat_ok env w self Hok)
    as (Hoff & m & p & cs & Hst & _).
  fold o1 in Hst. cbv zeta in Hst. subst o2. rewrite Hst.
  generalize (world o1). intros w1. clear Hst Hok o1.
  split; [reflexivity|].
  unfold stop_adb_logcat, bind, get, call_unit, call_with, modify.
  cbn [adb_logcat_process set_adb_logcat_file_path set_adb_logcat_process
       res world st].
  destruct (raises env (List.length (trace w1)) (stop_standing_subprocess p))
    as [e|]; cbn [res world st].
  - split; [intros [=]|]. reflexivity.
  - split; [|intros e [=]]. intros _. split; [reflexivity|].
    split; [reflexivity|]. split; [|reflexivity].
    exists p. unfold new_calls, new_events. cbn [trace log_event].
    now rewrite skipn_app, skipn_all, Nat.sub_diag.
Qed.

(** ** Attributes from the configuration: [load_config] *)

(** [hasattr] on a plain name makes no call. *)
Lemma hasattr_plain (env : Env) (w : World) (self : AndroidDevice)
    (k : string) :
  plain_name k = true ->
  hasattr k env w self
  = {| res := Ok (existsb (String.eqb k) class_attributes
                  || dict_mem String.eqb k (attrs self));
       world := w; st := self |}.
Proof.
  unfold plain_name. intros H.
  apply andb_prop in H. destruct H as [H Hm].
  apply andb_prop in H. destruct H as [H Hr].
  apply andb_prop in H. destruct H as [_ Hb].
  apply negb_true_iff in Hm, Hr, Hb.
  unfold hasattr. rewrite Hb, Hr, Hm. reflexivity.
Qed.

Lemma load_config_ok (config : list (string * pyval)) :
  forall env w self,
  NoDup (map fst config) ->
  forallb plain_name (map fst config) = true ->
  wp (load_config config) env w self (fun r w' s' =>
    w' = w
    /\ (r = Ok tt ->
        s' = set_attrs (attrs self ++ config) self
        /\ (forall k, In k (map fst config) ->
              existsb (String.eqb k) class_attributes = false
              /\ dict_mem String.eqb k (attrs self) = false))).
Proof.
  induction config as [|[k v] rest IH]; intros env w self Hnd Hplain;
    cbn [load_config].
  - wp_step. split; [reflexivity|]. intros _. rewrite app_nil_r.
    split; [now destruct self|]. intros k [].
  - inversion Hnd as [|? ? Hnotin Hnd']; subst.
    cbn [map fst forallb] in Hplain. apply andb_prop in Hplain.
    destruct Hplain as [Hk Hplain].
    wp_step. unfold wp at 1. rewrite (hasattr_plain env w self k Hk).
    cbn [res world st].
    destruct (existsb (String.eqb k) class_attributes
              || dict_mem String.eqb k (attrs self)) eqn:Hb.
    { wp_run. split; [reflexivity|]. intros [=]. }
    apply orb_false_iff in Hb. destruct Hb as [Hc Hm].
    wp_step. wp_step. cbv beta iota.
    eapply wp_conseq; [apply (IH env w _ Hnd' Hplain)|]. cbv beta.
    intros r w2 s2 [-> H]. split; [reflexivity|]. intros E.
    destruct (H E) as (-> & Hkeys).
    cbn [attrs set_attrs] in *.
    rewrite (dict_set_absent String.eqb k v (attrs self) Hm) in *.
    split.
    { rewrite <- app_assoc. reflexivity. }
    intros k' [<-|Hk']; [now split|].
    destruct (Hkeys k' Hk') as [Hc' Hm']. split; [assumption|].
    unfold dict_mem in *.
    destruct (dict_get String.eqb k' (attrs self)) eqn:E'; [|reflexivity].
    exfalso.
    assert (Hin : In k' (dict_keys (attrs self ++ [(k, v)]))).
    { unfold dict_keys. rewrite map_app. apply in_or_app. left.
      apply (dict_get_In String.eqb String_eqb_spec) in E'.
      now apply (in_map fst) in E'. }
    apply (dict_mem_In String.eqb String_eqb_spec) in Hin.
    unfold dict_mem in Hin.
    destruct (dict_get String.eqb k' (attrs self ++ [(k, v)]));
      discriminate.
Qed.

Lemma dict_get_app_absent {V : Type} (k : string) (a b : list (string * V)) :
  dict_get String.eqb k a = None ->
  dict_get String.eqb k (a ++ b) = dict_get String.eqb k b.
Proof.
  induction a as [|[k' v'] a IH]; cbn; [reflexivity|].
  destruct (String.eqb k' k); [discriminate|assumption].
Qed.

Lemma dict_get_app_present {V : Type} (k : string) (v : V)
    (a b : list (string * V)) :
  dict_get String.eqb k a = Some v ->
  dict_get String.eqb k (a ++ b) = Some v.
Proof.
  induction a as [|[k' v'] a IH]; cbn; [discriminate|].
  destruct (String.eqb k' k); [trivial|assumption].
Qed.

Lemma dict_get_NoDup_In {V : Type} (k : string) (v : V)
    (d : list (string * V)) :
  NoDup (map fst d) -> In (k, v) d -> dict_get String.eqb k d = Some v.
Proof.
  induction d as [|[k' v'] d IH]; cbn; intros Hnd Hin; [contradiction|].
  inversion Hnd as [|? ? Hnotin Hnd']; subst.
  destruct Hin as [[= -> ->]|Hin].
  - now rewrite String.eqb_refl.
  - destruct (String.eqb_spec k' k) as [->|_]; [|auto].
    exfalso. apply Hnotin. now apply (in_map fst) in Hin.
Qed.

(** X7.  A configuration whose keys are plain names.  [load_config]
    makes no call.  When it returns, every key of the configuration is an
    attribute of the device with the value of the configuration, the
    attributes added before keep their values, none of the keys was a
    name of the class or an attribute already, and nothing else of the
    device has changed. *)
Theorem load_config_sets_attributes (env : Env) (w : World)
    (self : AndroidDevice) (config : list (string * pyval)) :
  NoDup (map fst config) ->
  forallb plain_name (map fst config) = true ->
  let o := load_config config env w self in
  world o = w
  /\ (res o = Ok tt ->
      st o = set_attrs (attrs self ++ config) self
      /\ (forall k v, In (k, v) config ->
            dict_get String.eqb k (attrs (st o)) = Some v)
      /\ (forall k v, dict_get String.eqb k (attrs self) = Some v ->
            dict_get String.eqb k (attrs (st o)) = Some v)
      /\ (forall k, In k (map fst config) ->
            existsb (String.eqb k) class_attributes = false
            /\ dict_mem String.eqb k (attrs self) = false)).
Proof.
  intros Hnd Hplain o.
  destruct (load_config_ok config env w self Hnd Hplain) as (Hw & H).
  fold o in Hw, H. split; [exact Hw|]. intros Hok.
  destruct (H Hok) as (Hs & Hkeys). split; [exact Hs|].
  rewrite Hs. cbn [attrs set_attrs]. split; [|split; [|exact Hkeys]].
  - intros k v Hin.
    destruct (Hkeys k (in_map fst _ _ Hin)) as [_ Hm].
    unfold dict_mem in Hm.
    destruct (dict_get String.eqb k (attrs self)) eqn:E; [discriminate|].
    rewrite (dict_get_app_absent k _ _ E).
    now apply dict_get_NoDup_In.
  - intros k v E. now apply dict_get_app_present.
Qed.

Lemma dict_mem_app_other {V : Type} (k k0 : string) (v0 : V)
    (a : list (string * V)) :
  k <> k0 -> dict_mem String.eqb k a = false ->
  dict_mem String.eqb k (a ++ [(k0, v0)]) = false.
Proof.
  intros Hne. unfold dict_mem.
  destruct (dict_get String.eqb k a) eqn:E; [discriminate|]. intros _.
  rewrite (dict_get_app_absent k _ _ E). cbn.
  destruct (String.eqb_spec k0 k); [congruence|reflexivity].
Qed.

Lemma dict_mem_app_present {V : Type} (k : string) (a b : list (string * V)) :
  dict_mem String.eqb k a = true -> dict_mem String.eqb k (a ++ b) = true.
Proof.
  unfold dict_mem. destruct (dict_get String.eqb k a) eqn:E; [|discriminate].
  intros _. now rewrite (dict_get_app_present k _ _ _ E).
Qed.

(** X8.  [load_config] is not atomic.  When a key of the configuration
    is a name of the class or an attribute the device has already, it
    raises [AndroidDeviceError] naming the key and the serial; the keys
    of the configuration that come before it have been added to the
    device and stay there, those after it have not been looked at, and no
    call has left the module. *)
Theorem load_config_existing_attribute (env : Env) (w : World)
    (pre post : list (string * pyval)) (k : string) (v : pyval) :
  forall self : AndroidDevice,
  NoDup (map fst pre) ->
  forallb plain_name (map fst pre) = true ->
  plain_name k = true ->
  (forall k', In k' (map fst pre) ->
     existsb (String.eqb k') class_attributes = false
     /\ dict_mem String.eqb k' (attrs self) = false) ->
  existsb (String.eqb k) class_attributes
  || dict_mem String.eqb k (attrs self) = true ->
  load_config (pre ++ (k, v) :: post) env w self
  = {| res := Raise (AndroidDeviceError
                       ("Attempting to set existing attribute " +++ k
                        +++ " on " +++ serial self));
       world := w;
       st := set_attrs (attrs self ++ pre) self |}.
Proof.
  induction pre as [|[k0 v0] pre IH]; intros self Hnd Hplain Hk Hfree Hex.
  - cbn [app load_config]. unfold bind at 1.
    rewrite (hasattr_plain env w self k Hk). cbn [res world st].
    rewrite Hex. rewrite app_nil_r. now destruct self.
  - inversion Hnd as [|? ? Hnotin Hnd']; subst.
    cbn [map fst forallb] in Hplain. apply andb_prop in Hplain.
    destruct Hplain as [Hk0 Hplain].
    destruct (Hfree k0 (or_introl eq_refl)) as [Hc0 Hm0].
    cbn [app load_config]. unfold bind at 1.
    rewrite (hasattr_plain env w self k0 Hk0). cbn [res world st].
    rewrite Hc0, Hm0. cbn [orb]. unfold bind at 1. unfold modify.
    cbn [res world st].
    rewrite (dict_set_absent String.eqb k0 v0 (attrs self) Hm0).
    rewrite IH; cbn [attrs set_attrs serial]; try assumption.
    + rewrite <- app_assoc. reflexivity.
    + intros k' Hk'. destruct (Hfree k' (or_intror Hk')) as [Hc Hm].
      split; [assumption|]. apply dict_mem_app_other; [|assumption].
      intros ->. contradiction.
    + apply orb_true_iff in Hex. apply orb_true_iff.
      destruct Hex as [Hex|Hex]; [now left|right].
      now apply dict_mem_app_present.
Qed.

(** ** The constructor *)

Lemma new_calls_app (w w' : World) (l : list event) :
  trace w' = trace w ++ l -> new_calls w w' = map ev_call l.
Proof. intros H. unfold new_calls. now rewrite (new_events_app w w' l H). Qed.

Lemma init_body_calls (env : Env) (w : World) (self : AndroidDevice) :
  wp (b <- is_bootloader ;; if negb b then root_adb else ret tt) env w self
    (fun r w' s' =>
       r = Ok tt ->
       new_calls w w'
       = constructor_calls env (List.length (trace w)) (serial self)).
Proof.
  unfold is_bootloader, list_fastboot_devices, root_adb, is_adb_root,
    constructor_calls.
  wp_run; try (intros [=]; fail); intros _.
  all: rewrite ?length_log_event in *.
  all: repeat match goal with
         | H : negb _ = true |- _ => apply negb_true_iff in H
         | H : negb _ = false |- _ => apply negb_false_iff in H
         end.
  all: repeat match goal with
         | H : ?x = _ |- context [if ?x then _ else _] => rewrite H
         end.
  all: erewrite new_calls_app;
       [|cbn [trace log_event]; rewrite <- ?app_assoc; reflexivity].
  all: reflexivity.
Qed.

Lemma new_AndroidDevice_result (env : Env) (w : World) (h : Store)
    (s : string) :
  let o := new_AndroidDevice s env w h in
  (forall r, res o = Ok r ->
     r = List.length h
     /\ st o = h ++ [fresh_device env s]
     /\ new_calls w (world o)
        = constructor_calls env (List.length (trace w)) s)
  /\ (forall e, res o = Raise e -> st o = h)
  /\ res o <> Diverge.
Proof.
  cbv zeta. unfold new_AndroidDevice, AndroidDevice_init.
  fold (fresh_device env s).
  pose proof (init_body_reads env w (fresh_device env s)) as Hst.
  pose proof (init_body_calls env w (fresh_device env s)) as Hcalls.
  unfold wp in Hst, Hcalls.
  destruct ((b <- is_bootloader ;; if negb b then root_adb else ret tt)
              env w (fresh_device env s)) as [[[]|e|] w' s'];
    cbn [res world st] in *.
  - destruct Hst as [-> _]. split; [|split; [intros e [=]|discriminate]].
    intros r [= <-]. split; [reflexivity|]. split; [reflexivity|].
    now apply Hcalls.
  - split; [intros r [=]|split; [reflexivity|discriminate]].
  - now destruct Hst.
Qed.

(** X9.  The constructor.  When [AndroidDevice(serial)] returns, the new
    object is the last of the store: it has the serial, the device port
    8080, its log directory [AndroidDevice] + serial under the log path of
    the run ([/tmp/logs] outside a run), no host port, no session, no
    dispatcher and no log collector.  The constructor has asked fastboot
    for its devices; unless the device is among them it has asked for the
    user id, and unless that is root it has restarted adb as root,
    waited, remounted and waited again.  When the constructor raises, no
    object is left. *)
Theorem constructor_roots_adb (env : Env) (w : World) (h : Store)
    (s : string) :
  let o := new_AndroidDevice s env w h in
  (forall r, res o = Ok r ->
     r = List.length h
     /\ st o = h ++ [fresh_device env s]
     /\ new_calls w (world o)
        = constructor_calls env (List.length (trace w)) s)
  /\ (forall e, res o = Raise e -> st o = h).
Proof.
  cbv zeta. destruct (new_AndroidDevice_result env w h s) as (H1 & H2 & _).
  split; assumption.
Qed.

(** ** Objects for a list of serials *)

Lemma get_instances_loop_fresh (env : Env) (serials : list string) :
  forall (results : list ref) (w : World) (h : Store),
  wp (get_instances_loop serials results) env w h (fun r w' h' =>
    r <> Diverge
    /\ (forall ads, r = Ok ads ->
          ads = results ++ seq (List.length h) (List.length serials)
          /\ h' = h ++ map (fresh_device env) serials)
    /\ (forall e, r = Raise e ->
          exists k, k < List.length serials
            /\ h' = h ++ map (fresh_device env) (firstn k serials))).
Proof.
  induction serials as [|s rest IH]; intros results w h;
    cbn [get_instances_loop].
  - wp_step. split; [discriminate|]. split; [|intros e [=]].
    intros ads [= <-]. cbn. now rewrite !app_nil_r.
  - wp_step. unfold wp at 1.
    destruct (new_AndroidDevice_result env w h s) as (Hok & Hraise & Hnd).
    destruct (res (new_AndroidDevice s env w h)) as [a|e|] eqn:E;
      [| |contradiction].
    + destruct (Hok a eq_refl) as (-> & Hst & _). rewrite Hst.
      eapply wp_conseq; [apply IH|]. cbv beta.
      intros r w2 h2 (Hnd2 & Hok2 & Hraise2). split; [assumption|]. split.
      * intros ads E2. destruct (Hok2 ads E2) as [-> ->].
        rewrite <- !app_assoc, length_app. cbn.
        rewrite Nat.add_1_r. now split.
      * intros e E2. destruct (Hraise2 e E2) as (k & Hk & ->).
        exists (S k). split; [cbn; lia|]. cbn. now rewrite <- app_assoc.
    + rewrite (Hraise e eq_refl). split; [discriminate|].
      split; [intros ads [=]|]. intros e' _. exists 0.
      split; [cbn; lia|]. cbn. now rewrite app_nil_r.
Qed.

(** X10.  [get_instances] builds one object per serial, in the order of
    the serials, each as its constructor leaves it.  When the constructor
    of some serial raises, the exception propagates, the objects of the
    serials before it stay in the store and those after it are not
    built. *)
Theorem get_instances_in_order (env : Env) (w : World) (h : Store)
    (serials : list string) :
  let o := get_instances serials env w h in
  res o <> Diverge
  /\ (forall ads, res o = Ok ads ->
        ads = seq (List.length h) (List.length serials)
        /\ st o = h ++ map (fresh_device env) serials)
  /\ (forall e, res o = Raise e ->
        exists k, k < List.length serials
          /\ st o = h ++ map (fresh_device env) (firstn k serials)).
Proof.
  cbv zeta. unfold get_instances.
  exact (get_instances_loop_fresh env serials [] w h).
Qed.

(** ** Objects for a list of configurations *)

Lemma dict_del_keys_incl {K V : Type} (eqb : K -> K -> bool) (k0 k : K)
    (d : list (K * V)) :
  In k (map fst (dict_del eqb k0 d)) -> In k (map fst d).
Proof.
  induction d as [|[k' v'] d IH]; cbn; [tauto|].
  destruct (eqb k' k0); cbn; [now right|].
  intros [->|H]; [now left|right; auto].
Qed.

Lemma config_wf_rest (c : list (string * pyval)) :
  config_wf c ->
  NoDup (map fst (dict_del String.eqb "serial" c))
  /\ forallb plain_name (map fst (dict_del String.eqb "serial" c)) = true.
Proof.
  intros (Hnd & Hplain & _). split.
  - now apply (dict_del_NoDup String.eqb String_eqb_spec).
  - apply forallb_forall. intros k Hk.
    rewrite forallb_forall in Hplain. apply Hplain.
    eapply dict_del_keys_incl. exact Hk.
Qed.

Lemma get_instances_with_configs_loop_spec2 (env : Env)
    (configs : list (list (string * pyval))) :
  Forall config_wf configs ->
  forall (results : list ref) (w : World) (h : Store),
  wp (get_instances_with_configs_loop configs results) env w h
    (fun r w' h' =>
       forall ads, r = Ok ads ->
         ads = results ++ seq (List.length h) (List.length configs)
         /\ exists new, h' = h ++ new /\ Forall2 (configured env) configs new).
Proof.
  induction configs as [|c rest IH]; intros Hwf results w h;
    cbn [get_instances_with_configs_loop].
  - wp_step. intros ads [= <-]. cbn. rewrite app_nil_r. split; [reflexivity|].
    exists []. rewrite app_nil_r. split; [reflexivity|constructor].
  - inversion Hwf as [|? ? Hc Hrest]; subst.
    destruct (config_wf_rest c Hc) as [Hnd Hplain].
    destruct Hc as (_ & _ & Hstr).
    destruct (dict_get String.eqb "serial" c) as [v|] eqn:Es;
      [|wp_step; intros ads [=]].
    destruct (Hstr v eq_refl) as [s ->]. cbn [py_str].
    wp_step. unfold wp at 1.
    destruct (new_AndroidDevice_result env w h s) as (Hok & Hraise & Hdiv).
    destruct (res (new_AndroidDevice s env w h)) as [a|e|] eqn:E;
      [|intros ads [=]|contradiction].
    destruct (Hok a eq_refl) as (-> & Hst & _). rewrite Hst.
    wp_step. eapply wp_at_ref; [apply nth_error_last|].
    eapply wp_conseq; [apply (load_config_ok _ env _ _ Hnd Hplain)|].
    cbv beta. intros r w2 d2 [-> Hd2]. rewrite store_update_last.
    destruct r as [[]|e|]; [|intros ads [=]|intros ads [=]].
    destruct (Hd2 eq_refl) as [-> _]. cbn [attrs fresh_device app].
    eapply wp_conseq; [apply (IH Hrest)|]. cbv beta.
    intros r w3 h3 H ads E3. destruct (H ads E3) as (-> & new & -> & Hall).
    rewrite <- !app_assoc, length_app. cbn. rewrite Nat.add_1_r.
    split; [reflexivity|]. eexists. split; [reflexivity|].
    constructor; [|exact Hall]. exists s. now split.
Qed.

(** X11.  Configurations that are dictionaries of plain names with a
    string under ["serial"].  When [get_instances_with_configs] returns,
    it has built one object per configuration, in order: the
    constructor's object for the serial of the configuration, with every
    other key of the configuration as an attribute and ["serial"] itself
    not among the attributes. *)
Theorem get_instances_with_configs_attributes (env : Env) (w : World)
    (h : Store) (configs : list (list (string * pyval))) :
  Forall config_wf configs ->
  let o := get_instances_with_configs configs env w h in
  forall ads, res o = Ok ads ->
    ads = seq (List.length h) (List.length configs)
    /\ exists new, st o = h ++ new /\ Forall2 (configured env) configs new.
Proof.
  intros Hwf. cbv zeta. unfold get_instances_with_configs.
  exact (get_instances_with_configs_loop_spec2 env configs Hwf [] w h).
Qed.

(** ** [create]: the devices must be attached *)

Lemma existsb_eqb_In (s : string) (l : list string) :
  existsb (String.eqb s) l = true <-> In s l.
Proof.
  rewrite existsb_exists. split.
  - intros [x [Hx E]]. apply String.eqb_eq in E. now subst.
  - intros H. exists s. split; [assumption|apply String.eqb_refl].
Qed.

Lemma check_attached_result (env : Env) (connected : list string)
    (ss : list string) :
  forall (h0 : Store) (w : World),
  wp (check_attached (seq (List.length h0) (List.length ss)) connected) env w
     (h0 ++ map (fresh_device env) ss)
     (fun r w' h' =>
        w' = w /\ h' = h0 ++ map (fresh_device env) ss
        /\ ((r = Ok tt /\ forall s, In s ss -> In s connected)
            \/ exists pre s0 post,
                 ss = pre ++ s0 :: post
                 /\ (forall s, In s pre -> In s connected)
                 /\ ~ In s0 connected
                 /\ r = Raise (DoesNotExistError
                                 ("Android device " +++ s0
                                  +++ " is specified in config"
                                  +++ " but is not attached.")))).
Proof.
  induction ss as [|s ss IH]; intros h0 w; cbn [List.length seq check_attached].
  - wp_step. split; [reflexivity|]. split; [reflexivity|]. left.
    split; [reflexivity|]. intros s [].
  - wp_step. eapply wp_deref.
    { rewrite nth_error_app2 by lia. rewrite Nat.sub_diag. reflexivity. }
    cbn [serial fresh_device].
    destruct (existsb (String.eqb s) connected) eqn:E; cbn [negb].
    + apply existsb_eqb_In in E.
      replace (h0 ++ map (fresh_device env) (s :: ss))
        with ((h0 ++ [fresh_device env s]) ++ map (fresh_device env) ss)
        by (now rewrite <- app_assoc).
      replace (S (List.length h0))
        with (List.length (h0 ++ [fresh_device env s]))
        by (rewrite length_app; cbn; lia).
      eapply wp_conseq; [apply IH|]. cbv beta.
      intros r w' h' (-> & -> & H). split; [reflexivity|].
      split; [reflexivity|].
      destruct H as [[-> Hall]|(pre & s0 & post & -> & Hpre & Hs0 & ->)].
      * left. split; [reflexivity|]. intros x [<-|Hx]; auto.
      * right. exists (s :: pre), s0, post. split; [reflexivity|].
        split; [intros x [<-|Hx]; auto|]. now split.
    + wp_step. split; [reflexivity|]. split; [reflexivity|]. right.
      exists [], s, ss. split; [reflexivity|]. split; [intros x []|].
      split; [|reflexivity]. intros Hin. apply existsb_eqb_In in Hin.
      congruence.
Qed.

(** X12.  [create] for a list of serials, once the objects are built and
    [adb devices] has answered.  If [create] returns, it returns the
    objects built and every serial of the configuration is among the
    attached devices.  If some serial is not, [create] raises
    [DoesNotExistError] naming the first such serial right after the
    call of [adb devices]: no log collector and no session is started,
    the objects are left as built. *)
Theorem create_checks_attachment (env : Env) (w : World) (h : Store)
    (serials : list string) (ads : list ref) :
  let o1 := get_instances serials env w h in
  let n := List.length (trace (world o1)) in
  let connected := _parse_device_list (ret_str env n adb_devices) "device" in
  let o := create (ConfigsSerials serials) env w h in
  serials <> [] ->
  res o1 = Ok ads ->
  raises env n adb_devices = None ->
  (forall r, res o = Ok r ->
     r = ads /\ forall s, In s serials -> In s connected)
  /\ (forall pre s0 post,
        serials = pre ++ s0 :: post ->
        (forall s, In s pre -> In s connected) ->
        ~ In s0 connected ->
        res o = Raise (DoesNotExistError
                         ("Android device " +++ s0
                          +++ " is specified in config"
                          +++ " but is not attached."))
        /\ st o = st o1
        /\ new_calls (world o1) (world o) = [adb_devices]).
Proof.
  cbv zeta. intros Hne Hok Hr.
  destruct (get_instances_loop_fresh env serials [] w h) as (_ & Hads & _).
  fold (get_instances serials) in Hads.
  destruct (Hads ads Hok) as [Eads Est]. cbn [app] in Eads. clear Hads.
  destruct serials as [|s0 l]; [contradiction|]. clear Hne.
  remember (get_instances (s0 :: l) env w h) as o1 eqn:Eo1.
  set (connected := _parse_device_list
                      (ret_str env (List.length (trace (world o1))) adb_devices)
                      "device").
  change (wp (create (ConfigsSerials (s0 :: l))) env w h (fun r w' h' =>
    (forall x, r = Ok x ->
       x = ads /\ forall s, In s (s0 :: l) -> In s connected)
    /\ (forall pre x post,
          s0 :: l = pre ++ x :: post ->
          (forall s, In s pre -> In s connected) ->
          ~ In x connected ->
          r = Raise (DoesNotExistError
                       ("Android device " +++ x
                        +++ " is specified in config"
                        +++ " but is not attached."))
          /\ h' = st o1
          /\ new_calls (world o1) w' = [adb_devices]))).
  unfold create. apply wp_bind. unfold wp at 1. rewrite <- Eo1, Hok.
  wp_step. unfold list_adb_devices. wp_step. wp_step; [congruence|].
  wp_step. cbv beta iota. fold connected. wp_step.
  rewrite Est, Eads.
  eapply wp_conseq; [apply check_attached_result|]. cbv beta.
  rewrite <- Est, <- Eads.
  intros r w2 h2 (-> & -> & Hcase).
  destruct Hcase as [[-> Hall]|(pre & x & post & Hsplit & Hpre & Hx & ->)].
  - wp_step.
    apply (wp_conseq env _ _ _ (fun _ _ _ => True)); [exact I|].
    intros r w3 h3 _.
    assert (Hnone : forall pre x post,
              s0 :: l = pre ++ x :: post -> ~ In x connected -> False).
    { intros pre x post Hsplit Hx. apply Hx, Hall. rewrite Hsplit.
      apply in_or_app. right. now left. }
    destruct r as [[]|e|].
    + wp_step. split; [intros x [= <-]; now split|].
      intros pre x post Hsplit _ Hx. exfalso. eauto.
    + split; [intros x [=]|].
      intros pre x post Hsplit _ Hx. exfalso. eauto.
    + split; [intros x [=]|].
      intros pre x post Hsplit _ Hx. exfalso. eauto.
  - split; [intros r [=]|].
    intros pre' x' post' Hsplit' Hpre' Hx'.
    assert (Hsame : pre = pre' /\ x = x').
    { clear - Hsplit Hsplit' Hpre Hx Hpre' Hx'. rewrite Hsplit in Hsplit'.
      clear Hsplit. revert pre' Hsplit' Hpre'.
      induction pre as [|a pre IH]; intros [|b pre'] E Hpre'; cbn in E.
      - injection E as -> _. now split.
      - injection E as -> _. exfalso. apply Hx, Hpre'. now left.
      - injection E as -> _. exfalso. apply Hx', Hpre. now left.
      - injection E as -> E.
        destruct (IH (fun s Hs => Hpre s (or_intror Hs)) pre' E
                    (fun s Hs => Hpre' s (or_intror Hs))) as [-> ->].
        now split. }
    destruct Hsame as [<- <-]. split; [reflexivity|].
    split; [reflexivity|].
    unfold new_calls, new_events. cbn [trace log_event].
    now rewrite skipn_app, skipn_all, Nat.sub_diag.
Qed.

(** ** [destroy] and the sessions that do not close *)

Lemma close_droids_total (env : Env) (l : list Android) :
  forall (w : World) (self : AndroidDevice),
  wp (close_droids l) env w self (fun r w' s' => s' = self /\ r <> Diverge).
Proof.
  induction l as [|d l IH]; intros w self; cbn [close_droids].
  - wp_step. now split.
  - wp_step. wp_step; [now split|]. wp_step. wp_step; [now split|].
    apply IH.
Qed.

Lemma terminate_session_identity (env : Env) (w : World)
    (self : AndroidDevice) (sid : Z) :
  wp (terminate_session sid) env w self (fun r w' s' =>
    r <> Diverge /\ same_identity s' self).
Proof.
  assert (Hid : forall a, same_identity a a) by (intros a; now repeat split).
  assert (Hdisp : forall w1 s1, same_identity s1 self ->
            wp (terminate_session_dispatcher sid) env w1 s1 (fun r w' s' =>
              r <> Diverge /\ same_identity s' self)).
  { intros w1 s1 Hs1. unfold wp.
    destruct (terminate_session_dispatcher_spec env w1 s1 sid)
      as (Hnd & Hsame & _). split; [assumption|].
    destruct Hsame as (? & ? & ? & ? & ? & ? & ?).
    destruct Hs1 as (? & ? & ? & ? & ? & ?).
    repeat split; congruence. }
  unfold terminate_session. wp_step. unfold terminate_session_droids.
  wp_step. wp_step. cbv beta.
  destruct (_droid_sessions self) as [|kv rest].
  - wp_step. now apply Hdisp.
  - destruct (dict_get Z.eqb sid (kv :: rest)) as [l|].
    + wp_step. wp_use (close_droids_total env l w self).
      intros r w1 s1 [-> Hnd].
      destruct r as [[]|e|]; [|now split|contradiction].
      wp_step. cbv beta iota. apply Hdisp. now repeat split.
    + wp_step. now apply Hdisp.
Qed.

Lemma terminate_all_sessions_loop_identity (env : Env) (ids : list Z) :
  forall (w : World) (self : AndroidDevice),
  wp (terminate_all_sessions_loop ids) env w self (fun r w' s' =>
    r <> Diverge /\ same_identity s' self).
Proof.
  induction ids as [|sid ids IH]; intros w self;
    cbn [terminate_all_sessions_loop].
  - wp_step. split; [discriminate|]. now repeat split.
  - wp_step. wp_step. wp_use (terminate_session_identity env w self sid).
    intros r w1 s1 [Hnd Hsame].
    assert (Hnext : forall w2,
              wp (terminate_all_sessions_loop ids) env w2 s1 (fun r w' s' =>
                r <> Diverge /\ same_identity s' self)).
    { intros w2. eapply wp_conseq; [apply IH|]. cbv beta.
      intros r2 w3 s3 [Hnd3 Hsame3]. split; [assumption|].
      destruct Hsame as (? & ? & ? & ? & ? & ?).
      destruct Hsame3 as (? & ? & ? & ? & ? & ?).
      repeat split; congruence. }
    destruct r as [[]|e|]; [apply Hnext| |contradiction].
    wp_step. wp_step. cbv beta. wp_step. apply Hnext.
Qed.

Lemma terminate_all_sessions_identity (env : Env) (w : World)
    (self : AndroidDevice) :
  wp terminate_all_sessions env w self (fun r w' s' =>
    r <> Diverge /\ same_identity s' self).
Proof.
  unfold terminate_all_sessions. wp_step. wp_step. cbv beta.
  destruct (_droid_sessions self) as [|kv rest] eqn:Es.
  - wp_step. split; [discriminate|]. now repeat split.
  - cbv zeta. wp_step.
    wp_use (terminate_all_sessions_loop_identity env
              (dict_keys (kv :: rest)) w self).
    intros r w1 s1 [Hnd Hsame].
    destruct r as [[]|e|]; [|now split|contradiction].
    wp_run; (split; [discriminate|]);
      destruct Hsame as (? & ? & ? & ? & ? & ?); now repeat split.
Qed.

Lemma store_update_twice (r : ref) (a b : AndroidDevice) (h : Store) :
  store_update r b (store_update r a h) = store_update r b h.
Proof.
  revert r. induction h as [|x h IH]; intros [|r]; cbn; try reflexivity.
  now rewrite IH.
Qed.

Lemma store_update_serials (r : ref) (d d' : AndroidDevice) (h : Store) :
  nth_error h r = Some d -> serial d' = serial d ->
  map serial (store_update r d' h) = map serial h.
Proof.
  revert r. induction h as [|x h IH]; intros [|r] Hd E; cbn in *;
    try discriminate.
  - injection Hd as ->. now rewrite E.
  - now rewrite (IH r Hd E).
Qed.

Lemma destroy_no_collector (env : Env) :
  (forall n p, raises env n (stop_standing_subprocess p) = None) ->
  forall (ads : list ref) (w : World) (h : Store),
  (forall r, In r ads -> r < List.length h) ->
  wp (destroy ads) env w h (fun r w' h' =>
    r = Ok tt
    /\ map serial h' = map serial h
    /\ (forall i, ~ In i ads -> nth_error h' i = nth_error h i)
    /\ (forall x, In x ads ->
          holds_at h' (fun d => adb_logcat_process d = None) x)).
Proof.
  intros Hstop. induction ads as [|ad rest IH]; intros w h Hvalid;
    cbn [destroy].
  - wp_step. split; [reflexivity|]. split; [reflexivity|].
    split; [reflexivity|]. intros x [].
  - assert (Hlt : ad < List.length h) by (apply Hvalid; now left).
    destruct (nth_error h ad) as [d|] eqn:Hd;
      [|apply nth_error_None in Hd; lia].
    assert (Hfinish : forall (w2 : World) (d2 : AndroidDevice),
              serial d2 = serial d -> adb_logcat_process d2 = None ->
              wp (destroy rest) env w2 (store_update ad d2 h)
                (fun r w' h' =>
                   r = Ok tt
                   /\ map serial h' = map serial h
                   /\ (forall i, ~ In i (ad :: rest) ->
                         nth_error h' i = nth_error h i)
                   /\ (forall x, In x (ad :: rest) ->
                         holds_at h'
                           (fun d => adb_logcat_process d = None) x))).
    { intros w2 d2 Hs2 Hoff.
      eapply wp_conseq.
      { apply IH. intros r Hr. rewrite store_update_length. apply Hvalid.
        now right. }
      cbv beta. intros r w' h' (-> & Hmap & Hframe & Hrest).
      split; [reflexivity|].
      split; [now rewrite Hmap, (store_update_serials ad d d2 h Hd Hs2)|].
      split.
      - intros i Hi. rewrite Hframe by (intros H; apply Hi; now right).
        apply store_update_other. intros ->. apply Hi. now left.
      - intros x [<-|Hx]; [|now apply Hrest].
        destruct (in_dec Nat.eq_dec ad rest) as [Hin|Hnotin];
          [now apply Hrest|].
        exists d2. split; [|assumption]. rewrite Hframe by assumption.
        now apply store_update_same. }
    wp_step. wp_step. eapply wp_at_ref; [exact Hd|].
    wp_use (terminate_all_sessions_identity env w d).
    intros r w1 d1 (Hnd & Hs1 & _ & _ & Hp1 & _).
    assert (Hstep : forall w1',
              wp (d <- deref ad ;;
                  (if is_adb_logcat_on d then at_ref ad stop_adb_logcat
                   else ret tt) ;;
                  destroy rest) env w1' (store_update ad d1 h)
                (fun r w' h' =>
                   r = Ok tt
                   /\ map serial h' = map serial h
                   /\ (forall i, ~ In i (ad :: rest) ->
                         nth_error h' i = nth_error h i)
                   /\ (forall x, In x (ad :: rest) ->
                         holds_at h'
                           (fun d => adb_logcat_process d = None) x))).
    { intros w1'. wp_step.
      eapply wp_deref; [now apply store_update_same|].
      unfold is_adb_logcat_on.
      destruct (adb_logcat_process d1) as [p|] eqn:Ep.
      - wp_step. eapply wp_at_ref; [now apply store_update_same|].
        unfold stop_adb_logcat. wp_step. wp_step. cbv beta. rewrite Ep.
        wp_step. wp_step; [rewrite Hstop in Hraise; discriminate|].
        wp_step. cbv beta iota. rewrite store_update_twice.
        now apply Hfinish.
      - wp_step. wp_step. now apply Hfinish. }
    destruct r as [[]|e|]; [| |contradiction]; cbv beta iota.
    + apply Hstep.
    + wp_step. cbv beta iota. apply Hstep.
Qed.

(** X13.  [destroy] when stopping a subprocess never raises.  Whatever
    state the sessions of the devices are in and whatever the calls that
    close them do, [destroy] returns: an exception of
    [terminate_all_sessions] is swallowed.  Afterwards no device of the
    list has a log collector, the serials are those of before, and the
    objects that are not in the list are untouched. *)
Theorem destroy_swallows_session_errors (env : Env) (w : World) (h : Store)
    (ads : list ref) :
  (forall n p, raises env n (stop_standing_subprocess p) = None) ->
  (forall r, In r ads -> r < List.length h) ->
  let o := destroy ads env w h in
  res o = Ok tt
  /\ map serial (st o) = map serial h
  /\ (forall i, ~ In i ads -> nth_error (st o) i = nth_error h i)
  /\ (forall x, In x ads ->
        holds_at (st o) (fun d => adb_logcat_process d = None) x).
Proof.
  intros Hstop Hvalid. exact (destroy_no_collector env Hstop ads w h Hvalid).
Qed.

(** ** The destructor *)

Lemma del_spec (env : Env) (w : World) (self : AndroidDevice) :
  wp __del__ env w self (fun r w' s' =>
    h_port s' = h_port self
    /\ _droid_sessions s' = _droid_sessions self
    /\ _event_dispatchers s' = _event_dispatchers self
    /\ (r = Ok tt -> adb_logcat_process s' = None)
    /\ (forall p, h_port self = Some p -> p <> 0%Z ->
          exists rest,
            new_calls w w'
            = adb_forward (serial self) ("--remove tcp:" +++ str_of_Z p)
              :: rest)
    /\ (port_truthy (h_port self) = false ->
        adb_logcat_process self = None ->
        r = Ok tt /\ w' = w /\ s' = self)).
Proof.
  destruct self as [ser hp dp lp ss es proc path at_].
  unfold __del__, stop_adb_logcat, is_adb_logcat_on.
  destruct hp as [p|]; destruct proc as [pr|]; wp_crunch.
  all: split; [reflexivity|]; split; [reflexivity|]; split; [reflexivity|].
  all: split; [intros H; first [discriminate H | reflexivity]|].
  all: split;
    [intros q Hq Hq0;
     first
       [ discriminate Hq
       | injection Hq as <-;
         first
           [ apply negb_false_iff, Z.eqb_eq in Heqb; contradiction
           | eexists; erewrite new_calls_app;
             [|cbn [trace log_event]; rewrite <- ?app_assoc; reflexivity];
             reflexivity ] ]
    | intros Ht Hp;
      first [discriminate Ht | discriminate Hp | now repeat split] ].
Qed.

(** X14.  The destructor.  [__del__] removes the forward of the host
    port whenever [h_port] is set (and not 0), also when no session is
    registered, and this is its first call; it leaves [h_port] and the
    registries as they are; when it returns, no log collector is left.
    On a device with no host port and no log collector it makes no call
    at all. *)
Theorem del_releases_port (env : Env) (w : World) (self : AndroidDevice) :
  let o := __del__ env w self in
  h_port (st o) = h_port self
  /\ _droid_sessions (st o) = _droid_sessions self
  /\ _event_dispatchers (st o) = _event_dispatchers self
  /\ (res o = Ok tt -> adb_logcat_process (st o) = None)
  /\ (forall p, h_port self = Some p -> p <> 0%Z ->
        exists rest,
          new_calls w (world o)
          = adb_forward (serial self) ("--remove tcp:" +++ str_of_Z p)
            :: rest)
  /\ (port_truthy (h_port self) = false ->
      adb_logcat_process self = None ->
      res o = Ok tt /\ world o = w /\ st o = self).
Proof. exact (del_spec env w self). Qed.

(** ** iperf *)

Lemma join_split (s : string) : join nl (split LF s) = s.
Proof.
  induction s as [|c s IH]; [reflexivity|].
  cbn [split]. destruct (Ascii.eqb_spec c LF) as [->|Hc].
  - pose proof (split_not_nil LF s) as Hne.
    destruct (split LF s) as [|x t] eqn:E; [contradiction|].
    cbn [join]. cbn [join] in IH. rewrite IH. reflexivity.
  - destruct (split LF s) as [|x t] eqn:E.
    + exfalso. now apply (split_not_nil LF s).
    + cbn [join] in *. destruct t as [|y t].
      * now rewrite IH.
      * cbn. now rewrite <- IH.
Qed.

Lemma split_lines_no_sep (s : string) :
  Forall (fun l => contains_char LF l = false) (split LF s).
Proof.
  induction s as [|c s IH]; [repeat constructor|].
  cbn [split]. destruct (Ascii.eqb c LF) eqn:Hc.
  - constructor; [reflexivity|assumption].
  - destruct (split LF s) as [|x t]; [repeat constructor; cbn; now rewrite Hc|].
    inversion IH; subst. constructor; [|assumption].
    cbn. rewrite Hc. assumption.
Qed.

Lemma iperf_lines (out : string) :
  let lines := split LF (strip out) in
  lines <> []
  /\ join nl lines = strip out
  /\ Forall (fun l => contains_char LF l = false) lines.
Proof.
  cbv zeta. split; [apply split_not_nil|].
  split; [apply join_split|apply split_lines_no_sep].
Qed.

(** X15.  [run_iperf_client] makes one call, the shell command [iperf3
    -c HOST ARGS], leaves the device alone and passes an exception of the
    call on.  When the call returns it gives back the lines of the
    output, white space around the output stripped: at least one line,
    none with a line break, and joined by line breaks they are the
    stripped output.  The status is [False] exactly when the first line
    holds [error] in any letter case; what the other lines say does not
    count. *)
Theorem run_iperf_client_result (env : Env) (w : World)
    (self : AndroidDevice) (server_host extra_args : string) :
  let c := adb_shell (serial self)
             ("iperf3 -c " +++ server_host +++ " " +++ extra_args) in
  let n := List.length (trace w) in
  let o := run_iperf_client server_host extra_args env w self in
  st o = self
  /\ new_calls w (world o) = [c]
  /\ (forall e, raises env n c = Some e -> res o = Raise e)
  /\ (raises env n c = None ->
      exists lines,
        res o = Ok (negb (is_substring "error" (lower (hd "" lines))), lines)
        /\ lines <> []
        /\ join nl lines = strip (ret_str env n c)
        /\ Forall (fun l => contains_char LF l = false) lines).
Proof.
  cbv zeta. unfold run_iperf_client, bind, get, call_str, call_with.
  cbn [res world st].
  destruct (raises env (List.length (trace w))
              (adb_shell (serial self)
                 ("iperf3 -c " +++ server_host +++ " " +++ extra_args)))
    as [e|] eqn:Hr; cbn [res world st].
  - split; [reflexivity|]. split.
    { unfold new_calls, new_events. cbn [trace log_event].
      now rewrite skipn_app, skipn_all, Nat.sub_diag. }
    split; [now intros e' [= <-]|intros [=]].
  - destruct (iperf_lines
                (ret_str env (List.length (trace w))
                   (adb_shell (serial self)
                      ("iperf3 -c " +++ server_host +++ " " +++ extra_args))))
      as (Hne & Hjoin & Hall).
    destruct (is_substring "error"
                (lower (hd ""
                   (split LF (strip
                      (ret_str env (List.length (trace w))
                         (adb_shell (serial self)
                            ("iperf3 -c " +++ server_host +++ " "
                             +++ extra_args)))))))) eqn:Hs;
      cbn [res world st ret].
    all: split; [reflexivity|]; split;
      [unfold new_calls, new_events; cbn [trace log_event];
       now rewrite skipn_app, skipn_all, Nat.sub_diag|].
    all: split; [intros e [=]|]; intros _; eexists;
      (split; [rewrite Hs; reflexivity|]); now repeat split.
Qed.

(** X16.  [run_iperf_server] makes one call, the shell command [iperf3 -s
    ARGS] (with an empty ARGS the command ends in a space), leaves the
    device alone and passes an exception of the call on.  Its result is
    read off the output as for the client: the lines of the stripped
    output, and [False] exactly when the first of them holds [error] in
    any letter case. *)
Theorem run_iperf_server_result (env : Env) (w : World)
    (self : AndroidDevice) (extra_args : string) :
  let c := adb_shell (serial self) ("iperf3 -s " +++ extra_args) in
  let n := List.length (trace w) in
  let o := run_iperf_server extra_args env w self in
  st o = self
  /\ new_calls w (world o) = [c]
  /\ (forall e, raises env n c = Some e -> res o = Raise e)
  /\ (raises env n c = None ->
      exists lines,
        res o = Ok (negb (is_substring "error" (lower (hd "" lines))), lines)
        /\ lines <> []
        /\ join nl lines = strip (ret_str env n c)
        /\ Forall (fun l => contains_char LF l = false) lines).
Proof.
  cbv zeta. unfold run_iperf_server, bind, get, call_str, call_with.
  cbn [res world st].
  destruct (raises env (List.length (trace w))
              (adb_shell (serial self) ("iperf3 -s " +++ extra_args)))
    as [e|] eqn:Hr; cbn [res world st].
  - split; [reflexivity|]. split.
    { unfold new_calls, new_events. cbn [trace log_event].
      now rewrite skipn_app, skipn_all, Nat.sub_diag. }
    split; [now intros e' [= <-]|intros [=]].
  - destruct (iperf_lines
                (ret_str env (List.length (trace w))
                   (adb_shell (serial self) ("iperf3 -s " +++ extra_args))))
      as (Hne & Hjoin & Hall).
    destruct (is_substring "error"
                (lower (hd ""
                   (split LF (strip
                      (ret_str env (List.length (trace w))
                         (adb_shell (serial self)
                            ("iperf3 -s " +++ extra_args)))))))) eqn:Hs;
      cbn [res world st ret].
    all: split; [reflexivity|]; split;
      [unfold new_calls, new_events; cbn [trace log_event];
       now rewrite skipn_app, skipn_all, Nat.sub_diag|].
    all: split; [intros e [=]|]; intros _; eexists;
      (split; [rewrite Hs; reflexivity|]); now repeat split.
Qed.

(** ** Finding a device *)

Lemma plain_name_parts (k : string) :
  plain_name k = true ->
  String.prefix "__" k = false
  /\ String.eqb k "is_bootloader" = false
  /\ String.eqb k "is_adb_root" = false
  /\ String.eqb k "model" = false.
Proof.
  unfold plain_name. intros H.
  apply andb_prop in H. destruct H as [H Hm].
  apply andb_prop in H. destruct H as [H Hr].
  apply andb_prop in H. destruct H as [Hp Hb].
  apply negb_true_iff in Hm, Hr, Hb, Hp. now repeat split.
Qed.

(** On a plain name [hasattr] and [attribute] agree. *)
Lemma attribute_known (self : AndroidDevice) (k : string) :
  plain_name k = true ->
  if existsb (String.eqb k) class_attributes
     || dict_mem String.eqb k (attrs self)
  then exists a, attribute self k = Some a
  else attribute self k = None.
Proof.
  intros Hplain. destruct (plain_name_parts k Hplain) as (Hp & _).
  unfold attribute.
  repeat match goal with
         | |- context [String.eqb k ?s] =>
             destruct (String.eqb_spec k s) as [->|?];
             [first [discriminate Hp | cbn; eexists; reflexivity]|]
         end.
  destruct (existsb (String.eqb k) class_attributes); cbn [orb];
    [eexists; reflexivity|].
  unfold dict_mem.
  destruct (dict_get String.eqb k (attrs self)); cbn;
    [eexists; reflexivity|reflexivity].
Qed.

Lemma getattr_direct (env : Env) (w : World) (self : AndroidDevice)
    (k : string) (a : attr_value) :
  direct_name k = true -> attribute self k = Some a ->
  getattr k env w self = {| res := Ok a; world := w; st := self |}.
Proof.
  unfold direct_name. intros H Ha.
  apply andb_prop in H. destruct H as [Hplain Hd].
  apply negb_true_iff in Hd.
  destruct (plain_name_parts k Hplain) as (_ & Hb & Hr & Hm).
  unfold getattr. rewrite Hb, Hr, Hm. unfold bind, get. cbn [res world st].
  rewrite Hd, Ha. reflexivity.
Qed.

Lemma get_device_filter_direct (env : Env) (w : World)
    (kwargs : list (string * pyval)) (self : AndroidDevice) :
  forallb direct_name (map fst kwargs) = true ->
  _get_device_filter kwargs env w self
  = {| res := Ok (matches kwargs self); world := w; st := self |}.
Proof.
  induction kwargs as [|[k v] rest IH]; intros H; [reflexivity|].
  cbn [map fst forallb] in H. apply andb_prop in H. destruct H as [Hk Hrest].
  assert (Hplain : plain_name k = true).
  { unfold direct_name in Hk. apply andb_prop in Hk. tauto. }
  cbn [_get_device_filter]. unfold bind at 1.
  rewrite (hasattr_plain env w self k Hplain). cbn [res world st].
  pose proof (attribute_known self k Hplain) as Hknown.
  unfold matches. cbn [forallb fst snd]. fold (matches rest self).
  destruct (existsb (String.eqb k) class_attributes
            || dict_mem String.eqb k (attrs self)); cbn [negb].
  - destruct Hknown as [a Ha]. unfold bind at 1.
    rewrite (getattr_direct env w self k a Hk Ha). cbn [res world st].
    rewrite Ha. destruct (attr_ne a v); cbn [negb andb]; [reflexivity|].
    now apply IH.
  - rewrite Hknown. reflexivity.
Qed.

Lemma filter_devices_loop_direct (env : Env) (w : World) (h : Store)
    (kwargs : list (string * pyval)) :
  forallb direct_name (map fst kwargs) = true ->
  forall (ads results : list ref),
  (forall r, In r ads -> r < List.length h) ->
  filter_devices_loop ads (fun ad => at_ref ad (_get_device_filter kwargs))
    results env w h
  = {| res := Ok (results ++ matching h kwargs ads); world := w; st := h |}.
Proof.
  intros Hk. induction ads as [|ad rest IH]; intros results Hvalid.
  - cbn. now rewrite app_nil_r.
  - assert (Hlt : ad < List.length h) by (apply Hvalid; now left).
    destruct (nth_error h ad) as [d|] eqn:Hd;
      [|apply nth_error_None in Hd; lia].
    assert (E : at_ref ad (_get_device_filter kwargs) env w h
                = {| res := Ok (matches kwargs d); world := w; st := h |}).
    { unfold at_ref. rewrite Hd.
      rewrite (get_device_filter_direct env w kwargs d Hk).
      cbn [res world st]. now rewrite (store_update_id ad d h Hd). }
    cbn [filter_devices_loop]. unfold bind at 1. rewrite E.
    cbn [res world st].
    unfold matching. cbn [filter]. rewrite Hd. fold (matching h kwargs rest).
    destruct (matches kwargs d).
    + rewrite IH by (intros r Hr; apply Hvalid; now right).
      now rewrite <- app_assoc.
    + apply IH. intros r Hr. apply Hvalid. now right.
Qed.

Lemma serials_of_valid (env : Env) (w : World) (h : Store) (ads : list ref) :
  (forall r, In r ads -> r < List.length h) ->
  serials_of ads env w h
  = {| res := Ok (map (serial_at h) ads); world := w; st := h |}.
Proof.
  induction ads as [|ad rest IH]; intros Hvalid; [reflexivity|].
  assert (Hlt : ad < List.length h) by (apply Hvalid; now left).
  destruct (nth_error h ad) as [d|] eqn:Hd;
    [|apply nth_error_None in Hd; lia].
  assert (E : deref ad env w h = {| res := Ok d; world := w; st := h |}).
  { unfold deref, at_ref. rewrite Hd. unfold get. cbn [res world st].
    now rewrite (store_update_id ad d h Hd). }
  cbn [serials_of]. unfold bind at 1. rewrite E. cbn [res world st].
  unfold bind at 1. rewrite IH by (intros r Hr; apply Hvalid; now right).
  cbn [res world st map].
  change (serial_at h ad)
    with (match nth_error h ad with Some d => serial d | None => "" end).
  rewrite Hd. reflexivity.
Qed.

(** X17.  [get_device] with keywords that are settled on the objects
    (plain names other than [droids]).  It makes no call and changes no
    device.  A device is kept when it has every keyword as an attribute
    with an equal value.  If exactly one device of the list is kept,
    that device is returned; if none is, or more than one, it raises
    [AndroidDeviceError], and in the second case the message lists the
    serials of the devices kept, in the order of the list. *)
Theorem get_device_unique (env : Env) (w : World) (h : Store)
    (ads : list ref) (kwargs : list (string * pyval)) :
  forallb direct_name (map fst kwargs) = true ->
  (forall r, In r ads -> r < List.length h) ->
  get_device ads kwargs env w h
  = {| res :=
         match matching h kwargs ads with
         | [] =>
             Raise (AndroidDeviceError
                      ("Could not find a target device that matches condition: "
                       +++ dict_repr kwargs +++ "."))
         | [ad] => Ok ad
         | found =>
             Raise (AndroidDeviceError
                      ("More than one device matched: "
                       +++ list_repr (map (serial_at h) found)))
         end;
       world := w; st := h |}.
Proof.
  intros Hk Hvalid. unfold get_device, filter_devices. unfold bind at 1.
  rewrite (filter_devices_loop_direct env w h kwargs Hk ads [] Hvalid).
  cbn [res world st app].
  assert (Hfound : forall r, In r (matching h kwargs ads) ->
            r < List.length h).
  { intros r Hr. apply Hvalid. unfold matching in Hr.
    apply filter_In in Hr. tauto. }
  destruct (matching h kwargs ads) as [|a [|b found]]; [reflexivity ..|].
  unfold bind. rewrite (serials_of_valid env w h _ Hfound). reflexivity.
Qed.

(** ** What [terminate_all_sessions] can raise *)

Lemma keeps_port_refl (self : AndroidDevice) (w : World) :
  keeps_port self w w self.
Proof.
  split; [reflexivity|]. split; [reflexivity|]. exists [].
  split; [now rewrite app_nil_r|constructor].
Qed.

Lemma keeps_port_step (self s1 : AndroidDevice) (w w1 : World) (c : call)
    (o : outcome) (dt : Z) :
  keeps_port self w w1 s1 ->
  (forall a, c <> adb_forward (serial self) a) ->
  keeps_port self w (log_event c o dt w1) s1.
Proof.
  intros (Hs & Hp & delta & Ht & Hall) Hc.
  split; [assumption|]. split; [assumption|].
  exists (delta ++ [{| ev_time := now w1; ev_call := c; ev_out := o |}]).
  split; [cbn [trace log_event]; now rewrite Ht, app_assoc|].
  apply Forall_app. split; [assumption|]. repeat constructor. exact Hc.
Qed.

Lemma keeps_port_registries (self s1 : AndroidDevice) (w w1 : World)
    (s2 : AndroidDevice) :
  keeps_port self w w1 s1 ->
  serial s2 = serial s1 -> h_port s2 = h_port s1 ->
  keeps_port self w w1 s2.
Proof.
  intros (Hs & Hp & Hd) Hs2 Hp2. split; [congruence|]. split; [congruence|].
  exact Hd.
Qed.

Lemma close_droids_keeps_port (env : Env) (self0 : AndroidDevice)
    (w0 : World) (l : list Android) :
  forall (w : World) (self : AndroidDevice),
  keeps_port self0 w0 w self ->
  wp (close_droids l) env w self (fun r w' s' =>
    r <> Diverge /\ s' = self /\ keeps_port self0 w0 w' s').
Proof.
  induction l as [|d l IH]; intros w self Hk; cbn [close_droids].
  - wp_step. split; [discriminate|]. now split.
  - wp_step. wp_step.
    { split; [discriminate|]. split; [reflexivity|].
      apply keeps_port_step; [assumption|discriminate]. }
    wp_step. wp_step.
    { split; [discriminate|]. split; [reflexivity|].
      repeat (apply keeps_port_step; [|discriminate]). assumption. }
    apply IH. repeat (apply keeps_port_step; [|discriminate]). assumption.
Qed.

Lemma terminate_session_dispatcher_keeps_port (env : Env)
    (self0 : AndroidDevice) (w0 : World) (sid : Z) (w : World)
    (self : AndroidDevice) :
  keeps_port self0 w0 w self ->
  wp (terminate_session_dispatcher sid) env w self (fun r w' s' =>
    r <> Diverge /\ keeps_port self0 w0 w' s').
Proof.
  intros Hk. unfold terminate_session_dispatcher. wp_step. wp_step. cbv beta zeta.
  destruct (dict_get String.eqb (serial self +++ str_of_Z sid)
              (_event_dispatchers self)) as [[ed|]|].
  - wp_step. wp_step.
    { split; [discriminate|]. apply keeps_port_step; [assumption|discriminate]. }
    wp_step. split; [discriminate|].
    eapply keeps_port_registries;
      [apply keeps_port_step; [exact Hk|discriminate]|reflexivity ..].
  - wp_step. wp_step. split; [discriminate|assumption].
  - wp_step. split; [discriminate|assumption].
Qed.

Lemma terminate_session_keeps_port (env : Env) (self0 : AndroidDevice)
    (w0 : World) (sid : Z) (w : World) (self : AndroidDevice) :
  keeps_port self0 w0 w self ->
  wp (terminate_session sid) env w self (fun r w' s' =>
    r <> Diverge /\ keeps_port self0 w0 w' s').
Proof.
  intros Hk. unfold terminate_session. wp_step.
  unfold terminate_session_droids. wp_step. wp_step. cbv beta.
  destruct (_droid_sessions self) as [|kv rest].
  - wp_step. now apply terminate_session_dispatcher_keeps_port.
  - destruct (dict_get Z.eqb sid (kv :: rest)) as [l|].
    + wp_step. wp_use (close_droids_keeps_port env self0 w0 l w self Hk).
      intros r w1 s1 (Hnd & -> & Hk1).
      destruct r as [[]|e|]; [|now split|contradiction].
      wp_step. cbv beta iota.
      apply terminate_session_dispatcher_keeps_port.
      eapply keeps_port_registries; [exact Hk1|reflexivity ..].
    + wp_step. now apply terminate_session_dispatcher_keeps_port.
Qed.

Lemma terminate_all_sessions_loop_returns (env : Env) (self0 : AndroidDevice)
    (w0 : World) (ids : list Z) :
  forall (w : World) (self : AndroidDevice),
  keeps_port self0 w0 w self ->
  wp (terminate_all_sessions_loop ids) env w self (fun r w' s' =>
    r = Ok tt /\ keeps_port self0 w0 w' s').
Proof.
  induction ids as [|sid ids IH]; intros w self Hk;
    cbn [terminate_all_sessions_loop].
  - wp_step. now split.
  - wp_step. wp_step.
    wp_use (terminate_session_keeps_port env self0 w0 sid w self Hk).
    intros r w1 s1 [Hnd Hk1].
    destruct r as [[]|e|]; [| |contradiction]; cbv beta iota.
    + now apply IH.
    + wp_step. wp_step. cbv beta. wp_step. cbv beta iota.
      apply IH. apply keeps_port_step; [assumption|discriminate].
Qed.

(** X18.  The one thing [terminate_all_sessions] can raise.  On any
    device, whatever its registries hold and whatever closing the
    connections or cleaning up the dispatchers does, the call ends; the
    only call of [adb forward] it can make is its last call, removing
    the forward of the host port; and when it raises, it is that call
    that raised the exception.  So where removing a forward does not
    raise, [terminate_all_sessions] returns. *)
Theorem terminate_all_sessions_raises_only_for_forward (env : Env)
    (w : World) (self : AndroidDevice) :
  let o := terminate_all_sessions env w self in
  res o <> Diverge
  /\ (forall x, res o = Raise x ->
        exists p delta ev,
          h_port self = Some p
          /\ trace (world o) = trace w ++ delta ++ [ev]
          /\ ev_call ev
             = adb_forward (serial self) ("--remove tcp:" +++ str_of_Z p)
          /\ ev_out ev = Raised x
          /\ Forall (no_forward_call (serial self)) delta)
  /\ ((forall n a, raises env n (adb_forward (serial self) a) = None) ->
      res o = Ok tt).
Proof.
  cbv zeta.
  change (wp terminate_all_sessions env w self (fun r w' s' =>
    r <> Diverge
    /\ (forall x, r = Raise x ->
          exists p delta ev,
            h_port self = Some p
            /\ trace w' = trace w ++ delta ++ [ev]
            /\ ev_call ev
               = adb_forward (serial self) ("--remove tcp:" +++ str_of_Z p)
            /\ ev_out ev = Raised x
            /\ Forall (no_forward_call (serial self)) delta)
    /\ ((forall n a, raises env n (adb_forward (serial self) a) = None) ->
        r = Ok tt))).
  unfold terminate_all_sessions. wp_step. wp_step. cbv beta.
  destruct (_droid_sessions self) as [|kv rest] eqn:Es.
  - wp_step. split; [discriminate|]. split; [intros x [=]|reflexivity].
  - cbv zeta. wp_step.
    wp_use (terminate_all_sessions_loop_returns env self w
              (dict_keys (kv :: rest)) w self (keeps_port_refl self w)).
    intros r w1 s1 (-> & Hs & Hp & delta & Ht & Hall).
    wp_step. wp_step. cbv beta. rewrite Hp, Hs.
    destruct (h_port self) as [p|] eqn:Ehp.
    + destruct (port_truthy (Some p)).
      * wp_step. wp_step.
        -- split; [discriminate|]. split.
           ++ intros x [= <-]. exists p, delta. eexists.
              split; [reflexivity|]. split.
              { cbn [trace log_event]. rewrite Ht. now rewrite app_assoc. }
              split; [reflexivity|]. split; [reflexivity|assumption].
           ++ intros Hnone. rewrite Hnone in Hraise. discriminate.
        -- wp_step. split; [discriminate|].
           split; [intros x [=]|reflexivity].
      * wp_step. split; [discriminate|].
        split; [intros x [=]|reflexivity].
    + wp_step. split; [discriminate|].
      split; [intros x [=]|reflexivity].
Qed.

(** ** All attached devices *)

(** X19.  [get_all_instances] asks adb for the attached devices and,
    with [include_fastboot], fastboot for the devices in fastboot mode.
    When it returns it has built one object per serial listed, those of
    adb first, in the order of the two lists. *)
Theorem get_all_instances_order (env : Env) (w : World) (h : Store)
    (include_fastboot : bool) :
  let n := List.length (trace w) in
  let adb_list := _parse_device_list (ret_str env n adb_devices) "device" in
  let fastboot_list :=
    _parse_device_list (ret_str env (S n) fastboot_devices) "fastboot" in
  let serials :=
    if include_fastboot then adb_list ++ fastboot_list else adb_list in
  let o := get_all_instances include_fastboot env w h in
  forall ads, res o = Ok ads ->
    ads = seq (List.length h) (List.length serials)
    /\ st o = h ++ map (fresh_device env) serials.
Proof.
  cbv zeta.
  change (wp (get_all_instances include_fastboot) env w h (fun r w' h' =>
    forall ads, r = Ok ads ->
      ads = seq (List.length h)
              (List.length
                 (if include_fastboot
                  then _parse_device_list
                         (ret_str env (List.length (trace w)) adb_devices)
                         "device"
                       ++ _parse_device_list
                            (ret_str env (S (List.length (trace w)))
                               fastboot_devices) "fastboot"
                  else _parse_device_list
                         (ret_str env (List.length (trace w)) adb_devices)
                         "device"))
      /\ h' = h ++ map (fresh_device env)
                     (if include_fastboot
                      then _parse_device_list
                             (ret_str env (List.length (trace w)) adb_devices)
                             "device"
                           ++ _parse_device_list
                                (ret_str env (S (List.length (trace w)))
                                   fastboot_devices) "fastboot"
                      else _parse_device_list
                             (ret_str env (List.length (trace w)) adb_devices)
                             "device"))).
  unfold get_all_instances, list_adb_devices, list_fastboot_devices,
    get_instances.
  destruct include_fastboot.
  - wp_step. wp_step. wp_step; [intros ads [=]|]. wp_step. cbv beta iota.
    wp_step. wp_step. wp_step; [intros ads [=]|]. wp_step. cbv beta iota.
    rewrite length_log_event.
    eapply wp_conseq; [apply get_instances_loop_fresh|]. cbv beta.
    intros r w' h' (_ & Hok & _) ads E. now apply Hok.
  - wp_step. wp_step. wp_step; [intros ads [=]|]. wp_step. cbv beta iota.
    eapply wp_conseq; [apply get_instances_loop_fresh|]. cbv beta.
    intros r w' h' (_ & Hok & _) ads E. now apply Hok.
Qed.
